(** * TagesschauScraper: a shallow embedding of [tagesschau.py]

    The development follows the source file top to bottom:
    - [Py]        the Python built-ins the program calls ([str.strip],
                  [str.split], [int], [str], [str.replace], [in], [join],
                  [sorted]);
    - [Soup]      the part of BeautifulSoup the program uses ([find],
                  [find_all], [get_text], [get]);
    - [DateCodec] [create_url_for_news_archive] and the two date methods of
                  class [Archive];
    - [Scraper]   classes [Teaser], [Article] and [TagesschauScraper], over a
                  store of dictionaries, an output log and the network;
    - [Markdown]  class [TagesschauArticle];
    - [DB]        class [TagesschauDB], the table behind [sqlite3].

    Strings are sequences of characters; a character is a code point below
    256 (the site's text is Latin-1 representable), carried by [ascii]. *)

From Stdlib Require Import ZArith Lia Bool Ascii String List.
From stdpp Require Import base gmap strings list sorting.

Local Open Scope Z_scope.
Set Warnings "-register-all,-clear-no-such-hyp".
Local Arguments String.append : simpl nomatch.

(** ** Exceptions and results *)

(** The exception classes that the program raises or that reach it. The
    message of an error raised by a built-in is left empty. *)
Inductive exn : Type :=
  | ValueError (msg : string)
  | KeyError (key : string)
  | IndexError
  | OverflowError (msg : string)
  | TooManyRedirects (msg : string)
  | gaierror (msg : string)
  | ConnectionError (msg : string)
  | OtherException (msg : string).

(** [str(e)] *)
Definition exn_str (e : exn) : string :=
  match e with
  | ValueError msg => msg
  | KeyError key => "'" +:+ key +:+ "'"
  | IndexError => "list index out of range"
  | OverflowError msg | TooManyRedirects msg | gaierror msg
  | ConnectionError msg | OtherException msg => msg
  end.

Inductive result (A : Type) : Type :=
  | Ok (a : A)
  | Raise (e : exn).
Arguments Ok {A} a.
Arguments Raise {A} e.

#[export] Instance result_ret : MRet result := λ A a, Ok a.
#[export] Instance result_bind : MBind result := λ A B k r,
  match r with
  | Ok a => k a
  | Raise e => Raise e
  end.

(** ** Python built-ins *)

Module Py.

(** [str.isspace] on one character, for code points below 256. *)
Definition isspace (c : ascii) : bool :=
  let n := Z.of_N (N_of_ascii c) in
  ((9 <=? n) && (n <=? 13)) || ((28 <=? n) && (n <=? 32))
  || (n =? 133) || (n =? 160).

Definition is_empty (s : string) : bool :=
  match s with EmptyString => true | String _ _ => false end.

Fixpoint lstrip (s : string) : string :=
  match s with
  | EmptyString => EmptyString
  | String c s' => if isspace c then lstrip s' else s
  end.

Fixpoint rstrip (s : string) : string :=
  match s with
  | EmptyString => EmptyString
  | String c s' =>
      let r := rstrip s' in
      if isspace c && is_empty r then EmptyString else String c r
  end.

Fixpoint all_chars (p : ascii → bool) (s : string) : bool :=
  match s with
  | EmptyString => true
  | String c s' => p c && all_chars p s'
  end.

(** [s.strip()] *)
Definition strip (s : string) : string := lstrip (rstrip s).

(** [s.split()]: maximal runs of non-whitespace characters. [word] is the
    run being read. *)
Fixpoint split_from (s : string) (word : string) : list string :=
  match s with
  | EmptyString => if is_empty word then [] else [word]
  | String c s' =>
      if isspace c
      then (if is_empty word then split_from s' EmptyString
            else word :: split_from s' EmptyString)
      else split_from s' (word +:+ String c EmptyString)
  end.

Definition split (s : string) : list string := split_from s EmptyString.

(** [s[:-1]] *)
Fixpoint drop_last (s : string) : string :=
  match s with
  | EmptyString => EmptyString
  | String c EmptyString => EmptyString
  | String c s' => String c (drop_last s')
  end.

(** [sub in s] *)
Fixpoint contains (sub s : string) : bool :=
  String.prefix sub s ||
  match s with
  | EmptyString => false
  | String _ s' => contains sub s'
  end.

(** [s.replace(a, b)] for one-character [a] and [b]. *)
Fixpoint replace (a b : ascii) (s : string) : string :=
  match s with
  | EmptyString => EmptyString
  | String c s' => String (if Ascii.eqb c a then b else c) (replace a b s')
  end.

(** [sep.join(l)] *)
Fixpoint join (sep : string) (l : list string) : string :=
  match l with
  | [] => EmptyString
  | [s] => s
  | s :: l' => s +:+ sep +:+ join sep l'
  end.

(** Decimal digits. *)
Definition digit_char (d : Z) : ascii := ascii_of_N (Z.to_N (48 + d)).

Definition digit_of (c : ascii) : option Z :=
  let n := Z.of_N (N_of_ascii c) in
  if (48 <=? n) && (n <=? 57) then Some (n - 48) else None.

(** [str(n)] for an [int]: the digits are produced least significant
    first, in front of [acc]. *)
Fixpoint digits_from (fuel : nat) (n : Z) (acc : string) : string :=
  let acc' := String (digit_char (n mod 10)) acc in
  match fuel with
  | O => acc'
  | S fuel' => if n <? 10 then acc' else digits_from fuel' (n / 10) acc'
  end.

Definition str_nonneg (n : Z) : string :=
  digits_from (Z.to_nat (Z.log2 n)) n EmptyString.

Definition str (n : Z) : string :=
  if n <? 0 then String "-" (str_nonneg (- n)) else str_nonneg n.

(** [sys.get_int_max_str_digits()]: a literal of more decimal digits is
    refused by [int]. *)
Definition int_max_str_digits : nat := 4300.

Fixpoint count_digits (s : string) : nat :=
  match s with
  | EmptyString => O
  | String c s' =>
      match digit_of c with
      | Some _ => S (count_digits s')
      | None => count_digits s'
      end
  end.

(** [int(s)]: surrounding whitespace, an optional sign, then decimal
    digits, where single underscores may separate digits; the digits,
    leading zeros included, are at most [int_max_str_digits]. *)
Fixpoint int_digits (s : string) (acc : Z) (after_digit : bool) : option Z :=
  match s with
  | EmptyString => if after_digit then Some acc else None
  | String c s' =>
      match digit_of c with
      | Some d => int_digits s' (10 * acc + d) true
      | None =>
          if Ascii.eqb c "_" && after_digit then int_digits s' acc false
          else None
      end
  end.

Definition int (s : string) : result Z :=
  let body :=
    match strip s with
    | EmptyString => None
    | String c s' =>
        if Ascii.eqb c "-" then Z.opp <$> int_digits s' 0 false
        else if Ascii.eqb c "+" then int_digits s' 0 false
        else int_digits (String c s') 0 false
    end in
  match body with
  | Some n =>
      if (int_max_str_digits <? count_digits (strip s))%nat
      then Raise (ValueError "")
      else Ok n
  | None => Raise (ValueError "")
  end.

(** [l[i]] on a list, negative indices counting from the end. *)
Definition getitem {A} (l : list A) (i : Z) : result A :=
  let j := if i <? 0 then i + Z.of_nat (length l) else i in
  if j <? 0 then Raise IndexError
  else match l !! Z.to_nat j with
       | Some a => Ok a
       | None => Raise IndexError
       end.

(** [l.index(x)] on a list of strings. *)
Fixpoint index_from (l : list string) (x : string) (i : Z) : result Z :=
  match l with
  | [] => Raise (ValueError "")
  | y :: l' => if String.eqb y x then Ok i else index_from l' x (i + 1)
  end.

Definition index (l : list string) (x : string) : result Z :=
  index_from l x 0.

(** [sorted(l)] on strings: a stable merge sort for the lexicographic
    order on code points. *)
Definition sorted (l : list string) : list string := merge_sort String.le l.

(** Character classes: what is no whitespace, what is a decimal digit. *)
Definition not_space (c : ascii) : bool := negb (isspace c).
Definition is_digit (c : ascii) : bool :=
  match digit_of c with Some _ => true | None => false end.

End Py.

(** ** BeautifulSoup *)

Module Soup.

(** An attribute value is a string, or a list of strings for the
    multi-valued attributes ([class]). *)
Inductive attr_value : Type :=
  | AttrStr (s : string)
  | AttrList (l : list string).

(** A node of the parsed document: a [NavigableString] or a [Tag]. The
    [BeautifulSoup] object itself is the [Tag] at the root. *)
Inductive node : Type :=
  | Text (s : string)
  | Elem (name : string) (attrs : list (string * attr_value))
         (children : list node).

Definition is_tag (n : node) : bool :=
  match n with Text _ => false | Elem _ _ _ => true end.

Definition name_of (n : node) : option string :=
  match n with Text _ => None | Elem name _ _ => Some name end.

(** [tag.get(key)] *)
Fixpoint assoc (key : string) (attrs : list (string * attr_value))
  : option attr_value :=
  match attrs with
  | [] => None
  | (k, v) :: attrs' => if String.eqb k key then Some v else assoc key attrs'
  end.

Definition get (n : node) (key : string) : option attr_value :=
  match n with
  | Text _ => None
  | Elem _ attrs _ => assoc key attrs
  end.

(** [tag.descendants]: every node below [n], in document order. *)
Fixpoint descendants (n : node) : list node :=
  match n with
  | Text _ => []
  | Elem _ _ children =>
      (fix go (l : list node) : list node :=
         match l with
         | [] => []
         | c :: l' => c :: descendants c ++ go l'
         end) children
  end.

(** How a search for [class_=sel] matches an attribute value: one of the
    classes is [sel], or the classes joined by a space are [sel]. *)
Definition matches_attr (sel : string) (v : option attr_value) : bool :=
  match v with
  | None => false
  | Some (AttrStr s) => String.eqb s sel
  | Some (AttrList l) =>
      existsb (λ c, String.eqb c sel) l || String.eqb (Py.join " " l) sel
  end.

Definition has_class (sel : string) (n : node) : bool :=
  is_tag n && matches_attr sel (get n "class").

Definition has_name (name : string) (n : node) : bool :=
  match n with
  | Text _ => false
  | Elem name' _ _ => String.eqb name' name
  end.

(** [tag.find_all()], [tag.find_all(name)], [tag.find_all(class_=sel)] *)
Definition find_all (n : node) : list node :=
  filter (λ d, is_tag d = true) (descendants n).

Definition find_all_name (name : string) (n : node) : list node :=
  filter (λ d, has_name name d = true) (descendants n).

Definition find_all_class (sel : string) (n : node) : list node :=
  filter (λ d, has_class sel d = true) (descendants n).

(** [tag.find(name)], [tag.find(class_=sel)] *)
Definition find_name (name : string) (n : node) : option node :=
  head (find_all_name name n).

Definition find_class (sel : string) (n : node) : option node :=
  head (find_all_class sel n).

(** The strings of a node: itself for a string, the strings below it for
    a tag. *)
Definition strings_of (n : node) : list string :=
  match n with
  | Text s => [s]
  | Elem _ _ _ =>
      omap (λ d, match d with Text s => Some s | Elem _ _ _ => None end)
           (descendants n)
  end.

(** [tag.get_text(separator, strip)] *)
Definition get_text (n : node) (strip : bool) (separator : string) : string :=
  let strings :=
    if strip
    then filter (λ s, Py.is_empty s = false) (Py.strip <$> strings_of n)
    else strings_of n in
  Py.join separator strings.

(** [element.decompose()] for every element found by [find_all(name)]. *)
Fixpoint remove_name (name : string) (n : node) : node :=
  match n with
  | Text s => Text s
  | Elem nm attrs children =>
      Elem nm attrs
        ((fix go (l : list node) : list node :=
            match l with
            | [] => []
            | c :: l' =>
                if has_name name c then go l'
                else remove_name name c :: go l'
            end) children)
  end.

End Soup.

(** ** The archive URL and the date in the archive headline *)

Module DateCodec.

(** [datetime.date]: the constructor [date_of] takes its arguments as C
    integers and then checks the ranges of the calendar. *)
Record date : Type := Date { year : Z; month : Z; day : Z }.

Definition is_leap (y : Z) : bool :=
  (y mod 4 =? 0) && (negb (y mod 100 =? 0) || (y mod 400 =? 0)).

Definition days_in_month (y m : Z) : Z :=
  if m =? 2 then (if is_leap y then 29 else 28)
  else if (m =? 4) || (m =? 6) || (m =? 9) || (m =? 11) then 30
  else 31.

Definition valid_date (d : date) : bool :=
  (1 <=? year d) && (year d <=? 9999)
  && (1 <=? month d) && (month d <=? 12)
  && (1 <=? day d) && (day d <=? days_in_month (year d) (month d)).

(** What fits a C [int]. *)
Definition c_int (n : Z) : bool := (- 2 ^ 31 <=? n) && (n <=? 2 ^ 31 - 1).

Definition date_of (y m d : Z) : result date :=
  if negb (c_int y && c_int m && c_int d) then Raise (OverflowError "")
  else if valid_date (Date y m d) then Ok (Date y m d)
  else Raise (ValueError "").

(** Zero padding of the [strftime] fields. *)
Fixpoint zeros (k : nat) : string :=
  match k with O => EmptyString | S k' => String "0" (zeros k') end.

Definition zfill (width : nat) (s : string) : string :=
  zeros (width - String.length s) +:+ s.

(** [date_.strftime("%Y-%m-%d")] as the C library of the platform renders
    it: the year as it is, without padding (year 5 gives [5-01-01]), the
    month and the day on two digits. *)
Definition strftime_Ymd (d : date) : string :=
  Py.str (year d) +:+ "-" +:+ zfill 2 (Py.str (month d))
  +:+ "-" +:+ zfill 2 (Py.str (day d)).

Definition categories : list string := ["wirtschaft"; "inland"; "ausland"].

Definition create_url_for_news_archive (date_ : date) (category : string)
  : result string :=
  let date_str := strftime_Ymd date_ in
  if bool_decide (category ∈ categories) then
    Ok ("https://www.tagesschau.de/archiv/?datum=" +:+ date_str
        +:+ "&ressort=" +:+ category)
  else if String.eqb category "all" then
    Ok ("https://www.tagesschau.de/archiv/?datum=" +:+ date_str)
  else
    Raise (ValueError
             ("category " +:+ category
              +:+ " not defined. category must be in"
              +:+ " ['wirtschaft', 'inland', 'ausland']")).

(** The characters of a formatted date: digits and the minus sign. *)
Definition date_char (c : ascii) : bool := Py.is_digit c || Ascii.eqb c "-".

Section Archive.

(** [constants.german_month_names], a list read by position. *)
Variable german_month_names : list string.

Definition transform_date_to_date_in_headline (date_ : date)
  : result string :=
  name ← Py.getitem german_month_names (month date_);
  mret (Py.str (day date_) +:+ ". " +:+ name +:+ " "
        +:+ Py.str (year date_)).

Definition transform_date_in_headline_to_date (date_in_headline : string)
  : result date :=
  match Py.split date_in_headline with
  | [day_raw; month_raw; year_raw] =>
      day ← Py.int (Py.drop_last day_raw);
      month ← Py.index german_month_names month_raw;
      year ← Py.int year_raw;
      date_of year month day
  | _ => Raise (ValueError "")
  end.

(** What the round trip needs of the table: the entries 1 to 12 are
    words (not empty, no whitespace) and each is the first occurrence
    of its name. *)
Definition is_word (s : string) : bool :=
  negb (Py.is_empty s) && Py.all_chars (λ c, negb (Py.isspace c)) s.

Definition month_entry_ok (m : Z) : bool :=
  match german_month_names !! Z.to_nat m with
  | Some name =>
      is_word name
      && match Py.index german_month_names name with
         | Ok i => i =? m
         | Raise _ => false
         end
  | None => false
  end.

Definition month_table_ok : bool :=
  forallb month_entry_ok [1; 2; 3; 4; 5; 6; 7; 8; 9; 10; 11; 12].

End Archive.

(** Modelled from the spec: [constants.german_month_names] is not part of
    the sources at hand. The spec fixes a table of the twelve German month
    names; the source reads it by month number, so the names sit at the
    positions 1 to 12 behind a placeholder at position 0. The a-umlaut of
    the third name is the code point 228. *)
Definition german_month_names_table : list string :=
  [ ""; "Januar"; "Februar";
    "M" +:+ String (ascii_of_nat 228) "rz";
    "April"; "Mai"; "Juni"; "Juli"; "August"; "September"; "Oktober";
    "November"; "Dezember" ].

End DateCodec.

(** ** Classes [Teaser], [Article] and [TagesschauScraper] *)

Module Scraper.

Import Soup.

(** The modules [retrieve] and [helper] are collaborators of the scraper:
    the fetch of a page reads and changes the state of the network and may
    raise; the hash of a link is a function; the normalisation of the date
    text may raise. *)
Class Collaborators : Type := {
  World : Type;
  get_soup_from_url : string → World → result node * World;
  get_hash_from_string : string → string;
  transform_datetime_str : string → result string
}.

Abbreviation dict := (gmap string string).
Definition loc : Type := nat.

(** A line written by [print], or by [ic] on the error stream. *)
Inductive output : Type :=
  | Stdout (line : string)
  | Stderr (line : string).

Section Pipeline.

Context {collaborators : Collaborators}.

(** The store of dictionaries (a dictionary is reached through its
    reference, so that two names can share one), the lines written so far,
    and the network. *)
Record state : Type := State {
  heap : list dict;
  written : list output;
  world : World
}.

(** A computation runs on a state and returns or raises; what it did to
    the state before raising stays done. *)
Definition M (A : Type) : Type := state → result A * state.

#[export] Instance M_ret : MRet M := λ A a st, (Ok a, st).
#[export] Instance M_bind : MBind M := λ A B k m st,
  match m st with
  | (Ok a, st') => k a st'
  | (Raise e, st') => (Raise e, st')
  end.

Definition raise {A} (e : exn) : M A := λ st, (Raise e, st).

Definition lift {A} (r : result A) : M A := λ st, (r, st).

(** [try: body except ...: handler] *)
Definition try_except {A} (body : M A) (handler : exn → M A) : M A := λ st,
  match body st with
  | (Ok a, st') => (Ok a, st')
  | (Raise e, st') => handler e st'
  end.

Definition alloc (d : dict) : M loc := λ st,
  (Ok (length (heap st)), State (heap st ++ [d]) (written st) (world st)).

Definition deref (l : loc) : M dict := λ st, (Ok (heap st !!! l), st).

Definition store (l : loc) (d : dict) : M unit := λ st,
  (Ok tt, State (<[l := d]> (heap st)) (written st) (world st)).

Definition print (line : string) : M unit := λ st,
  (Ok tt, State (heap st) (written st ++ [Stdout line]) (world st)).

(** [ic(text)] on a string literal. *)
Definition ic (text : string) : M unit := λ st,
  (Ok tt,
   State (heap st) (written st ++ [Stderr ("ic| '" +:+ text +:+ "'")])
         (world st)).

Definition fetch (url : string) : M node := λ st,
  let '(r, w) := get_soup_from_url url (world st) in
  (r, State (heap st) (written st) w).

(** [d[key]] *)
Definition dict_getitem (l : loc) (key : string) : M string :=
  d ← deref l;
  match d !! key with
  | Some v => mret v
  | None => raise (KeyError key)
  end.

(** [d[key] = v] *)
Definition dict_setitem (l : loc) (key v : string) : M unit :=
  d ← deref l; store l (<[key := v]> d).

(** [d.update(other)], for a dictionary value and for a reference. *)
Definition dict_update (l : loc) (other : dict) : M unit :=
  d ← deref l; store l (other ∪ d).

Definition dict_update_from (l other : loc) : M unit :=
  o ← deref other; dict_update l o.

(** *** class Article *)

(** Every element found by [find_all] is a [Tag] and has [get_text]. *)
Definition tag_texts (article_soup : node) : list string :=
  match find_class "taglist" article_soup with
  | Some tags_group =>
      (λ tag, get_text tag true "")
        <$> find_all_class "tag-btn tag-btn--light-grey" tags_group
  | None => []
  end.

Definition extract_article_tags (article_soup : node) : dict :=
  {[ "tags" := Py.join "," (Py.sorted (tag_texts article_soup)) ]}.

(** *** class Teaser *)

Record Teaser : Type := {
  teaser_soup : node;
  teaser_info : loc;
  required_attributes : gset string
}.

(** [Teaser(soup)] *)
Definition Teaser_init (soup : node) : M Teaser :=
  info ← alloc ∅;
  mret {| teaser_soup := soup;
          teaser_info := info;
          required_attributes :=
            {[ "date"; "headline"; "shorttext"; "link" ]} |}.

Definition field_names_text : list string :=
  ["date"; "topline"; "headline"; "shorttext"].
Definition field_names_link : list string := ["link"].

Definition name_html_mapping : list (string * string) :=
  (λ key, (key, "teaser-right__" +:+ key))
    <$> (field_names_text ++ field_names_link).

(** The body of the loop over [name_html_mapping]. *)
Definition extract_field (self : Teaser) (field : string * string) : M unit :=
  let '(field_name, html_class_name) := field in
  match find_class html_class_name (teaser_soup self) with
  | Some tag =>
      if bool_decide (field_name ∈ field_names_text) then
        dict_setitem (teaser_info self) field_name (get_text tag true " ")
      else if bool_decide (field_name ∈ field_names_link) then
        match get tag "href" with
        | Some (AttrStr href) =>
            if negb (Py.contains "www." href) then
              dict_setitem (teaser_info self) field_name
                ("https://www.tagesschau.de" +:+ href)
            else dict_setitem (teaser_info self) field_name href
        | _ => raise (ValueError "")
        end
      else mret tt
  | None => mret tt
  end.

Fixpoint for_each {A} (body : A → M unit) (l : list A) : M unit :=
  match l with
  | [] => mret tt
  | a :: l' => body a;; for_each body l'
  end.

Definition extract_info_from_teaser (self : Teaser) : M loc :=
  for_each (extract_field self) name_html_mapping;;
  mret (teaser_info self).

(** The [except] clauses, first match first. *)
Definition enrich_handler (article_link : string) (e : exn) : M unit :=
  match e with
  | TooManyRedirects _ =>
      print ("Article not found for link: " +:+ article_link +:+ ".")
  | gaierror _ => print ("gaierror: " +:+ exn_str e)
  | ConnectionError _ => print ("ConnectionError: " +:+ exn_str e)
  | _ => print ("Error: " +:+ exn_str e)
  end.

Definition enrich_teaser_info_with_article_tags
    (self : Teaser) (teaser_info' : loc) : M loc :=
  article_link ← dict_getitem teaser_info' "link";
  try_except
    (article_soup ← fetch article_link;
     let article_tags := extract_article_tags article_soup in
     dict_update teaser_info' article_tags;;
     dict_update_from (teaser_info self) teaser_info')
    (enrich_handler article_link);;
  mret teaser_info'.

Definition process_info (self : Teaser) (teaser_info' : loc) : M loc :=
  link ← dict_getitem teaser_info' "link";
  dict_setitem teaser_info' "id" (get_hash_from_string link);;
  date ← dict_getitem teaser_info' "date";
  date' ← lift (transform_datetime_str date);
  dict_setitem teaser_info' "date" date';;
  dict_update_from (teaser_info self) teaser_info';;
  mret teaser_info'.

Definition is_teaser_info_valid (self : Teaser) (teaser_info' : loc) : M bool :=
  d ← deref teaser_info';
  if bool_decide (required_attributes self ∖ dom d = ∅) then mret true
  else (ic "False";; ic "teaser_info.keys()";; mret false).

(** *** class TagesschauScraper *)

(** The body of the loop of [_extract_info_for_all_teaser]. *)
Definition process_teaser (teaser : node) (extracted_teaser_list : list loc)
  : M (list loc) :=
  teaserObj ← Teaser_init teaser;
  teaser_info' ← extract_info_from_teaser teaserObj;
  teaser_info_enriched ←
    enrich_teaser_info_with_article_tags teaserObj teaser_info';
  teaser_info_processed ← process_info teaserObj teaser_info_enriched;
  valid ← is_teaser_info_valid teaserObj teaser_info_processed;
  if valid : bool
  then mret (extracted_teaser_list ++ [teaser_info teaserObj])
  else mret extracted_teaser_list.

Fixpoint for_each_teaser (teasers : list node)
    (extracted_teaser_list : list loc) : M (list loc) :=
  match teasers with
  | [] => mret extracted_teaser_list
  | teaser :: rest =>
      extracted_teaser_list' ← process_teaser teaser extracted_teaser_list;
      for_each_teaser rest extracted_teaser_list'
  end.

(** The result is the list held under the key [teaser]: the references of
    the dictionaries, read in the final store. *)
Definition _extract_info_for_all_teaser (soup : node) : M (list loc) :=
  for_each_teaser (find_all_class "teaser-right twelve" soup) [].

(** *** Vocabulary of the properties *)

(** What a computation does to the store.

    [evolves l K st st']: from [st] to [st'] the store keeps its size, only
    the dictionary at [l] changes, and it gains keys of [K] only. *)
Definition evolves (l : loc) (K : gset string) (st st' : state) : Prop :=
  length (heap st') = length (heap st)
  ∧ (∀ l', l' ≠ l → heap st' !! l' = heap st !! l')
  ∧ dom (heap st' !!! l) ⊆ dom (heap st !!! l) ∪ K.

Definition keeps {A} (l : loc) (K : gset string) (m : M A) : Prop :=
  ∀ st r st', m st = (r, st') → evolves l K st st'.

Definition teaser_fields : gset string :=
  {[ "date"; "topline"; "headline"; "shorttext"; "link" ]}.

Definition required_fields : gset string :=
  {[ "date"; "headline"; "shorttext"; "link" ]}.

(** The object built for a block when the store is [st]. *)
Definition teaser_object (teaser : node) (st : state) : Teaser :=
  {| teaser_soup := teaser;
     teaser_info := length (heap st);
     required_attributes := {[ "date"; "headline"; "shorttext"; "link" ]} |}.

Definition allocated (st : state) : state :=
  State (heap st ++ [∅]) (written st) (world st).

(** A block whose matched link element has no string [href]. *)
Definition malformed_link (teaser : node) : Prop :=
  ∃ tag,
    find_class "teaser-right__link" teaser = Some tag
    ∧ ∀ href, get tag "href" ≠ Some (AttrStr href).

(** What the stages write into the dictionary of a teaser: the link made
    absolute, the text fields found in the block, the line written for a
    failed fetch, the lines written for an invalid record. *)
Definition absolute_link (href : string) : string :=
  if negb (Py.contains "www." href) then "https://www.tagesschau.de" +:+ href
  else href.

Definition text_field (teaser : node) (record : dict) (field_name : string)
  : dict :=
  match find_class ("teaser-right__" +:+ field_name) teaser with
  | Some tag => <[field_name := get_text tag true " "]> record
  | None => record
  end.

Definition text_fields (teaser : node) (record : dict) : dict :=
  fold_left (text_field teaser) field_names_text record.

Definition enrich_line (article_link : string) (e : exn) : string :=
  match e with
  | TooManyRedirects _ =>
      "Article not found for link: " +:+ article_link +:+ "."
  | gaierror _ => "gaierror: " +:+ exn_str e
  | ConnectionError _ => "ConnectionError: " +:+ exn_str e
  | _ => "Error: " +:+ exn_str e
  end.

Definition invalid_lines : list output :=
  [Stderr "ic| 'False'"; Stderr "ic| 'teaser_info.keys()'"].

(** The link field and the normalisation, on the dictionary alone. *)
Definition link_field (teaser : node) (record : dict) : result dict :=
  match find_class "teaser-right__link" teaser with
  | Some tag =>
      match get tag "href" with
      | Some (AttrStr href) => Ok (<["link" := absolute_link href]> record)
      | _ => Raise (ValueError "")
      end
  | None => Ok record
  end.

Definition normalised (record : dict) : result dict :=
  match record !! "link" with
  | None => Raise (KeyError "link")
  | Some link =>
      match record !! "date" with
      | None => Raise (KeyError "date")
      | Some date =>
          date' ← transform_datetime_str date;
          mret (<["date" := date']>
                  (<["id" := get_hash_from_string link]> record))
      end
  end.

(** A block that a turn of the loop gets through: its link element has a
    string [href], it has a date element, and the helper accepts the date
    text. *)
Definition processable (teaser : node) : Prop :=
  ∃ tag href date_tag date',
    find_class "teaser-right__link" teaser = Some tag
    ∧ get tag "href" = Some (AttrStr href)
    ∧ find_class "teaser-right__date" teaser = Some date_tag
    ∧ transform_datetime_str (get_text date_tag true " ") = Ok date'.

(** The record of a processable block, given what the fetch returned. *)
Definition turn_record (teaser : node) (href date' : string)
    (fetched : result node) : dict :=
  <["date" := date']>
    (<["id" := get_hash_from_string (absolute_link href)]>
       (match fetched with
        | Ok article_soup => extract_article_tags article_soup
        | Raise _ => ∅
        end ∪ <["link" := absolute_link href]> (text_fields teaser ∅))).

(** The store with the dictionary [d] on top of the dictionaries [h]. *)
Definition on_top (h : list dict) (d : dict) (lines : list output)
    (w : World) : state :=
  State (h ++ [d]) lines w.

End Pipeline.

End Scraper.

(** ** Class [TagesschauArticle] *)

Module Markdown.

Import Soup.

Definition newline : ascii := ascii_of_nat 10.
Definition space : ascii := " "%char.

(** [self.remove_elements()] *)
Definition remove_elements (tags_to_remove : list string) (soup : node) : node :=
  fold_left (λ soup' tag, remove_name tag soup') tags_to_remove soup.

(** [cls in element.get('class', [])] *)
Definition class_contains (cls : string) (element : node) : bool :=
  match get element "class" with
  | None => false
  | Some (AttrList l) => bool_decide (cls ∈ l)
  | Some (AttrStr s) => Py.contains cls s
  end.

Definition convert_to_markdown (element : node) : result string :=
  match element with
  | Text s => Ok s
  | Elem name _ _ =>
      if class_contains "textabsatz" element then
        match find_name "strong" element with
        | Some strong_text =>
            Ok (" **" +:+ get_text strong_text false "" +:+ "** ")
        | None => Ok (get_text element false "")
        end
      else if String.eqb name "h1" then
        let span_elements := find_all_name "span" element in
        if negb (Nat.eqb (length span_elements) 0) then
          span0 ← Py.getitem span_elements 0;
          let topline_text := get_text span0 true "" in
          span1 ← Py.getitem span_elements 1;
          let headline_text := get_text span1 true "" in
          mret ("# " +:+ Py.replace newline space topline_text +:+ " - "
                +:+ Py.replace newline space headline_text)
        else
          Ok ("# " +:+ Py.replace newline space (get_text element false "")
              +:+ String newline (String newline ""))
      else if String.eqb name "h2" then
        Ok (String newline (String newline "## ")
            +:+ Py.replace newline space (get_text element false "")
            +:+ String newline (String newline ""))
      else Ok ""
  end.

(** The loop of [get_markdown_content]. *)
Fixpoint convert_each (elements : list node) (markdown_content : string)
  : result string :=
  match elements with
  | [] => Ok markdown_content
  | element :: rest =>
      markdown ← convert_to_markdown element;
      convert_each rest (markdown_content +:+ markdown)
  end.

Definition get_markdown_content (tags_to_remove : list string) (soup : node)
  : result string :=
  let soup' := remove_elements tags_to_remove soup in
  let elements := find_all soup' in
  convert_each elements "".

Definition default_tags_to_remove : list string :=
  ["header"; "footer"; "aside"].

(** The one element shape on which the converter raises: an [h1] outside
    the body paragraphs with exactly one span below it. *)
Definition one_span_heading (element : node) : bool :=
  negb (class_contains "textabsatz" element)
  && has_name "h1" element
  && Nat.eqb (length (find_all_name "span" element)) 1.

End Markdown.

(** ** Class [TagesschauDB] *)

Module DB.

(** The errors of [sqlite3] that the statements of the class can meet. *)
Inductive sqlite_error : Type :=
  | OperationalError (msg : string)
  | ProgrammingError (msg : string).

(** A row of the table [Tagesschau], column by column. *)
Record row : Type := Row {
  id : string;
  timestamp : string;
  topline : string;
  headline : string;
  shorttext : string;
  link : string;
  tags : string
}.

(** The database file [news.db]: the table, when it exists, with its rows
    in the order of their insertion. *)
Definition database : Type := option (list row).

(** [CREATE TABLE IF NOT EXISTS]: the column [id] is [UNIQUE]. *)
Definition create_table (db : database) : database :=
  match db with
  | Some rows => Some rows
  | None => Some []
  end.

(** [DROP TABLE IF EXISTS] *)
Definition drop_table (db : database) : database := None.

(** The named parameters of the insert statement, in the order of
    [VALUES]. *)
Definition bindings : list string :=
  ["id"; "date"; "topline"; "headline"; "shorttext"; "link"; "tags"].

Definition first_missing (content : gmap string string) : option string :=
  List.find (λ key, bool_decide (content !! key = None)) bindings.

(** Binding the parameters from the dictionary: every name must be a key;
    keys that are no parameter are ignored. *)
Definition bind (content : gmap string string) : sqlite_error + row :=
  match first_missing content with
  | Some key =>
      inl (ProgrammingError
             ("You did not supply a value for binding parameter :"
              +:+ key +:+ "."))
  | None =>
      inr (Row (content !!! "id") (content !!! "date")
               (content !!! "topline") (content !!! "headline")
               (content !!! "shorttext") (content !!! "link")
               (content !!! "tags"))
  end.

Definition has_id (key : string) (rows : list row) : bool :=
  existsb (λ r, String.eqb (id r) key) rows.

(** [INSERT OR IGNORE INTO Tagesschau VALUES (...)], inside
    [with self.conn]: the statement is prepared (the table must exist),
    the parameters are bound, and the row is added unless its [id] is
    taken; a statement that raises changes nothing. *)
Definition insert (content : gmap string string) (db : database)
  : (sqlite_error + unit) * database :=
  match db with
  | None => (inl (OperationalError "no such table: Tagesschau"), db)
  | Some rows =>
      match bind content with
      | inl e => (inl e, db)
      | inr r =>
          if has_id (id r) rows then (inr tt, Some rows)
          else (inr tt, Some (rows ++ [r]))
      end
  end.

End DB.

(** ** Sample pages *)

Module Samples.

Import Soup Scraper.

Definition classed (name cls : string) (children : list node) : node :=
  Elem name [("class", AttrList [cls])] children.

(** An article page with two tag buttons, in the order given. *)
Definition tag_button (text : string) : node :=
  Elem "a" [("class", AttrList ["tag-btn"; "tag-btn--light-grey"])] [Text text].

Definition article_with_tags (tags : list string) : node :=
  Elem "[document]" [] [classed "ul" "taglist" (tag_button <$> tags)].


(** A network where the hosts named offline cannot be reached; every other
    address serves the article tagged b, a. The state counts the fetches. *)
#[export] Instance sample_collaborators : Collaborators := {|
  World := nat;
  get_soup_from_url url w :=
    (if Py.contains "offline" url
     then Raise (ConnectionError "unreachable")
     else Ok (article_with_tags ["b"; "a"]),
     S w);
  get_hash_from_string link := "#" +:+ link;
  transform_datetime_str text :=
    if Py.is_empty text then Raise (ValueError "") else Ok text
|}.

Definition empty_state : state := State [] [] 0%nat.

(** A teaser block; the link element carries [href] when one is given, the
    short text is present when one is given. *)
Definition teaser_block (href shorttext : option string) : node :=
  Elem "div" [("class", AttrList ["teaser-right"; "twelve"])]
    ([ classed "span" "teaser-right__date" [Text "05.03.2023"];
       classed "span" "teaser-right__headline" [Text " Headline "] ]
     ++ match shorttext with
        | Some text => [classed "p" "teaser-right__shorttext" [Text text]]
        | None => []
        end
     ++ [ Elem "a"
            (("class", AttrList ["teaser-right__link"])
             :: match href with
                | Some url => [("href", AttrStr url)]
                | None => []
                end)
            [Text "mehr"] ]).

Definition archive_page (teasers : list node) : node :=
  Elem "[document]" []
    [classed "h2" "archive__headline" [Text "5. Mai 2023"];
     Elem "div" [] teasers].

(** The dictionaries of a result, read in the final store. *)
Definition records (r : result (list loc) * state) : result (list dict) :=
  match r with
  | (Ok locs, st) => Ok ((λ l, heap st !!! l) <$> locs)
  | (Raise e, _) => Raise e
  end.

(** A block whose link element has no [href], a complete block served by
    the network, and a complete block whose article cannot be fetched. *)
Definition bad_block : node := teaser_block None (Some "short").
Definition good_block : node := teaser_block (Some "/b.html") (Some "short").
Definition offline_block : node :=
  teaser_block (Some "https://www.offline.de/c") (Some "short").

Definition good_record : dict :=
  {[ "date" := "05.03.2023"; "headline" := "Headline"; "shorttext" := "short";
     "link" := "https://www.tagesschau.de/b.html"; "tags" := "a,b";
     "id" := "#https://www.tagesschau.de/b.html" ]}.

Definition offline_record : dict :=
  {[ "date" := "05.03.2023"; "headline" := "Headline"; "shorttext" := "short";
     "link" := "https://www.offline.de/c";
     "id" := "#https://www.offline.de/c" ]}.

(** A block without a link element, and one without a date element. *)
Definition no_link_block : node :=
  Elem "div" [("class", AttrList ["teaser-right"; "twelve"])]
    [ classed "span" "teaser-right__date" [Text "05.03.2023"];
      classed "span" "teaser-right__headline" [Text "Headline"];
      classed "p" "teaser-right__shorttext" [Text "short"] ].

Definition no_date_block : node :=
  Elem "div" [("class", AttrList ["teaser-right"; "twelve"])]
    [ classed "span" "teaser-right__headline" [Text "Headline"];
      classed "p" "teaser-right__shorttext" [Text "short"];
      Elem "a" [("class", AttrList ["teaser-right__link"]);
                ("href", AttrStr "/d.html")] [Text "mehr"] ].




End Samples.

(** * Properties *)

Example str_2024 : Py.str 2024 = "2024". Proof. reflexivity. Qed.
Example str_0 : Py.str 0 = "0". Proof. reflexivity. Qed.
Example str_10 : Py.str 10 = "10". Proof. reflexivity. Qed.
Example str_neg : Py.str (-305) = "-305". Proof. reflexivity. Qed.
Example int_ok : Py.int " 1_000 " = Ok 1000. Proof. reflexivity. Qed.
Example int_bad : Py.int "12a" = Raise (ValueError ""). Proof. reflexivity. Qed.
Example split_ex : Py.split "  3. Mai   2023 " = ["3."; "Mai"; "2023"].
Proof. reflexivity. Qed.
Example strip_ex : Py.strip "  a b  " = "a b". Proof. reflexivity. Qed.
Example sorted_ex : Py.sorted ["b"; "a"; "c"; "a"] = ["a"; "a"; "b"; "c"].
Proof. reflexivity. Qed.

Lemma result_bind_ok {A B} (a : A) (k : A → result B) : Ok a ≫= k = k a.
Proof. reflexivity. Qed.

Lemma result_bind_raise {A B} (e : exn) (k : A → result B) :
  Raise e ≫= k = Raise e.
Proof. reflexivity. Qed.

(** ** Facts about the built-ins *)

Section PyFacts.

Import Py.

Lemma app_empty_r (s : string) : s +:+ "" = s.
Proof. induction s as [|c s IH]; simpl; [done | by rewrite IH]. Qed.

Lemma app_assoc_s (s1 s2 s3 : string) :
  (s1 +:+ s2) +:+ s3 = s1 +:+ s2 +:+ s3.
Proof. induction s1 as [|c s1 IH]; simpl; [done | by rewrite IH]. Qed.

Lemma all_chars_app p (s1 s2 : string) :
  all_chars p (s1 +:+ s2) = all_chars p s1 && all_chars p s2.
Proof.
  induction s1 as [|c s1 IH]; simpl; [done |].
  by rewrite IH, andb_assoc.
Qed.

Lemma digit_cases (d : Z) :
  0 ≤ d < 10 →
  d = 0 ∨ d = 1 ∨ d = 2 ∨ d = 3 ∨ d = 4 ∨ d = 5 ∨ d = 6 ∨ d = 7 ∨ d = 8 ∨ d = 9.
Proof. lia. Qed.

Ltac each_digit d H :=
  destruct (digit_cases d H) as
    [->|[->|[->|[->|[->|[->|[->|[->|[->| ->]]]]]]]]].

Lemma digit_of_digit_char (d : Z) :
  0 ≤ d < 10 → digit_of (digit_char d) = Some d.
Proof. intros H. each_digit d H; reflexivity. Qed.

Lemma digit_char_not_space (d : Z) :
  0 ≤ d < 10 → isspace (digit_char d) = false.
Proof. intros H. each_digit d H; reflexivity. Qed.

Lemma digit_char_not_sign (d : Z) :
  0 ≤ d < 10 →
  Ascii.eqb (digit_char d) "-" = false ∧ Ascii.eqb (digit_char d) "+" = false.
Proof. intros H. each_digit d H; split; reflexivity. Qed.

Lemma mod10_range (n : Z) : 0 ≤ n mod 10 < 10.
Proof. apply Z.mod_pos_bound. lia. Qed.

(** The digits of [n] are written in front of [acc]. *)
Lemma digits_from_app fuel : ∀ n acc,
  digits_from fuel n acc = digits_from fuel n "" +:+ acc.
Proof.
  induction fuel as [|fuel IH]; intros n acc; cbn [digits_from]; [done |].
  destruct (n <? 10); [done |].
  rewrite (IH _ (String _ acc)), (IH _ (String _ "")).
  by rewrite app_assoc_s.
Qed.

Lemma digits_from_all_digits fuel : ∀ n acc,
  all_chars is_digit acc = true →
  all_chars is_digit (digits_from fuel n acc) = true.
Proof.
  assert (Hd : ∀ n, is_digit (digit_char (n mod 10)) = true).
  { intros n. unfold is_digit.
    by rewrite (digit_of_digit_char _ (mod10_range n)). }
  induction fuel as [|fuel IH]; intros n acc Hacc; cbn [digits_from].
  - cbn [all_chars]. by rewrite Hd, Hacc.
  - destruct (n <? 10); [cbn [all_chars]; by rewrite Hd, Hacc |].
    apply IH. cbn [all_chars]. by rewrite Hd, Hacc.
Qed.

Lemma digits_from_head fuel : ∀ n acc,
  ∃ d s, 0 ≤ d < 10 ∧ digits_from fuel n acc = String (digit_char d) s.
Proof.
  induction fuel as [|fuel IH]; intros n acc; cbn [digits_from].
  - exists (n mod 10), acc. split; [apply mod10_range | done].
  - destruct (n <? 10); [| apply IH].
    exists (n mod 10), acc. split; [apply mod10_range | done].
Qed.

(** Reading back, from 0, the digits written for [n] gives [n]. *)
Lemma int_digits_digits_from fuel : ∀ n acc b,
  0 ≤ n < 2 ^ (Z.of_nat fuel + 1) →
  int_digits (digits_from fuel n acc) 0 b = int_digits acc n true.
Proof.
  induction fuel as [|fuel IH]; intros n acc b Hn; cbn [digits_from].
  - change (2 ^ (Z.of_nat 0 + 1)) with 2 in Hn.
    rewrite Z.mod_small by lia. cbn [int_digits].
    rewrite digit_of_digit_char by lia. f_equal; lia.
  - destruct (Z.ltb_spec n 10) as [Hlt|Hge].
    + rewrite Z.mod_small by lia. cbn [int_digits].
      rewrite digit_of_digit_char by lia. f_equal; lia.
    + rewrite IH.
      * cbn [int_digits]. rewrite (digit_of_digit_char _ (mod10_range n)).
        f_equal; pose proof (Z.div_mod n 10); lia.
      * split; [apply Z.div_pos; lia |].
        apply Z.div_lt_upper_bound; [lia |].
        replace (Z.of_nat (S fuel) + 1) with (Z.succ (Z.of_nat fuel + 1)) in Hn
          by lia.
        rewrite Z.pow_succ_r in Hn by lia. lia.
Qed.

Lemma log2_fuel (n : Z) :
  0 ≤ n → 0 ≤ n < 2 ^ (Z.of_nat (Z.to_nat (Z.log2 n)) + 1).
Proof.
  intros Hn. split; [done |].
  rewrite Z2Nat.id by apply Z.log2_nonneg.
  destruct (Z.eq_dec n 0) as [->|Hne]; [reflexivity |].
  change (Z.log2 n + 1) with (Z.succ (Z.log2 n)).
  apply Z.log2_spec. lia.
Qed.

Lemma all_chars_impl (p q : ascii → bool) (s : string) :
  (∀ c, p c = true → q c = true) →
  all_chars p s = true → all_chars q s = true.
Proof.
  intros Hpq. induction s as [|c s IH]; simpl; [done |].
  intros [Hc Hs]%andb_true_iff. by rewrite (Hpq _ Hc), IH.
Qed.

Lemma is_digit_not_space (c : ascii) : is_digit c = true → not_space c = true.
Proof.
  unfold is_digit, not_space, digit_of, isspace.
  set (n := Z.of_N (N_of_ascii c)).
  destruct (_ && _) eqn:E; [| done]. intros _.
  apply andb_true_iff in E as [E1%Z.leb_le E2%Z.leb_le].
  apply negb_true_iff.
  repeat match goal with
         | |- context [?a <=? ?b] => destruct (Z.leb_spec a b)
         | |- context [?a =? ?b] => destruct (Z.eqb_spec a b)
         end; simpl; try reflexivity; lia.
Qed.

Lemma lstrip_word (s : string) :
  all_chars not_space s = true → lstrip s = s.
Proof.
  destruct s as [|c s]; simpl; [done |].
  unfold not_space. intros [Hc _]%andb_true_iff.
  apply negb_true_iff in Hc. by rewrite Hc.
Qed.

Lemma rstrip_word (s : string) :
  all_chars not_space s = true → rstrip s = s.
Proof.
  induction s as [|c s IH]; simpl; [done |].
  unfold not_space at 1. intros [Hc Hs]%andb_true_iff.
  apply negb_true_iff in Hc. by rewrite Hc, IH.
Qed.

Lemma strip_word (s : string) :
  all_chars not_space s = true → strip s = s.
Proof.
  intros H. unfold strip. rewrite rstrip_word by done. by apply lstrip_word.
Qed.

Lemma str_nonneg_digits (n : Z) : all_chars is_digit (str_nonneg n) = true.
Proof. by apply digits_from_all_digits. Qed.

Lemma length_app_s (s1 s2 : string) :
  String.length (s1 +:+ s2) = (String.length s1 + String.length s2)%nat.
Proof. induction s1 as [|c s1 IH]; cbn; [done | by rewrite IH]. Qed.

(** The digits of a number below [10 ^ (k + 1)] are at most [k + 1]. *)
Lemma digits_from_length (fuel : nat) : ∀ n acc k,
  0 ≤ n < 10 ^ Z.of_nat (S k) →
  (String.length (digits_from fuel n acc) ≤ String.length acc + S k)%nat.
Proof.
  induction fuel as [|fuel IH]; intros n acc k Hn; cbn [digits_from].
  - cbn [String.length]. lia.
  - destruct (Z.ltb_spec n 10) as [Hlt|Hge]; [cbn [String.length]; lia |].
    destruct k as [|k]; [cbn in Hn; lia |].
    etrans; [apply (IH _ _ k) |]; [| cbn [String.length]; lia].
    split; [apply Z.div_pos; lia |].
    apply Z.div_lt_upper_bound; [lia |].
    rewrite (Nat2Z.inj_succ (S k)), Z.pow_succ_r in Hn by lia. lia.
Qed.

Lemma str_length (n : Z) (k : nat) :
  0 ≤ n < 10 ^ Z.of_nat (S k) → (String.length (str n) ≤ S k)%nat.
Proof.
  intros Hn. unfold str. destruct (Z.ltb_spec n 0); [lia |].
  apply (digits_from_length _ n "" k Hn).
Qed.

Lemma count_digits_length (s : string) :
  (count_digits s ≤ String.length s)%nat.
Proof.
  induction s as [|c s IH]; cbn [count_digits String.length]; [done |].
  destruct (digit_of c); lia.
Qed.

(** [int(str(n)) == n], for a number of [k + 1] digits within the limit. *)
Lemma int_str_nonneg (n : Z) (k : nat) :
  0 ≤ n < 10 ^ Z.of_nat (S k) → (S k ≤ int_max_str_digits)%nat →
  int (str n) = Ok n.
Proof.
  intros Hn Hk. pose proof (str_length n k Hn) as Hlen.
  destruct Hn as [Hn _]. unfold str in *.
  destruct (Z.ltb_spec n 0) as [?|_]; [lia |].
  unfold int. rewrite strip_word
    by (eapply all_chars_impl, str_nonneg_digits; apply is_digit_not_space).
  pose proof (count_digits_length (str_nonneg n)) as Hcount.
  assert ((int_max_str_digits <? count_digits (str_nonneg n))%nat = false)
    as -> by (apply Nat.ltb_ge; lia).
  pose proof (int_digits_digits_from _ n "" false (log2_fuel n Hn)) as Hrd.
  fold (str_nonneg n) in Hrd.
  destruct (digits_from_head (Z.to_nat (Z.log2 n)) n "") as (d & s & Hd & Hs).
  fold (str_nonneg n) in Hs. rewrite Hs in Hrd |- *.
  destruct (digit_char_not_sign d Hd) as [-> ->].
  by rewrite Hrd.
Qed.

(** The fields of a date are read back. *)
Lemma int_str_field (n : Z) : 0 ≤ n ≤ 9999 → int (str n) = Ok n.
Proof.
  intros Hn. apply (int_str_nonneg n 3).
  - change (10 ^ Z.of_nat 4) with 10000. lia.
  - unfold int_max_str_digits. lia.
Qed.

(** [split] reads a word up to the next whitespace. *)
Lemma split_from_word (w : string) : ∀ rest word,
  all_chars not_space w = true →
  split_from (w +:+ rest) word = split_from rest (word +:+ w).
Proof.
  induction w as [|c w IH]; intros rest word; simpl.
  - by rewrite app_empty_r.
  - unfold not_space at 1. intros [Hc Hw]%andb_true_iff.
    apply negb_true_iff in Hc. rewrite Hc, IH by done.
    by rewrite app_assoc_s.
Qed.

Lemma is_empty_false_app (s1 s2 : string) :
  is_empty s1 = false → is_empty (s1 +:+ s2) = false.
Proof. by destruct s1. Qed.

Lemma drop_last_snoc (s : string) (c : ascii) :
  drop_last (s +:+ String c "") = s.
Proof.
  induction s as [|c' s IH]; simpl; [done |].
  rewrite IH. by destruct s.
Qed.

End PyFacts.

(** ** The date in the archive headline *)

Section DateCodecFacts.

Import Py DateCodec.

Variable german_month_names : list string.

Lemma valid_date_bounds (d : date) :
  valid_date d = true →
  1 ≤ year d ≤ 9999 ∧ 1 ≤ month d ≤ 12
  ∧ 1 ≤ day d ≤ days_in_month (year d) (month d).
Proof.
  unfold valid_date. intros Hv.
  repeat (apply andb_true_iff in Hv as [Hv ?]).
  repeat match goal with H : (_ <=? _) = true |- _ => apply Z.leb_le in H end.
  lia.
Qed.

Lemma valid_date_ranges (d : date) :
  valid_date d = true →
  1 ≤ year d ≤ 9999 ∧ 1 ≤ month d ≤ 12 ∧ 1 ≤ day d ≤ 31.
Proof.
  unfold valid_date, days_in_month. intros Hv.
  repeat (apply andb_true_iff in Hv as [Hv ?]).
  repeat match goal with H : (_ <=? _) = true |- _ => apply Z.leb_le in H end.
  split; [lia |]. split; [lia |]. split; [lia |].
  destruct (month d =? 2); [destruct (is_leap (year d)); lia |].
  destruct (_ || _); lia.
Qed.

(** A date of the calendar is constructed. *)
Lemma c_int_small (n : Z) : -9999 ≤ n ≤ 9999 → c_int n = true.
Proof.
  intros Hn. unfold c_int. change (2 ^ 31) with 2147483648.
  apply andb_true_iff. split; apply Z.leb_le; lia.
Qed.

Lemma date_of_valid (y m d : Z) :
  valid_date (Date y m d) = true → date_of y m d = Ok (Date y m d).
Proof.
  intros Hvalid. destruct (valid_date_ranges _ Hvalid) as (Hy & Hm & Hd).
  cbn [year month day] in *. unfold date_of.
  rewrite !c_int_small by lia. cbn [andb negb]. by rewrite Hvalid.
Qed.

Lemma str_nonneg_word (n : Z) : all_chars not_space (str_nonneg n) = true.
Proof.
  eapply all_chars_impl, str_nonneg_digits. apply is_digit_not_space.
Qed.

Lemma str_word (n : Z) : 0 ≤ n → all_chars not_space (str n) = true.
Proof.
  intros Hn. unfold str. destruct (Z.ltb_spec n 0); [lia |].
  apply str_nonneg_word.
Qed.

Lemma str_not_empty (n : Z) : is_empty (str n) = false.
Proof.
  unfold str, str_nonneg. destruct (n <? 0); [done |].
  destruct (digits_from_head (Z.to_nat (Z.log2 n)) n "") as (d & s & _ & ->).
  done.
Qed.

Lemma month_table_entry (m : Z) :
  month_table_ok german_month_names = true → 1 ≤ m ≤ 12 →
  month_entry_ok german_month_names m = true.
Proof.
  unfold month_table_ok. cbn [forallb]. intros H Hm.
  repeat (apply andb_true_iff in H as [? H]).
  assert (m = 1 ∨ m = 2 ∨ m = 3 ∨ m = 4 ∨ m = 5 ∨ m = 6 ∨ m = 7 ∨ m = 8
          ∨ m = 9 ∨ m = 10 ∨ m = 11 ∨ m = 12) as Hcases by lia.
  repeat (destruct Hcases as [-> | Hcases]; [assumption |]).
  by subst m.
Qed.

(** The headline text of a date splits into its three words. *)
Lemma split_headline (d name y : string) :
  all_chars not_space d = true →
  all_chars not_space name = true → is_empty name = false →
  all_chars not_space y = true → is_empty y = false →
  split (d +:+ ". " +:+ name +:+ " " +:+ y) = [d +:+ "."; name; y].
Proof.
  intros Hd Hn Hne Hy Hye. unfold split.
  rewrite split_from_word by done.
  change (". " +:+ name +:+ " " +:+ y)
    with (String "." (String " " (name +:+ String " " y))).
  cbn [split_from]. change (isspace ".") with false.
  change (isspace " ") with true. cbv iota.
  change ("" +:+ d) with d.
  replace (is_empty (d +:+ ".")) with false by (by destruct d).
  rewrite split_from_word by done.
  f_equal. cbn [split_from]. change (isspace " ") with true. cbv iota.
  change ("" +:+ name) with name. rewrite Hne. f_equal.
  rewrite <- (app_empty_r y) at 1. rewrite split_from_word by done.
  cbn [split_from]. change ("" +:+ y) with y. by rewrite Hye.
Qed.

Lemma getitem_lookup {A} (l : list A) (i : Z) (a : A) :
  0 ≤ i → l !! Z.to_nat i = Some a → getitem l i = Ok a.
Proof.
  intros Hi Hl. unfold getitem. cbv zeta.
  assert ((i <? 0) = false) as -> by (apply Z.ltb_ge; lia).
  assert ((i <? 0) = false) as -> by (apply Z.ltb_ge; lia).
  by rewrite Hl.
Qed.

(** C3. For every valid calendar date [d], and a month table whose entries
    1 to 12 are distinct words, writing [d] as the headline text and reading
    that text back gives [d]:
    [transform_date_in_headline_to_date(transform_date_to_date_in_headline(d))
    == d]. *)
Theorem date_headline_roundtrip (d : date) :
  month_table_ok german_month_names = true →
  valid_date d = true →
  ∃ headline,
    transform_date_to_date_in_headline german_month_names d = Ok headline
    ∧ transform_date_in_headline_to_date german_month_names headline = Ok d.
Proof.
  intros Htable Hvalid. destruct d as [y m dy].
  destruct (valid_date_ranges _ Hvalid) as (Hy & Hrange & Hdy).
  cbn [year month day] in Hy, Hrange, Hdy.
  pose proof (month_table_entry m Htable Hrange) as Hm.
  unfold month_entry_ok in Hm.
  destruct (german_month_names !! Z.to_nat m) as [name|] eqn:Hname; [| done].
  apply andb_true_iff in Hm as [Hword Hidx].
  apply andb_true_iff in Hword as [Hne%negb_true_iff Hns].
  destruct (index german_month_names name) as [i|] eqn:Hi; [| done].
  apply Z.eqb_eq in Hidx as ->.
  unfold transform_date_to_date_in_headline. cbn [year month day].
  assert (0 ≤ m) as Hm0 by lia.
  rewrite (getitem_lookup _ _ _ Hm0 Hname).
  eexists. split; [reflexivity |].
  unfold transform_date_in_headline_to_date.
  rewrite split_headline;
    [| by apply str_word; lia | done | done | by apply str_word; lia
     | apply str_not_empty].
  rewrite drop_last_snoc, Hi, !int_str_field by lia.
  rewrite !result_bind_ok. by apply date_of_valid.
Qed.

End DateCodecFacts.

(** The table of the twelve German month names meets the condition of the
    round trip; New Year's Eve 2023 survives it. *)
Lemma date_headline_roundtrip_witness :
  DateCodec.month_table_ok DateCodec.german_month_names_table = true
  ∧ DateCodec.valid_date (DateCodec.Date 2023 12 31) = true
  ∧ ∃ headline,
      DateCodec.transform_date_to_date_in_headline
        DateCodec.german_month_names_table (DateCodec.Date 2023 12 31)
      = Ok headline
      ∧ DateCodec.transform_date_in_headline_to_date
          DateCodec.german_month_names_table headline
        = Ok (DateCodec.Date 2023 12 31).
Proof.
  split; [reflexivity |]. split; [reflexivity |].
  apply (date_headline_roundtrip DateCodec.german_month_names_table
           (DateCodec.Date 2023 12 31)); reflexivity.
Defined.

(** ** The archive URL *)

Section UrlFacts.

Import Py DateCodec.

Lemma is_digit_date_char (c : ascii) : is_digit c = true → date_char c = true.
Proof. unfold date_char. by intros ->. Qed.

Lemma str_date_chars (n : Z) : all_chars date_char (str n) = true.
Proof.
  unfold str. destruct (n <? 0); cbn [all_chars];
    [change (date_char "-") with true; cbn [andb] |];
    (eapply all_chars_impl, str_nonneg_digits; apply is_digit_date_char).
Qed.

Lemma zfill_date_chars (w : nat) (s : string) :
  all_chars date_char s = true → all_chars date_char (zfill w s) = true.
Proof.
  intros Hs. unfold zfill. rewrite all_chars_app, Hs, andb_true_r.
  induction (w - String.length s)%nat as [|k IH]; [done |].
  cbn [zeros all_chars]. by rewrite IH.
Qed.

Lemma strftime_date_chars (d : date) :
  all_chars date_char (strftime_Ymd d) = true.
Proof.
  unfold strftime_Ymd.
  rewrite !all_chars_app, !zfill_date_chars, str_date_chars
    by apply str_date_chars.
  reflexivity.
Qed.

Lemma contains_ressort_date_chars (t : string) :
  all_chars date_char t = true → contains "ressort" t = false.
Proof.
  induction t as [|c t IH]; [done |].
  cbn [all_chars]. intros [Hc Ht]%andb_true_iff.
  cbn [contains]. rewrite (IH Ht), orb_false_r.
  cbn [String.prefix]. destruct (ascii_dec "r" c) as [<-|]; [| done].
  discriminate Hc.
Qed.

Lemma contains_ressort_base (t : string) :
  contains "ressort" ("https://www.tagesschau.de/archiv/?datum=" +:+ t)
  = contains "ressort" t.
Proof. reflexivity. Qed.

Lemma contains_app_r (sub s1 s2 : string) :
  contains sub s2 = true → contains sub (s1 +:+ s2) = true.
Proof.
  intros H. induction s1 as [|c s1 IH]; [done |].
  cbn [String.append contains]. rewrite IH. apply orb_true_r.
Qed.

(** C6. For every date: a category outside wirtschaft, inland, ausland and
    all makes the URL builder raise [ValueError]; for the category all the
    URL is the archive address with the date and has no ressort parameter;
    for each of the three named categories the URL carries
    [ressort=<category>] after the date. *)
Theorem create_url_for_news_archive_categories (d : date) (category : string) :
  (category ∉ ["wirtschaft"; "inland"; "ausland"; "all"] →
   ∃ msg, create_url_for_news_archive d category = Raise (ValueError msg))
  ∧ (category = "all" →
     create_url_for_news_archive d category
     = Ok ("https://www.tagesschau.de/archiv/?datum=" +:+ strftime_Ymd d)
     ∧ contains "ressort"
         ("https://www.tagesschau.de/archiv/?datum=" +:+ strftime_Ymd d)
       = false)
  ∧ (category ∈ ["wirtschaft"; "inland"; "ausland"] →
     ∃ url,
       create_url_for_news_archive d category = Ok url
       ∧ url = "https://www.tagesschau.de/archiv/?datum=" +:+ strftime_Ymd d
               +:+ "&ressort=" +:+ category
       ∧ contains ("ressort=" +:+ category) url = true).
Proof.
  unfold create_url_for_news_archive, categories. repeat split.
  - intros Hout. rewrite !not_elem_of_cons in Hout.
    destruct Hout as (H1 & H2 & H3 & H4 & _).
    rewrite bool_decide_eq_false_2
      by (rewrite !not_elem_of_cons; eauto using not_elem_of_nil).
    destruct (String.eqb_spec category "all") as [->|_]; [done |].
    by eexists.
  - subst category. reflexivity.
  - rewrite contains_ressort_base.
    apply contains_ressort_date_chars, strftime_date_chars.
  - intros Hin. rewrite bool_decide_eq_true_2 by done.
    eexists. split; [reflexivity |]. split; [reflexivity |].
    do 2 apply contains_app_r.
    repeat (apply elem_of_cons in Hin as [->|Hin]; [reflexivity |]).
    by apply elem_of_nil in Hin.
Qed.

End UrlFacts.

(** The three branches of the URL builder on 5 March 2023. *)
Lemma create_url_for_news_archive_categories_witness :
  (∃ msg, DateCodec.create_url_for_news_archive (DateCodec.Date 2023 3 5) "sport"
          = Raise (ValueError msg))
  ∧ DateCodec.create_url_for_news_archive (DateCodec.Date 2023 3 5) "all"
    = Ok "https://www.tagesschau.de/archiv/?datum=2023-03-05"
  ∧ DateCodec.create_url_for_news_archive (DateCodec.Date 2023 3 5) "inland"
    = Ok "https://www.tagesschau.de/archiv/?datum=2023-03-05&ressort=inland".
Proof.
  split; [| split].
  - apply (create_url_for_news_archive_categories
             (DateCodec.Date 2023 3 5) "sport").
    intros H.
    repeat (apply elem_of_cons in H as [H|H]; [discriminate H |]).
    by apply elem_of_nil in H.
  - apply (create_url_for_news_archive_categories
             (DateCodec.Date 2023 3 5) "all"). reflexivity.
  - destruct (create_url_for_news_archive_categories
                (DateCodec.Date 2023 3 5) "inland") as (_ & _ & H).
    destruct H as (url & -> & -> & _); [| reflexivity].
    apply list_elem_of_further, list_elem_of_here.
Defined.

(** ** The tags of an article *)

Section ArticleFacts.

Import Soup Scraper Samples.





End ArticleFacts.


(** ** The markdown converter *)

Section MarkdownFacts.

Import Soup Markdown Samples.

(** [convert_each] appends, in order, what each element converts to. *)
Lemma convert_each_app (elements : list node) : ∀ acc,
  convert_each elements acc
  = (markdown ← convert_each elements ""; mret (acc +:+ markdown)).
Proof.
  induction elements as [|e rest IH]; intros acc; cbn [convert_each].
  - rewrite result_bind_ok. unfold mret, result_ret. by rewrite app_empty_r.
  - destruct (convert_to_markdown e) as [md|err]; [| done].
    rewrite !result_bind_ok, IH, (IH ("" +:+ md)).
    destruct (convert_each rest "") as [tail|err]; [| done].
    rewrite !result_bind_ok. unfold mret, result_ret.
    by rewrite app_assoc_s.
Qed.

Lemma convert_each_silent (elements : list node) :
  Forall (λ e, convert_to_markdown e = Ok "") elements →
  convert_each elements "" = Ok "".
Proof.
  induction 1 as [|e rest He _ IH]; [done |].
  cbn [convert_each]. by rewrite He, result_bind_ok.
Qed.

(** An [h1] that is no body paragraph: the three cases of its span count. *)
Lemma convert_h1_spans (attrs : list (string * attr_value))
    (children : list node) :
  let h1 := Elem "h1" attrs children in
  class_contains "textabsatz" h1 = false →
  match find_all_name "span" h1 with
  | [] =>
      convert_to_markdown h1
      = Ok ("# " +:+ Py.replace newline space (get_text h1 false "")
            +:+ String newline (String newline ""))
  | [_] => convert_to_markdown h1 = Raise IndexError
  | span0 :: span1 :: _ =>
      convert_to_markdown h1
      = Ok ("# " +:+ Py.replace newline space (get_text span0 true "")
            +:+ " - " +:+ Py.replace newline space (get_text span1 true ""))
  end.
Proof.
  intros h1 Hcls. unfold convert_to_markdown. fold h1. rewrite Hcls.
  cbn [String.eqb Ascii.eqb Bool.eqb].
  destruct (find_all_name "span" h1) as [|span0 [|span1 spans]]; reflexivity.
Qed.

(** C2. An [h1] with exactly one span makes the converter raise
    [IndexError]: the test is on a non-empty span list, the second span is
    read all the same. *)
Theorem convert_h1_one_span_raises (topline rest : string) :
  convert_to_markdown
    (Elem "h1" [] [Elem "span" [] [Text topline]; Text rest])
  = Raise IndexError.
Proof. reflexivity. Qed.

(** C8, as stated, fails: the text inside a [div] never reaches the
    output. *)
Lemma markdown_text_node_not_visited :
  let soup := Elem "[document]" [] [Elem "div" [] [Text "hello"]] in
  Text "hello" ∈ descendants (remove_elements default_tags_to_remove soup)
  ∧ get_markdown_content default_tags_to_remove soup = Ok ""
  ∧ Py.contains "hello" "" = false.
Proof.
  split; [| split; reflexivity].
  apply list_elem_of_further, list_elem_of_here.
Qed.

(** C8, amended. The traversal visits the elements (tags) that remain after
    the removal, each once and in document order, and no text node; the
    output is the concatenation of what the visited elements convert to, so
    a document whose elements all convert to nothing yields the empty
    string whatever its text nodes hold. Given a text node directly,
    [convert_to_markdown] returns its content verbatim. *)
Theorem markdown_visits_elements_only (tags_to_remove : list string)
    (soup : node) :
  let visited := find_all (remove_elements tags_to_remove soup) in
  (∀ s, convert_to_markdown (Text s) = Ok s)
  ∧ (∀ s, Text s ∉ visited)
  ∧ (∀ n, n ∈ visited ↔
          n ∈ descendants (remove_elements tags_to_remove soup)
          ∧ is_tag n = true)
  ∧ visited `sublist_of` descendants (remove_elements tags_to_remove soup)
  ∧ get_markdown_content tags_to_remove soup = convert_each visited ""
  ∧ (∀ e rest, visited = e :: rest →
       get_markdown_content tags_to_remove soup
       = (first ← convert_to_markdown e;
          others ← convert_each rest "";
          mret (first +:+ others)))
  ∧ (Forall (λ e, convert_to_markdown e = Ok "") visited →
     get_markdown_content tags_to_remove soup = Ok "").
Proof.
  intros visited. subst visited. unfold find_all, get_markdown_content.
  split_and!.
  - done.
  - intros s [Htag _]%list_elem_of_filter. discriminate Htag.
  - intros n. rewrite list_elem_of_filter. tauto.
  - apply sublist_filter.
  - done.
  - intros e rest Hv. unfold find_all. rewrite Hv. cbn [convert_each].
    destruct (convert_to_markdown e) as [md|err]; [| done].
    rewrite !result_bind_ok. apply convert_each_app.
  - apply convert_each_silent.
Qed.

(** C9, as stated, fails: the paragraph text is not trimmed. *)
Lemma convert_textabsatz_not_trimmed :
  let paragraph := classed "p" "textabsatz" [Text " hi "] in
  convert_to_markdown paragraph = Ok " hi "
  ∧ Py.strip (get_text paragraph false "") = "hi"
  ∧ convert_to_markdown paragraph
    ≠ Ok (Py.strip (get_text paragraph false "")).
Proof. repeat split. discriminate. Qed.

(** C9, amended. For every element carrying the textabsatz class: when it
    has a strong element below it, the converter renders the text of the
    first one between double asterisks, with one space before and one
    after, and nothing else of the paragraph; otherwise it renders the full
    text of the element as it is, not trimmed. *)
Theorem convert_textabsatz (name : string)
    (attrs : list (string * attr_value)) (children : list node) :
  let element := Elem name attrs children in
  class_contains "textabsatz" element = true →
  match find_name "strong" element with
  | Some strong_text =>
      convert_to_markdown element
      = Ok (" **" +:+ get_text strong_text false "" +:+ "** ")
  | None => convert_to_markdown element = Ok (get_text element false "")
  end.
Proof.
  intros element Hcls. unfold convert_to_markdown. fold element.
  rewrite Hcls. by destruct (find_name "strong" element).
Qed.

End MarkdownFacts.

(** A visited document: a silent [div] around a text, then a heading. *)
Lemma markdown_visits_elements_only_witness :
  Markdown.get_markdown_content Markdown.default_tags_to_remove
    (Soup.Elem "[document]" []
       [Soup.Elem "div" [] [Soup.Text "hello"];
        Soup.Elem "h2" [] [Soup.Text "News"]])
  = (first ← Markdown.convert_to_markdown
               (Soup.Elem "div" [] [Soup.Text "hello"]);
     others ← Markdown.convert_each [Soup.Elem "h2" [] [Soup.Text "News"]] "";
     mret (first +:+ others)).
Proof.
  apply (markdown_visits_elements_only Markdown.default_tags_to_remove
           (Soup.Elem "[document]" []
              [Soup.Elem "div" [] [Soup.Text "hello"];
               Soup.Elem "h2" [] [Soup.Text "News"]])).
  reflexivity.
Defined.

(** A body paragraph with a bold run in the middle, and one without. *)
Lemma convert_textabsatz_witness :
  Markdown.convert_to_markdown
    (Samples.classed "p" "textabsatz"
       [Soup.Text "a"; Soup.Elem "strong" [] [Soup.Text "B"]; Soup.Text "c"])
  = Ok " **B** "
  ∧ Markdown.convert_to_markdown
      (Samples.classed "p" "textabsatz" [Soup.Text " hi "])
    = Ok " hi ".
Proof.
  split.
  - apply (convert_textabsatz "p" [("class", Soup.AttrList ["textabsatz"])]
             [Soup.Text "a"; Soup.Elem "strong" [] [Soup.Text "B"];
              Soup.Text "c"]).
    reflexivity.
  - apply (convert_textabsatz "p" [("class", Soup.AttrList ["textabsatz"])]
             [Soup.Text " hi "]).
    reflexivity.
Defined.

(** ** The teaser pipeline *)

Section ScraperFacts.

Import Soup Scraper.

Context {collaborators : Collaborators}.

(** *** Running a computation *)

Lemma bind_run {A B} (m : M A) (k : A → M B) (st : state) :
  (m ≫= k) st
  = match m st with
    | (Ok a, st') => k a st'
    | (Raise e, st') => (Raise e, st')
    end.
Proof. reflexivity. Qed.

Lemma bind_inv {A B} (m : M A) (k : A → M B) (st st' : state)
    (r : result B) :
  (m ≫= k) st = (r, st') →
  (∃ e, m st = (Raise e, st') ∧ r = Raise e)
  ∨ (∃ a st1, m st = (Ok a, st1) ∧ k a st1 = (r, st')).
Proof.
  rewrite bind_run. destruct (m st) as [[a|e] st1]; intros Hrun.
  - right. by exists a, st1.
  - left. exists e. by inversion Hrun.
Qed.

Lemma bind_inv_ok {A B} (m : M A) (k : A → M B) (st st' : state) (b : B) :
  (m ≫= k) st = (Ok b, st') →
  ∃ a st1, m st = (Ok a, st1) ∧ k a st1 = (Ok b, st').
Proof.
  intros [(e & _ & [=]) | Hok]%bind_inv. exact Hok.
Qed.

Lemma evolves_refl l K st : evolves l K st st.
Proof. unfold evolves. split_and!; [done | done | set_solver]. Qed.

Lemma evolves_trans l K st1 st2 st3 :
  evolves l K st1 st2 → evolves l K st2 st3 → evolves l K st1 st3.
Proof.
  intros (Hlen1 & Hfr1 & Hdom1) (Hlen2 & Hfr2 & Hdom2). split_and!.
  - congruence.
  - intros l' Hne. rewrite Hfr2, Hfr1; done.
  - set_solver.
Qed.

Lemma evolves_heap_eq l K st st' :
  heap st' = heap st → evolves l K st st'.
Proof. intros Heq. unfold evolves. rewrite Heq. apply evolves_refl. Qed.

Lemma keeps_ret {A} l K (a : A) : keeps l K (mret a).
Proof. intros st r st' [= <- <-]. apply evolves_refl. Qed.

Lemma keeps_raise {A} l K e : keeps l K (raise (A := A) e).
Proof. intros st r st' [= <- <-]. apply evolves_refl. Qed.

Lemma keeps_lift {A} l K (r : result A) : keeps l K (lift r).
Proof. intros st r' st' [= <- <-]. apply evolves_refl. Qed.

Lemma keeps_bind {A B} l K (m : M A) (k : A → M B) :
  keeps l K m → (∀ a, keeps l K (k a)) → keeps l K (m ≫= k).
Proof.
  intros Hm Hk st r st' [(e & Hrun & _) | (a & st1 & Hrun & Hrest)]%bind_inv.
  - by eapply Hm.
  - eapply evolves_trans; [by eapply Hm | by eapply Hk].
Qed.

Lemma keeps_try_except {A} l K (body : M A) (handler : exn → M A) :
  keeps l K body → (∀ e, keeps l K (handler e)) →
  keeps l K (try_except body handler).
Proof.
  intros Hb Hh st r st'. unfold try_except.
  destruct (body st) as [[a|e] st1] eqn:Hrun.
  - intros [= <- <-]. by eapply Hb.
  - intros Hrun'. eapply evolves_trans; [by eapply Hb | by eapply Hh].
Qed.

Lemma keeps_deref l K l' : keeps l K (deref l').
Proof. intros st r st' [= <- <-]. apply evolves_refl. Qed.

Lemma keeps_print l K line : keeps l K (print line).
Proof. intros st r st' [= <- <-]. by apply evolves_heap_eq. Qed.

Lemma keeps_ic l K text : keeps l K (ic text).
Proof. intros st r st' [= <- <-]. by apply evolves_heap_eq. Qed.

Lemma keeps_fetch l K url : keeps l K (fetch url).
Proof.
  intros st r st'. unfold fetch.
  destruct (get_soup_from_url url (world st)) as [r' w].
  intros [= <- <-]. by apply evolves_heap_eq.
Qed.

(** Reading the dictionary just stored. *)
Lemma lookup_total_insert_dom (h : list dict) (l : loc) (d : dict) :
  dom (<[l := d]> h !!! l) ⊆ dom (h !!! l) ∪ dom d.
Proof.
  destruct (decide (l < length h)%nat) as [Hlt|Hge].
  - rewrite list_lookup_total_insert_eq by done. set_solver.
  - rewrite list_insert_ge by lia. set_solver.
Qed.

Lemma evolves_store l K st d :
  dom d ⊆ dom (heap st !!! l) ∪ K →
  evolves l K st (State (<[l := d]> (heap st)) (written st) (world st)).
Proof.
  intros Hd. unfold evolves. cbn [heap]. split_and!.
  - apply length_insert.
  - intros l' Hne. by apply list_lookup_insert_ne.
  - pose proof (lookup_total_insert_dom (heap st) l d). set_solver.
Qed.

Lemma keeps_dict_setitem l K key v : key ∈ K → keeps l K (dict_setitem l key v).
Proof.
  intros Hkey st r st' [= <- <-]. apply evolves_store.
  rewrite dom_insert_L. set_solver.
Qed.

Lemma keeps_dict_update l K other : dom other ⊆ K → keeps l K (dict_update l other).
Proof.
  intros Hother st r st' [= <- <-]. apply evolves_store.
  rewrite dom_union_L. set_solver.
Qed.

Lemma keeps_dict_update_self l K : keeps l K (dict_update_from l l).
Proof.
  intros st r st' [= <- <-]. apply evolves_store.
  rewrite dom_union_L. set_solver.
Qed.

Lemma keeps_dict_getitem l K l' key : keeps l K (dict_getitem l' key).
Proof.
  apply keeps_bind; [apply keeps_deref |].
  intros d. destruct (d !! key); [apply keeps_ret | apply keeps_raise].
Qed.

(** *** The methods of [Teaser] *)

(** A field is written only when its element is found. *)
Lemma keeps_extract_field (self : Teaser) K (field_name : string) :
  (is_Some (find_class ("teaser-right__" +:+ field_name) (teaser_soup self)) →
   field_name ∈ K) →
  keeps (teaser_info self) K
    (extract_field self (field_name, "teaser-right__" +:+ field_name)).
Proof.
  intros HK. unfold extract_field.
  destruct (find_class _ _) as [tag|]; [| apply keeps_ret].
  specialize (HK (mk_is_Some _ _ eq_refl)).
  case_bool_decide; [by apply keeps_dict_setitem |].
  case_bool_decide; [| apply keeps_ret].
  destruct (get tag "href") as [[href|?]|]; try apply keeps_raise.
  destruct (negb _); by apply keeps_dict_setitem.
Qed.

Lemma keeps_extract_info_from_teaser (self : Teaser) K :
  (∀ field_name,
     field_name ∈ teaser_fields →
     is_Some (find_class ("teaser-right__" +:+ field_name) (teaser_soup self)) →
     field_name ∈ K) →
  keeps (teaser_info self) K (extract_info_from_teaser self).
Proof.
  intros HK. unfold extract_info_from_teaser, name_html_mapping.
  cbn [fmap list_fmap field_names_text field_names_link app for_each].
  apply keeps_bind; [| intros _; apply keeps_ret].
  repeat (apply keeps_bind;
          [apply keeps_extract_field; intros ?; apply HK;
           [unfold teaser_fields; set_solver | done]
          | intros _]).
  apply keeps_ret.
Qed.

Lemma extract_info_from_teaser_returns (self : Teaser) st l st' :
  extract_info_from_teaser self st = (Ok l, st') → l = teaser_info self.
Proof.
  unfold extract_info_from_teaser.
  intros (? & st1 & _ & Hret)%bind_inv_ok. by inversion Hret.
Qed.

Lemma keeps_enrich_handler l K link e : keeps l K (enrich_handler link e).
Proof. destruct e; apply keeps_print. Qed.

Lemma keeps_enrich (self : Teaser) K :
  "tags" ∈ K →
  keeps (teaser_info self) K
    (enrich_teaser_info_with_article_tags self (teaser_info self)).
Proof.
  intros HK. unfold enrich_teaser_info_with_article_tags.
  apply keeps_bind; [apply keeps_dict_getitem | intros link].
  apply keeps_bind; [| intros _; apply keeps_ret].
  apply keeps_try_except; [| intros e; apply keeps_enrich_handler].
  apply keeps_bind; [apply keeps_fetch | intros article_soup].
  apply keeps_bind; [| intros _; apply keeps_dict_update_self].
  apply keeps_dict_update. unfold extract_article_tags.
  rewrite dom_singleton_L. set_solver.
Qed.

Lemma enrich_returns (self : Teaser) l st l' st' :
  enrich_teaser_info_with_article_tags self l st = (Ok l', st') → l' = l.
Proof.
  unfold enrich_teaser_info_with_article_tags.
  intros (link & st1 & _ & (? & st2 & _ & Hret)%bind_inv_ok)%bind_inv_ok.
  by inversion Hret.
Qed.

Lemma keeps_process_info (self : Teaser) K :
  "id" ∈ K → "date" ∈ K →
  keeps (teaser_info self) K (process_info self (teaser_info self)).
Proof.
  intros Hid Hdate. unfold process_info.
  apply keeps_bind; [apply keeps_dict_getitem | intros link].
  apply keeps_bind; [by apply keeps_dict_setitem | intros _].
  apply keeps_bind; [apply keeps_dict_getitem | intros date].
  apply keeps_bind; [apply keeps_lift | intros date'].
  apply keeps_bind; [by apply keeps_dict_setitem | intros _].
  apply keeps_bind; [apply keeps_dict_update_self | intros _].
  apply keeps_ret.
Qed.

Lemma process_info_returns (self : Teaser) l st l' st' :
  process_info self l st = (Ok l', st') → l' = l.
Proof.
  unfold process_info.
  intros (? & ? & _ & H1)%bind_inv_ok.
  apply bind_inv_ok in H1 as (? & ? & _ & H1).
  apply bind_inv_ok in H1 as (? & ? & _ & H1).
  apply bind_inv_ok in H1 as (? & ? & _ & H1).
  apply bind_inv_ok in H1 as (? & ? & _ & H1).
  apply bind_inv_ok in H1 as (? & ? & _ & H1).
  by inversion H1.
Qed.

Lemma difference_empty_subseteq (R D : gset string) : R ∖ D = ∅ ↔ R ⊆ D.
Proof.
  split.
  - intros Hempty x Hx. destruct (decide (x ∈ D)) as [|Hnot]; [done |].
    assert (x ∈ R ∖ D) as Hin by set_solver.
    rewrite Hempty in Hin. set_solver.
  - set_solver.
Qed.

(** Validation reads the dictionary, writes two lines when it fails, and
    answers whether no required attribute is missing. *)
Lemma is_teaser_info_valid_run (self : Teaser) l st :
  ∃ st',
    is_teaser_info_valid self l st
    = (Ok (bool_decide (required_attributes self ⊆ dom (heap st !!! l))), st')
    ∧ heap st' = heap st ∧ world st' = world st.
Proof.
  unfold is_teaser_info_valid. rewrite bind_run. cbn [deref].
  rewrite (bool_decide_ext _ _ (difference_empty_subseteq _ _)).
  destruct (bool_decide _); by eexists.
Qed.

Lemma Teaser_init_run (soup : node) (st : state) :
  Teaser_init soup st
  = (Ok {| teaser_soup := soup;
           teaser_info := length (heap st);
           required_attributes :=
             {[ "date"; "headline"; "shorttext"; "link" ]} |},
     State (heap st ++ [∅]) (written st) (world st)).
Proof. reflexivity. Qed.

Lemma lookup_total_fresh (h : list dict) : (h ++ [∅]) !!! length h = (∅ : dict).
Proof.
  rewrite list_lookup_total_alt, lookup_app_r by lia.
  by rewrite Nat.sub_diag.
Qed.

(** *** One turn of the loop over the teaser blocks *)

(** A turn that returns went through the four stages on one and the same
    dictionary, and appended its reference exactly when the dictionary has
    the required fields. *)
Lemma process_teaser_stages (teaser : node) (acc acc' : list loc)
    (st st' : state) :
  process_teaser teaser acc st = (Ok acc', st') →
  let self := teaser_object teaser st in
  let l := length (heap st) in
  ∃ st1 st2 st3,
    extract_info_from_teaser self (allocated st) = (Ok l, st1)
    ∧ enrich_teaser_info_with_article_tags self l st1 = (Ok l, st2)
    ∧ process_info self l st2 = (Ok l, st3)
    ∧ heap st' = heap st3
    ∧ (acc' = acc ∧ ¬ required_fields ⊆ dom (heap st3 !!! l)
       ∨ acc' = acc ++ [l] ∧ required_fields ⊆ dom (heap st3 !!! l)).
Proof.
  intros Hrun self l. unfold process_teaser in Hrun.
  rewrite bind_run, Teaser_init_run in Hrun.
  fold (teaser_object teaser st) (allocated st) in Hrun. fold self in Hrun.
  apply bind_inv_ok in Hrun as (l1 & st1 & Hextract & Hrun).
  apply bind_inv_ok in Hrun as (l2 & st2 & Henrich & Hrun).
  apply bind_inv_ok in Hrun as (l3 & st3 & Hprocess & Hrun).
  apply bind_inv_ok in Hrun as (valid & st4 & Hvalid & Hrun).
  apply extract_info_from_teaser_returns in Hextract as Hl1.
  subst l1. apply enrich_returns in Henrich as Hl2. subst l2.
  apply process_info_returns in Hprocess as Hl3. subst l3.
  change (teaser_info self) with l in *.
  exists st1, st2, st3. split_and!; try done.
  - destruct (is_teaser_info_valid_run self l st3) as (st4' & Hv & Hheap & _).
    rewrite Hv in Hvalid. inversion Hvalid; subst valid st4'.
    destruct (bool_decide _); inversion Hrun; by subst.
  - destruct (is_teaser_info_valid_run self l st3) as (st4' & Hv & _).
    rewrite Hv in Hvalid. inversion Hvalid; subst valid st4'. clear Hv Hvalid.
    revert Hrun. change (required_attributes self) with required_fields.
    case_bool_decide; intros [= <- <-]; [right | left]; done.
Qed.

Lemma evolves_allocated (st st3 : state) (K : gset string) :
  evolves (length (heap st)) K (allocated st) st3 →
  length (heap st3) = S (length (heap st))
  ∧ (∀ l', (l' < length (heap st))%nat → heap st3 !! l' = heap st !! l')
  ∧ dom (heap st3 !!! length (heap st)) ⊆ K.
Proof.
  intros (Hlen & Hframe & Hdom). cbn [allocated heap] in *.
  rewrite length_app in Hlen. cbn [length] in Hlen.
  rewrite lookup_total_fresh, dom_empty_L in Hdom.
  split_and!.
  - lia.
  - intros l' Hlt. rewrite Hframe by lia. by apply lookup_app_l.
  - set_solver.
Qed.

(** Such a turn has added one dictionary to the store, at the next free
    reference, and changed no other; the dictionary holds only keys of
    fields found in the block, and [tags], [id], [date]. *)
Lemma process_teaser_ok (teaser : node) (acc acc' : list loc) (st st' : state)
    (K : gset string) :
  (∀ field_name,
     field_name ∈ teaser_fields →
     is_Some (find_class ("teaser-right__" +:+ field_name) teaser) →
     field_name ∈ K) →
  {[ "tags"; "id"; "date" ]} ⊆ K →
  process_teaser teaser acc st = (Ok acc', st') →
  length (heap st') = S (length (heap st))
  ∧ (∀ l', (l' < length (heap st))%nat → heap st' !! l' = heap st !! l')
  ∧ dom (heap st' !!! length (heap st)) ⊆ K
  ∧ (acc' = acc ∧ ¬ required_fields ⊆ dom (heap st' !!! length (heap st))
     ∨ acc' = acc ++ [length (heap st)]
       ∧ required_fields ⊆ dom (heap st' !!! length (heap st))).
Proof.
  intros Hfound HK Hrun.
  destruct (process_teaser_stages _ _ _ _ _ Hrun)
    as (st1 & st2 & st3 & Hextract & Henrich & Hprocess & Hheap & Hnew).
  set (self := teaser_object teaser st) in *.
  change (length (heap st)) with (teaser_info self) in *.
  assert (evolves (teaser_info self) K (allocated st) st3) as Hev.
  { eapply evolves_trans; [eapply evolves_trans |].
    - eapply (keeps_extract_info_from_teaser self K); [done | exact Hextract].
    - eapply (keeps_enrich self K); [set_solver | exact Henrich].
    - eapply (keeps_process_info self K); [set_solver.. | exact Hprocess]. }
  apply evolves_allocated in Hev. rewrite Hheap. tauto.
Qed.

(** *** A fetch that fails during the enrichment *)

Lemma dict_getitem_run (l : loc) (key v : string) (st : state) :
  (heap st !!! l) !! key = Some v → dict_getitem l key st = (Ok v, st).
Proof.
  intros Hkey. unfold dict_getitem. rewrite bind_run. cbn [deref].
  by rewrite Hkey.
Qed.

Lemma enrich_handler_run (link : string) (e : exn) (st : state) :
  ∃ line,
    enrich_handler link e st
    = (Ok tt, State (heap st) (written st ++ [Stdout line]) (world st)).
Proof. destruct e; by eexists. Qed.

Lemma enrich_fetch_failure_run (self : Teaser) (l : loc) (st : state)
    (link : string) (e : exn) (w' : World) :
  (heap st !!! l) !! "link" = Some link →
  get_soup_from_url link (world st) = (Raise e, w') →
  ∃ line,
    enrich_teaser_info_with_article_tags self l st
    = (Ok l, State (heap st) (written st ++ [Stdout line]) w').
Proof.
  intros Hlink Hfetch. unfold enrich_teaser_info_with_article_tags.
  rewrite bind_run, (dict_getitem_run _ _ _ _ Hlink), bind_run.
  unfold try_except at 1. rewrite bind_run. unfold fetch at 1.
  rewrite Hfetch.
  destruct (enrich_handler_run link e (State (heap st) (written st) w'))
    as [line ->].
  by exists line.
Qed.

(** *** A link element without [href] *)

Lemma extract_field_text_run (self : Teaser) (field_name cls : string)
    (st : state) :
  field_name ∈ field_names_text →
  ∃ st', extract_field self (field_name, cls) st = (Ok tt, st').
Proof.
  intros Hin. unfold extract_field.
  destruct (find_class cls (teaser_soup self)); [| by eexists].
  rewrite bool_decide_eq_true_2 by done. by eexists.
Qed.

Lemma extract_info_from_teaser_malformed (self : Teaser) (st : state) :
  malformed_link (teaser_soup self) →
  ∃ st', extract_info_from_teaser self st = (Raise (ValueError ""), st').
Proof.
  intros (tag & Hfind & Hhref).
  unfold extract_info_from_teaser, name_html_mapping.
  cbn [fmap list_fmap field_names_text field_names_link app for_each].
  rewrite bind_run, bind_run.
  destruct (extract_field_text_run self "date" ("teaser-right__" +:+ "date") st)
    as [st1 ->]; [set_solver |].
  rewrite bind_run.
  destruct (extract_field_text_run self "topline"
              ("teaser-right__" +:+ "topline") st1)
    as [st2 ->]; [set_solver |].
  rewrite bind_run.
  destruct (extract_field_text_run self "headline"
              ("teaser-right__" +:+ "headline") st2)
    as [st3 ->]; [set_solver |].
  rewrite bind_run.
  destruct (extract_field_text_run self "shorttext"
              ("teaser-right__" +:+ "shorttext") st3)
    as [st4 ->]; [set_solver |].
  rewrite bind_run. unfold extract_field.
  change ("teaser-right__" +:+ "link") with "teaser-right__link".
  rewrite Hfind.
  change (bool_decide ("link" ∈ ["date"; "topline"; "headline"; "shorttext"]))
    with false.
  change (bool_decide ("link" ∈ ["link"])) with true. cbv iota.
  destruct (get tag "href") as [[href|classes]|] eqn:Hget.
  - by destruct (Hhref href).
  - by eexists.
  - by eexists.
Qed.

Lemma process_teaser_malformed (teaser : node) (acc : list loc) (st : state) :
  malformed_link teaser →
  ∃ st', process_teaser teaser acc st = (Raise (ValueError ""), st').
Proof.
  intros Hbad. unfold process_teaser. rewrite bind_run, Teaser_init_run.
  rewrite bind_run.
  edestruct extract_info_from_teaser_malformed as [st' ->]; [exact Hbad |].
  by eexists.
Qed.

Lemma for_each_teaser_malformed (teasers : list node) : ∀ acc st,
  (∃ teaser, teaser ∈ teasers ∧ malformed_link teaser) →
  ∃ e st', for_each_teaser teasers acc st = (Raise e, st').
Proof.
  induction teasers as [|t rest IH]; intros acc st (bad & Hin & Hbad).
  - by apply elem_of_nil in Hin.
  - cbn [for_each_teaser]. rewrite bind_run.
    destruct (process_teaser t acc st) as [[acc1|e] st1] eqn:Hturn;
      [| by eexists _, _].
    apply elem_of_cons in Hin as [->|Hin].
    + destruct (process_teaser_malformed t acc st Hbad) as [st' Hraise].
      congruence.
    + apply IH. by exists bad.
Qed.

(** *** The records of the output *)

Lemma for_each_teaser_valid (teasers : list node) : ∀ acc st out st',
  for_each_teaser teasers acc st = (Ok out, st') →
  (∀ l, l ∈ acc →
        (l < length (heap st))%nat ∧ required_fields ⊆ dom (heap st !!! l)) →
  ∀ l, l ∈ out →
       (l < length (heap st'))%nat ∧ required_fields ⊆ dom (heap st' !!! l).
Proof.
  induction teasers as [|t rest IH]; intros acc st out st'.
  - intros [= <- <-]. done.
  - cbn [for_each_teaser].
    intros (acc1 & st1 & Hturn & Hrest)%bind_inv_ok Hacc.
    eapply (process_teaser_ok _ _ _ _ _ (teaser_fields ∪ {[ "tags"; "id"; "date" ]}))
      in Hturn as (Hlen & Hframe & _ & Hnew);
      [| set_solver | set_solver].
    apply (IH _ _ _ _ Hrest).
    assert (∀ l, l ∈ acc →
              (l < length (heap st1))%nat
              ∧ required_fields ⊆ dom (heap st1 !!! l)) as Hold.
    { intros l [Hlt Hreq]%Hacc. split; [lia |].
      by rewrite list_lookup_total_alt, Hframe, <- list_lookup_total_alt. }
    destruct Hnew as [[-> _] | [-> Hreq]]; [done |].
    intros l [Hl | ->%list_elem_of_singleton]%elem_of_app; [by apply Hold |].
    split; [lia | done].
Qed.

(** *** The claims on the pipeline *)

(** C1, amended. A teaser block whose matched link element has no string
    [href] makes its turn of the loop raise [ValueError]; the loop has no
    handler, so for a page holding such a block
    [_extract_info_for_all_teaser] raises and returns no output sequence:
    no sibling teaser, valid or not, is output. *)
Theorem malformed_link_raises (soup teaser : node) (acc : list loc)
    (st : state) :
  malformed_link teaser →
  (∃ st', process_teaser teaser acc st = (Raise (ValueError ""), st'))
  ∧ (teaser ∈ find_all_class "teaser-right twelve" soup →
     ∃ e st', _extract_info_for_all_teaser soup st = (Raise e, st')).
Proof.
  intros Hbad. split; [by apply process_teaser_malformed |].
  intros Hin. apply for_each_teaser_malformed. by exists teaser.
Qed.

(** C5. Validation answers true exactly when the keys of the record
    include the required attributes, which for every teaser object are
    date, headline, shorttext and link; every record of the output of
    [_extract_info_for_all_teaser] has these four keys; and a teaser block
    without a short text element adds nothing to the output. *)
Theorem teaser_valid_iff_required :
  (∀ self l st,
     ∃ valid st',
       is_teaser_info_valid self l st = (Ok valid, st')
       ∧ (valid = true ↔ required_attributes self ⊆ dom (heap st !!! l)))
  ∧ (∀ soup st,
       ∃ self st0,
         Teaser_init soup st = (Ok self, st0)
         ∧ required_attributes self
           = {[ "date"; "headline"; "shorttext"; "link" ]})
  ∧ (∀ soup st out st',
       _extract_info_for_all_teaser soup st = (Ok out, st') →
       ∀ l, l ∈ out →
            {[ "date"; "headline"; "shorttext"; "link" ]}
              ⊆ dom (heap st' !!! l))
  ∧ (∀ teaser acc st acc' st',
       find_class "teaser-right__shorttext" teaser = None →
       process_teaser teaser acc st = (Ok acc', st') →
       acc' = acc).
Proof.
  split_and!.
  - intros self l st.
    destruct (is_teaser_info_valid_run self l st) as (st' & Hrun & _).
    eexists _, st'. split; [exact Hrun |]. apply bool_decide_eq_true.
  - intros soup st. eexists _, _. by rewrite Teaser_init_run.
  - intros soup st out st' Hrun l Hl.
    eapply (for_each_teaser_valid _ _ _ _ _ Hrun); [| exact Hl].
    intros l' Hin. by apply elem_of_nil in Hin.
  - intros teaser acc st acc' st' Hnone Hrun.
    eapply (process_teaser_ok _ _ _ _ _
              {[ "date"; "topline"; "headline"; "link"; "tags"; "id" ]})
      in Hrun as (_ & _ & Hdom & [[-> _] | [_ Hreq]]); [done | | | set_solver].
    + assert ("shorttext" ∈ required_fields) as Hin
        by (unfold required_fields; set_solver).
      apply Hreq, Hdom in Hin. set_solver.
    + intros field_name Hfield Hfound. unfold teaser_fields in Hfield.
      destruct (decide (field_name = "shorttext")) as [->|Hne];
        [| set_solver].
      change ("teaser-right__" +:+ "shorttext")
        with "teaser-right__shorttext" in Hfound.
      rewrite Hnone in Hfound. by destruct Hfound.
Qed.

(** The record of a teaser whose fetch failed has no [tags] key. *)
Lemma fetch_failure_no_tags (teaser : node) (acc acc' : list loc)
    (st_in st st' : state) (l : loc) (link : string) (e : exn) (w' : World) :
  let self := teaser_object teaser st_in in
  extract_info_from_teaser self (allocated st_in) = (Ok l, st) →
  (heap st !!! l) !! "link" = Some link →
  get_soup_from_url link (world st) = (Raise e, w') →
  ("tags" ∉ dom (heap st !!! l))
  ∧ (process_teaser teaser acc st_in = (Ok acc', st') →
     ("tags" ∉ dom (heap st' !!! l))
     ∧ (required_fields ⊆ dom (heap st' !!! l) → acc' = acc ++ [l])).
Proof.
  intros self Hextract Hlink Hfetch.
  apply extract_info_from_teaser_returns in Hextract as Hl.
  change (teaser_info self) with (length (heap st_in)) in Hl. subst l.
  assert (evolves (teaser_info self) teaser_fields (allocated st_in) st)
    as Hev1.
  { eapply (keeps_extract_info_from_teaser self teaser_fields);
      [done | exact Hextract]. }
  assert (¬ "tags" ∈ teaser_fields) as Hfresh
    by (unfold teaser_fields; set_solver).
  split.
  { apply evolves_allocated in Hev1 as (_ & _ & Hdom). set_solver. }
  intros Hrun.
  destruct (process_teaser_stages _ _ _ _ _ Hrun)
    as (st1 & st2 & st3 & Hextract' & Henrich & Hprocess & Hheap & Hnew).
  fold self in Hextract', Henrich, Hprocess.
  rewrite Hextract in Hextract'. inversion Hextract'; subst st1.
  destruct (enrich_fetch_failure_run self _ st link e w' Hlink Hfetch)
    as [line Henrich'].
  rewrite Henrich' in Henrich. inversion Henrich; subst st2.
  assert (evolves (teaser_info self) (teaser_fields ∪ {[ "id"; "date" ]})
            (allocated st_in) st3) as Hev.
  { eapply evolves_trans.
    - eapply (keeps_extract_info_from_teaser self); [| exact Hextract].
      set_solver.
    - eapply evolves_trans; [| eapply (keeps_process_info self);
                                [| | exact Hprocess]; set_solver].
      by apply evolves_heap_eq. }
  apply evolves_allocated in Hev as (_ & _ & Hdom).
  rewrite Hheap. split; [set_solver |].
  intros Hreq. by destruct Hnew as [[_ Hnot] | [-> _]].
Qed.

End ScraperFacts.

(** *** The pipeline on sample pages *)

Section SamplePages.

Import Soup Scraper Samples.

Lemma bad_block_malformed : malformed_link bad_block.
Proof.
  eexists. split; [reflexivity |]. intros href. vm_compute. discriminate.
Qed.

(** C1, as stated, fails: next to a block without [href], a block that is
    valid on its own is not output, whether it comes after or before. *)
Lemma malformed_link_aborts_siblings :
  records (_extract_info_for_all_teaser (archive_page [good_block])
             empty_state)
  = Ok [good_record]
  ∧ records (_extract_info_for_all_teaser
               (archive_page [bad_block; good_block]) empty_state)
    = Raise (ValueError "")
  ∧ records (_extract_info_for_all_teaser
               (archive_page [good_block; bad_block]) empty_state)
    = Raise (ValueError "").
Proof. split_and!; vm_compute; reflexivity. Qed.

End SamplePages.

(** The page of a block without [href] followed by a complete block. *)
Lemma malformed_link_raises_witness :
  (∃ st', Scraper.process_teaser Samples.bad_block [] Samples.empty_state
          = (Raise (ValueError ""), st'))
  ∧ ∃ e st',
      Scraper._extract_info_for_all_teaser
        (Samples.archive_page [Samples.bad_block; Samples.good_block]) Samples.empty_state
      = (Raise e, st').
Proof.
  destruct (malformed_link_raises
              (Samples.archive_page [Samples.bad_block; Samples.good_block]) Samples.bad_block []
              Samples.empty_state bad_block_malformed) as [Hturn Hpage].
  split; [exact Hturn |]. apply Hpage.
  vm_compute. apply list_elem_of_here.
Defined.

(** A page of a complete block and one without short text. *)
Lemma teaser_valid_iff_required_witness :
  (∀ l, l ∈ [0%nat] →
        {[ "date"; "headline"; "shorttext"; "link" ]}
          ⊆ dom (Scraper.heap
                   (snd (Scraper._extract_info_for_all_teaser
                           (Samples.archive_page
                              [Samples.good_block;
                               Samples.teaser_block (Some "/c.html") None])
                           Samples.empty_state)) !!! l))
  ∧ ∃ acc',
      fst (Scraper.process_teaser
             (Samples.teaser_block (Some "/c.html") None) [7%nat]
             Samples.empty_state)
      = Ok acc'
      ∧ acc' = [7%nat].
Proof.
  destruct (teaser_valid_iff_required
              (collaborators := Samples.sample_collaborators))
    as (_ & _ & Hout & Hshort).
  split.
  - apply (Hout (Samples.archive_page
                   [Samples.good_block;
                    Samples.teaser_block (Some "/c.html") None])
                Samples.empty_state [0%nat]).
    vm_compute. reflexivity.
  - exists [7%nat]. split; [vm_compute; reflexivity |].
    apply (Hshort (Samples.teaser_block (Some "/c.html") None) [7%nat]
                  Samples.empty_state [7%nat]
                  (snd (Scraper.process_teaser
                          (Samples.teaser_block (Some "/c.html") None)
                          [7%nat] Samples.empty_state)));
      vm_compute; reflexivity.
Defined.

(** C10. When the fetch of the article fails, the enrichment returns the
    record it was given with the store unchanged, so the record, which has
    no [tags] key after the extraction, has none afterwards either, not even
    an empty one; a record with date, headline, shorttext and link passes
    the validation whether or not it has tags, so the turn appends it; and
    there is a page and a network for which the output holds a record
    without [tags]. *)
Theorem fetch_failure_record_without_tags :
  (∀ (collaborators : Scraper.Collaborators) teaser acc acc' st_in st st'
     l link e w',
     let self := Scraper.teaser_object teaser st_in in
     Scraper.extract_info_from_teaser self (Scraper.allocated st_in) = (Ok l, st) →
     (Scraper.heap st !!! l) !! "link" = Some link →
     Scraper.get_soup_from_url link (Scraper.world st) = (Raise e, w') →
     (∃ st2,
        Scraper.enrich_teaser_info_with_article_tags self l st = (Ok l, st2)
        ∧ Scraper.heap st2 = Scraper.heap st)
     ∧ ("tags" ∉ dom (Scraper.heap st !!! l))
     ∧ (Scraper.process_teaser teaser acc st_in = (Ok acc', st') →
        ("tags" ∉ dom (Scraper.heap st' !!! l))
        ∧ ({[ "date"; "headline"; "shorttext"; "link" ]}
             ⊆ dom (Scraper.heap st' !!! l) →
           acc' = acc ++ [l])))
  ∧ (∀ (collaborators : Scraper.Collaborators) self l st,
       Scraper.required_attributes self ⊆ dom (Scraper.heap st !!! l) →
       ∃ st', Scraper.is_teaser_info_valid self l st = (Ok true, st'))
  ∧ Samples.records
      (Scraper._extract_info_for_all_teaser
         (Samples.archive_page [Samples.offline_block]) Samples.empty_state)
    = Ok [Samples.offline_record]
  ∧ Samples.offline_record !! "tags" = None.
Proof.
  split_and!.
  - intros collaborators teaser acc acc' st_in st st' l link e w' self
      Hextract Hlink Hfetch.
    destruct (enrich_fetch_failure_run self l st link e w' Hlink Hfetch)
      as [line Henrich].
    destruct (fetch_failure_no_tags teaser acc acc' st_in st st' l link e w'
                Hextract Hlink Hfetch) as [Hbefore Hafter].
    split_and!; [by eexists | done | exact Hafter].
  - intros collaborators self l st Hreq.
    destruct (is_teaser_info_valid_run self l st) as (st' & Hrun & _).
    exists st'. by rewrite Hrun, bool_decide_eq_true_2.
  - vm_compute. reflexivity.
  - reflexivity.
Qed.

(** The block whose article is offline, alone on its page. *)
Lemma fetch_failure_record_without_tags_witness :
  ("tags" ∉ dom (Scraper.heap
                   (snd (Scraper.process_teaser Samples.offline_block []
                           Samples.empty_state)) !!! 0%nat))
  ∧ ∃ st', Scraper.is_teaser_info_valid
             (Scraper.teaser_object Samples.offline_block Samples.empty_state) 0%nat
             (snd (Scraper.process_teaser Samples.offline_block []
                     Samples.empty_state))
           = (Ok true, st').
Proof.
  destruct fetch_failure_record_without_tags as (Hturn & Hvalid & _).
  split.
  - destruct (Hturn Samples.sample_collaborators Samples.offline_block [] [0%nat]
                Samples.empty_state
                (snd (Scraper.extract_info_from_teaser
                        (Scraper.teaser_object Samples.offline_block Samples.empty_state)
                        (Scraper.allocated Samples.empty_state)))
                (snd (Scraper.process_teaser Samples.offline_block []
                        Samples.empty_state))
                0%nat "https://www.offline.de/c"
                (ConnectionError "unreachable") 1%nat)
      as (_ & _ & Hafter); [vm_compute; reflexivity.. |].
    apply Hafter. vm_compute. reflexivity.
  - apply (Hvalid Samples.sample_collaborators).
    apply (bool_decide_unpack _). vm_compute. exact I.
Defined.

(** * Further properties *)

(** ** The stages of a teaser on the dictionary on top of the store *)

Section TeaserRuns.

Import Soup Scraper.

Context {collaborators : Collaborators}.

Lemma deref_top h d lines w :
  deref (length h) (on_top h d lines w) = (Ok d, on_top h d lines w).
Proof.
  unfold deref, on_top. cbn [heap]. by rewrite list_lookup_total_middle.
Qed.

Lemma store_top h d d' lines w :
  store (length h) d' (on_top h d lines w) = (Ok tt, on_top h d' lines w).
Proof.
  unfold store, on_top. cbn [heap written world].
  rewrite insert_app_r_alt, Nat.sub_diag by lia. reflexivity.
Qed.

Lemma dict_setitem_top h d lines w key v :
  dict_setitem (length h) key v (on_top h d lines w)
  = (Ok tt, on_top h (<[key := v]> d) lines w).
Proof.
  unfold dict_setitem. by rewrite bind_run, deref_top, store_top.
Qed.

Lemma dict_getitem_top h d lines w key :
  dict_getitem (length h) key (on_top h d lines w)
  = (match d !! key with Some v => Ok v | None => Raise (KeyError key) end,
     on_top h d lines w).
Proof.
  unfold dict_getitem. rewrite bind_run, deref_top. by destruct (d !! key).
Qed.

Lemma dict_update_top h d lines w other :
  dict_update (length h) other (on_top h d lines w)
  = (Ok tt, on_top h (other ∪ d) lines w).
Proof.
  unfold dict_update. by rewrite bind_run, deref_top, store_top.
Qed.

Lemma dict_update_from_top h d lines w :
  dict_update_from (length h) (length h) (on_top h d lines w)
  = (Ok tt, on_top h d lines w).
Proof.
  unfold dict_update_from.
  rewrite bind_run, deref_top, dict_update_top. by rewrite (idemp_L (∪)).
Qed.

Lemma fetch_top h d lines w url :
  fetch url (on_top h d lines w)
  = (fst (get_soup_from_url url w),
     on_top h d lines (snd (get_soup_from_url url w))).
Proof.
  unfold fetch, on_top. cbn [heap written world].
  by destruct (get_soup_from_url url w).
Qed.

Lemma print_top h d lines w line :
  print line (on_top h d lines w) = (Ok tt, on_top h d (lines ++ [Stdout line]) w).
Proof. reflexivity. Qed.

Section OneTeaser.

Variable self : Teaser.
Variable h : list dict.
Hypothesis self_on_top : teaser_info self = length h.

Lemma extract_field_text_top d lines w field_name :
  field_name ∈ field_names_text →
  extract_field self (field_name, "teaser-right__" +:+ field_name)
    (on_top h d lines w)
  = (Ok tt, on_top h (text_field (teaser_soup self) d field_name) lines w).
Proof.
  intros Hin. unfold extract_field, text_field.
  destruct (find_class _ _) as [tag|]; [| done].
  rewrite bool_decide_eq_true_2 by done.
  by rewrite self_on_top, dict_setitem_top.
Qed.

Lemma extract_field_link_top d lines w :
  extract_field self ("link", "teaser-right__link") (on_top h d lines w)
  = match link_field (teaser_soup self) d with
    | Ok d' => (Ok tt, on_top h d' lines w)
    | Raise e => (Raise e, on_top h d lines w)
    end.
Proof.
  unfold extract_field, link_field, absolute_link.
  destruct (find_class _ _) as [tag|]; [| done].
  change (bool_decide ("link" ∈ field_names_text)) with false.
  change (bool_decide ("link" ∈ field_names_link)) with true. cbv iota.
  destruct (get tag "href") as [[href|classes]|]; try done.
  rewrite self_on_top. destruct (negb _); by rewrite dict_setitem_top.
Qed.

(** The extraction writes the text fields found, then the link. *)
Lemma extract_info_from_teaser_top d lines w :
  extract_info_from_teaser self (on_top h d lines w)
  = match link_field (teaser_soup self) (text_fields (teaser_soup self) d) with
    | Ok d' => (Ok (length h), on_top h d' lines w)
    | Raise e =>
        (Raise e, on_top h (text_fields (teaser_soup self) d) lines w)
    end.
Proof.
  unfold extract_info_from_teaser, name_html_mapping, text_fields.
  cbn [fmap list_fmap field_names_text field_names_link app for_each
       fold_left].
  rewrite bind_run, bind_run, extract_field_text_top by set_solver.
  rewrite bind_run, extract_field_text_top by set_solver.
  rewrite bind_run, extract_field_text_top by set_solver.
  rewrite bind_run, extract_field_text_top by set_solver.
  rewrite bind_run.
  change ("teaser-right__" +:+ "link") with "teaser-right__link".
  rewrite extract_field_link_top.
  destruct (link_field _ _) as [d'|e]; [| done].
  by rewrite self_on_top.
Qed.

Lemma enrich_handler_top d lines w link e :
  enrich_handler link e (on_top h d lines w)
  = (Ok tt, on_top h d (lines ++ [Stdout (enrich_line link e)]) w).
Proof. by destruct e. Qed.

(** The enrichment needs the link; a fetched article adds its tags, a
    failed fetch adds a line. *)
Lemma enrich_top d lines w :
  enrich_teaser_info_with_article_tags self (length h) (on_top h d lines w)
  = match d !! "link" with
    | None => (Raise (KeyError "link"), on_top h d lines w)
    | Some link =>
        match get_soup_from_url link w with
        | (Ok article_soup, w') =>
            (Ok (length h),
             on_top h (extract_article_tags article_soup ∪ d) lines w')
        | (Raise e, w') =>
            (Ok (length h),
             on_top h d (lines ++ [Stdout (enrich_line link e)]) w')
        end
    end.
Proof.
  unfold enrich_teaser_info_with_article_tags.
  rewrite bind_run, dict_getitem_top.
  destruct (d !! "link") as [link|]; [| done].
  rewrite bind_run. unfold try_except at 1. rewrite bind_run, fetch_top.
  destruct (get_soup_from_url link w) as [[article_soup|e] w']; cbn [fst snd].
  - rewrite bind_run, dict_update_top, self_on_top, dict_update_from_top.
    reflexivity.
  - by rewrite enrich_handler_top.
Qed.

(** The normalisation needs the link, then the date, then a date text
    that the helper accepts; the identifier is written before the date is
    read. *)
Lemma process_info_top d lines w :
  process_info self (length h) (on_top h d lines w)
  = match normalised d with
    | Ok d' => (Ok (length h), on_top h d' lines w)
    | Raise e =>
        (Raise e,
         on_top h
           match d !! "link" with
           | Some link => <["id" := get_hash_from_string link]> d
           | None => d
           end lines w)
    end.
Proof.
  unfold process_info, normalised.
  rewrite bind_run, dict_getitem_top.
  destruct (d !! "link") as [link|]; [| done].
  rewrite bind_run, dict_setitem_top, bind_run, dict_getitem_top.
  rewrite lookup_insert_ne by done.
  destruct (d !! "date") as [date|]; [| done].
  rewrite bind_run. unfold lift at 1.
  destruct (transform_datetime_str date) as [date'|e]; [| done].
  rewrite result_bind_ok.
  rewrite bind_run, dict_setitem_top, bind_run, self_on_top.
  by rewrite dict_update_from_top.
Qed.

Lemma is_teaser_info_valid_top d lines w :
  is_teaser_info_valid self (length h) (on_top h d lines w)
  = (Ok (bool_decide (required_attributes self ⊆ dom d)),
     on_top h d
       (if bool_decide (required_attributes self ⊆ dom d) then lines
        else lines ++ invalid_lines) w).
Proof.
  unfold is_teaser_info_valid. rewrite bind_run, deref_top.
  rewrite (bool_decide_ext _ _ (difference_empty_subseteq _ _)).
  destruct (bool_decide _); [done |].
  unfold on_top, invalid_lines, ic, mbind, M_bind, mret, M_ret.
  cbn [heap written world]. by rewrite <- app_assoc.
Qed.

End OneTeaser.

(** One turn of the loop, stage by stage, from the block alone. *)
Lemma process_teaser_run (teaser : node) (acc : list loc) (st : state) :
  process_teaser teaser acc st
  = let h := heap st in
    match link_field teaser (text_fields teaser ∅) with
    | Raise e =>
        (Raise e, on_top h (text_fields teaser ∅) (written st) (world st))
    | Ok d1 =>
        match d1 !! "link" with
        | None => (Raise (KeyError "link"), on_top h d1 (written st) (world st))
        | Some link =>
            let fetched := get_soup_from_url link (world st) in
            let d2 :=
              match fst fetched with
              | Ok article_soup => extract_article_tags article_soup ∪ d1
              | Raise _ => d1
              end in
            let lines :=
              match fst fetched with
              | Ok _ => written st
              | Raise e => written st ++ [Stdout (enrich_line link e)]
              end in
            match normalised d2 with
            | Raise e =>
                (Raise e,
                 on_top h
                   match d2 !! "link" with
                   | Some link' => <["id" := get_hash_from_string link']> d2
                   | None => d2
                   end lines (snd fetched))
            | Ok d3 =>
                if bool_decide (required_fields ⊆ dom d3)
                then (Ok (acc ++ [length h]), on_top h d3 lines (snd fetched))
                else (Ok acc,
                      on_top h d3 (lines ++ invalid_lines) (snd fetched))
            end
        end
    end.
Proof.
  unfold process_teaser. rewrite bind_run, Teaser_init_run.
  change (State (heap st ++ [∅]) (written st) (world st))
    with (on_top (heap st) ∅ (written st) (world st)).
  set (self := {| teaser_soup := teaser; teaser_info := length (heap st);
                  required_attributes := _ |}).
  assert (teaser_info self = length (heap st)) as Hself by done.
  cbv zeta.
  rewrite bind_run, (extract_info_from_teaser_top self _ Hself).
  change (teaser_soup self) with teaser.
  destruct (link_field teaser (text_fields teaser ∅)) as [d1|e]; [| done].
  rewrite bind_run, (enrich_top self _ Hself).
  destruct (d1 !! "link") as [link|]; [| done].
  destruct (get_soup_from_url link (world st)) as [[article_soup|e] w'];
    cbn [fst snd].
  - rewrite bind_run, (process_info_top self _ Hself).
    destruct (normalised _) as [d3|e]; [| done].
    rewrite bind_run, (is_teaser_info_valid_top self).
    change (required_attributes self) with required_fields.
    by destruct (bool_decide _).
  - rewrite bind_run, (process_info_top self _ Hself).
    destruct (normalised _) as [d3|e']; [| done].
    rewrite bind_run, (is_teaser_info_valid_top self).
    change (required_attributes self) with required_fields.
    by destruct (bool_decide _).
Qed.

(** *** What the extraction stores *)

Lemma text_field_lookup teaser d field_name key :
  text_field teaser d field_name !! key
  = if decide (key = field_name)
    then match find_class ("teaser-right__" +:+ field_name) teaser with
         | Some tag => Some (get_text tag true " ")
         | None => d !! key
         end
    else d !! key.
Proof.
  unfold text_field. destruct (find_class _ _) as [tag|].
  - rewrite lookup_insert. repeat case_decide; congruence.
  - by case_decide.
Qed.

Lemma text_fields_lookup_other teaser d key :
  key ∉ field_names_text → text_fields teaser d !! key = d !! key.
Proof.
  intros Hkey. unfold text_fields, field_names_text in *.
  cbn [fold_left]. rewrite !text_field_lookup.
  repeat case_decide; set_solver.
Qed.

Lemma text_fields_lookup teaser key :
  key ∈ field_names_text →
  text_fields teaser ∅ !! key
  = (λ tag, get_text tag true " ")
      <$> find_class ("teaser-right__" +:+ key) teaser.
Proof.
  intros Hkey. unfold text_fields, field_names_text in *.
  cbn [fold_left]. rewrite !text_field_lookup.
  repeat (apply elem_of_cons in Hkey as [->|Hkey]);
    [| | | | by apply elem_of_nil in Hkey];
    repeat (case_decide; try done);
    by destruct (find_class _ _).
Qed.

Lemma contains_www_absolute_link href :
  Py.contains "www." (absolute_link href) = true.
Proof.
  unfold absolute_link. by destruct (Py.contains "www." href) eqn:Hwww.
Qed.

Lemma tags_union_lookup article_soup (d : dict) key :
  key ≠ "tags" → (extract_article_tags article_soup ∪ d) !! key = d !! key.
Proof.
  intros Hkey. unfold extract_article_tags.
  apply lookup_union_r. by apply lookup_singleton_ne.
Qed.

(** *** The outcome of a turn, read off the block *)

Lemma process_teaser_outcome (teaser : node) (acc : list loc) (st : state) :
  match find_class "teaser-right__link" teaser with
  | None =>
      process_teaser teaser acc st
      = (Raise (KeyError "link"),
         on_top (heap st) (text_fields teaser ∅) (written st) (world st))
  | Some tag =>
      match get tag "href" with
      | Some (AttrStr href) =>
          let fetched := get_soup_from_url (absolute_link href) (world st) in
          match find_class "teaser-right__date" teaser with
          | None =>
              ∃ st', process_teaser teaser acc st = (Raise (KeyError "date"), st')
                     ∧ world st' = snd fetched
          | Some date_tag =>
              match transform_datetime_str (get_text date_tag true " ") with
              | Raise e =>
                  ∃ st', process_teaser teaser acc st = (Raise e, st')
                         ∧ world st' = snd fetched
              | Ok date' =>
                  let record := turn_record teaser href date' (fst fetched) in
                  let lines :=
                    match fst fetched with
                    | Ok _ => written st
                    | Raise e =>
                        written st
                        ++ [Stdout (enrich_line (absolute_link href) e)]
                    end in
                  process_teaser teaser acc st
                  = if bool_decide (required_fields ⊆ dom record)
                    then (Ok (acc ++ [length (heap st)]),
                          on_top (heap st) record lines (snd fetched))
                    else (Ok acc,
                          on_top (heap st) record (lines ++ invalid_lines)
                            (snd fetched))
              end
          end
      | _ =>
          process_teaser teaser acc st
          = (Raise (ValueError ""),
             on_top (heap st) (text_fields teaser ∅) (written st) (world st))
      end
  end.
Proof.
  rewrite process_teaser_run. cbv zeta. unfold link_field.
  destruct (find_class "teaser-right__link" teaser) as [tag|].
  2:{ by rewrite text_fields_lookup_other by (unfold field_names_text; set_solver). }
  destruct (get tag "href") as [[href|classes]|]; try done.
  rewrite lookup_insert_eq.
  set (link := absolute_link href).
  set (d1 := <["link" := link]> (text_fields teaser ∅)).
  destruct (get_soup_from_url link (world st)) as [fetched w'] eqn:Hfetch.
  cbn [fst snd].
  set (d2 := match fetched with
             | Ok article_soup => extract_article_tags article_soup ∪ d1
             | Raise _ => d1
             end).
  assert (∀ key, key ≠ "tags" → d2 !! key = d1 !! key) as Hd2.
  { intros key Hkey. unfold d2. destruct fetched; [| done].
    by apply tags_union_lookup. }
  assert (d2 !! "link" = Some link) as Hlink.
  { rewrite Hd2 by done. apply lookup_insert_eq. }
  assert (d2 !! "date"
          = (λ tag, get_text tag true " ")
              <$> find_class "teaser-right__date" teaser) as Hdate.
  { rewrite Hd2 by done. unfold d1. rewrite lookup_insert_ne by done.
    apply (text_fields_lookup teaser "date").
    unfold field_names_text. set_solver. }
  unfold normalised. rewrite Hlink, Hdate.
  destruct (find_class "teaser-right__date" teaser) as [date_tag|];
    cbn [fmap option_fmap option_map]; [| by eexists].
  destruct (transform_datetime_str _) as [date'|e];
    [| rewrite result_bind_raise; by eexists].
  rewrite result_bind_ok. unfold mret, result_ret.
  assert (<["date" := date']> (<["id" := get_hash_from_string link]> d2)
          = turn_record teaser href date' fetched) as ->.
  { unfold turn_record, d2, d1, link. destruct fetched; [done |].
    by rewrite (left_id_L ∅ (∪)). }
  by destruct fetched.
Qed.

Lemma turn_record_lookup teaser href date' fetched :
  let record := turn_record teaser href date' fetched in
  record !! "link" = Some (absolute_link href)
  ∧ record !! "id" = Some (get_hash_from_string (absolute_link href))
  ∧ record !! "date" = Some date'
  ∧ record !! "tags"
    = match fetched with
      | Ok article_soup =>
          Some (Py.join "," (Py.sorted (tag_texts article_soup)))
      | Raise _ => None
      end
  ∧ ∀ key, key ∈ ["topline"; "headline"; "shorttext"] →
           record !! key
           = (λ tag, get_text tag true " ")
               <$> find_class ("teaser-right__" +:+ key) teaser.
Proof.
  intros record. subst record. unfold turn_record.
  assert (∀ key, key ≠ "tags" →
            (match fetched with
             | Ok article_soup => extract_article_tags article_soup
             | Raise _ => ∅
             end ∪ <["link" := absolute_link href]> (text_fields teaser ∅))
              !! key
            = (<["link" := absolute_link href]> (text_fields teaser ∅)) !! key)
    as Hrest.
  { intros key Hkey. destruct fetched; [by apply tags_union_lookup |].
    by rewrite (left_id_L ∅ (∪)). }
  split_and!.
  - rewrite !lookup_insert_ne, Hrest by done. apply lookup_insert_eq.
  - rewrite lookup_insert_ne by done. apply lookup_insert_eq.
  - apply lookup_insert_eq.
  - rewrite !lookup_insert_ne by done. destruct fetched as [article_soup|e].
    + unfold extract_article_tags.
      apply lookup_union_Some_l, lookup_singleton_eq.
    + rewrite (left_id_L ∅ (∪)), lookup_insert_ne by done.
      apply text_fields_lookup_other. unfold field_names_text. set_solver.
  - intros key Hkey.
    assert (key ≠ "date" ∧ key ≠ "id" ∧ key ≠ "link" ∧ key ≠ "tags")
      as (? & ? & ? & ?) by set_solver.
    rewrite !lookup_insert_ne, Hrest, lookup_insert_ne by done.
    apply text_fields_lookup. unfold field_names_text. set_solver.
Qed.

Lemma turn_record_required teaser href date' fetched :
  required_fields ⊆ dom (turn_record teaser href date' fetched)
  ↔ is_Some (find_class "teaser-right__headline" teaser)
    ∧ is_Some (find_class "teaser-right__shorttext" teaser).
Proof.
  destruct (turn_record_lookup teaser href date' fetched)
    as (Hlink & _ & Hdate & _ & Htext).
  pose proof (Htext "headline") as Hhead.
  pose proof (Htext "shorttext") as Hshort.
  change ("teaser-right__" +:+ "headline") with "teaser-right__headline"
    in Hhead.
  change ("teaser-right__" +:+ "shorttext") with "teaser-right__shorttext"
    in Hshort.
  rewrite <- !fmap_is_Some with (f := λ tag, get_text tag true " ").
  rewrite <- Hhead, <- Hshort by set_solver.
  rewrite <- !elem_of_dom. unfold required_fields. split.
  - intros Hreq. split; apply Hreq; set_solver.
  - intros [Hh Hs] key Hkey.
    assert (key = "date" ∨ key = "headline" ∨ key = "shorttext" ∨ key = "link")
      as [->|[->|[->| ->]]] by set_solver; try done;
      apply elem_of_dom; eauto.
Qed.

(** *** Extraction *)

Lemma malformed_link_dec (teaser : node) :
  malformed_link teaser ∨ ¬ malformed_link teaser.
Proof.
  unfold malformed_link.
  destruct (find_class "teaser-right__link" teaser) as [tag|];
    [| right; by intros (? & [=] & _)].
  destruct (get tag "href") as [[href|classes]|] eqn:Hget.
  - right. intros (tag' & [= <-] & Hhref). by apply (Hhref href).
  - left. exists tag. split; [done |]. intros href. by rewrite Hget.
  - left. exists tag. split; [done |]. intros href. by rewrite Hget.
Qed.

Lemma link_field_ok_iff teaser d :
  (∃ d', link_field teaser d = Ok d') ↔ ¬ malformed_link teaser.
Proof.
  unfold link_field, malformed_link.
  destruct (find_class "teaser-right__link" teaser) as [tag|].
  - destruct (get tag "href") as [[href|classes]|] eqn:Hget.
    + split; [| by eexists].
      intros _ (tag' & [= <-] & Hhref). by apply (Hhref href).
    + split; [by intros [? [=]] |]. intros Hnot. destruct Hnot.
      exists tag. split; [done |]. intros href. by rewrite Hget.
    + split; [by intros [? [=]] |]. intros Hnot. destruct Hnot.
      exists tag. split; [done |]. intros href. by rewrite Hget.
  - split; [| by eexists]. by intros _ (? & [=] & _).
Qed.

(** X1. On the dictionary of a fresh teaser object the extraction either
    raises [ValueError], exactly when the block has a link element without
    a string [href], or returns the reference of the object's dictionary;
    it raises nothing else. *)
Theorem extract_info_from_teaser_raises_iff_malformed (teaser : node)
    (st : state) :
  let self := teaser_object teaser st in
  (malformed_link teaser
   ∧ ∃ st', extract_info_from_teaser self (allocated st)
            = (Raise (ValueError ""), st'))
  ∨ (¬ malformed_link teaser
     ∧ ∃ st', extract_info_from_teaser self (allocated st)
              = (Ok (teaser_info self), st')).
Proof.
  intros self.
  destruct (malformed_link_dec teaser) as [Hbad|Hgood].
  - left. split; [done |].
    by apply (extract_info_from_teaser_malformed self).
  - right. split; [done |].
    change (allocated st) with (on_top (heap st) ∅ (written st) (world st)).
    rewrite (extract_info_from_teaser_top self (heap st) eq_refl).
    apply (link_field_ok_iff teaser (text_fields teaser ∅)) in Hgood
      as [d' Hd'].
    change (teaser_soup self) with teaser. rewrite Hd'. by eexists.
Qed.

(** X2. After an extraction that returns, the record of a fresh teaser
    object holds, for each of date, topline, headline and shorttext, the
    stripped text of the element of that class when the block has one and no
    entry otherwise; it holds a link exactly when the block has a link
    element, and the stored link contains [www.]: the [href] itself when it
    contains [www.], else the [href] behind the site's origin. *)
Theorem extract_info_from_teaser_record (teaser : node) (st st' : state)
    (l : loc) :
  extract_info_from_teaser (teaser_object teaser st) (allocated st)
  = (Ok l, st') →
  let record := heap st' !!! l in
  (∀ key, key ∈ field_names_text →
          record !! key
          = (λ tag, get_text tag true " ")
              <$> find_class ("teaser-right__" +:+ key) teaser)
  ∧ (record !! "link"
     = tag ← find_class "teaser-right__link" teaser;
       match get tag "href" with
       | Some (AttrStr href) => Some (absolute_link href)
       | _ => None
       end)
  ∧ (∀ link, record !! "link" = Some link → Py.contains "www." link = true)
  ∧ (is_Some (record !! "link")
     ↔ is_Some (find_class "teaser-right__link" teaser)).
Proof.
  change (allocated st) with (on_top (heap st) ∅ (written st) (world st)).
  rewrite (extract_info_from_teaser_top (teaser_object teaser st) (heap st)
             eq_refl).
  change (teaser_soup (teaser_object teaser st)) with teaser.
  unfold link_field.
  destruct (find_class "teaser-right__link" teaser) as [tag|] eqn:Hfind.
  - destruct (get tag "href") as [[href|classes]|] eqn:Hget; try done.
    intros [= <- <-]. cbn zeta. unfold on_top. cbn [heap].
    rewrite list_lookup_total_middle by done. split_and!.
    + intros key Hkey. rewrite lookup_insert_ne
        by (unfold field_names_text in Hkey; set_solver).
      by apply text_fields_lookup.
    + rewrite lookup_insert_eq. cbn. by rewrite Hget.
    + rewrite lookup_insert_eq. intros link [= <-].
      apply contains_www_absolute_link.
    + rewrite lookup_insert_eq. split; eauto.
  - intros [= <- <-]. cbn zeta. unfold on_top. cbn [heap].
    rewrite list_lookup_total_middle by done.
    assert (text_fields teaser ∅ !! "link" = None) as Hnone.
    { rewrite text_fields_lookup_other by (unfold field_names_text; set_solver).
      apply lookup_empty. }
    split_and!.
    + intros key Hkey. by apply text_fields_lookup.
    + by rewrite Hnone.
    + rewrite Hnone. by intros link [=].
    + rewrite Hnone. split; by intros [? [=]].
Qed.

(** *** Turns that raise *)

(** A turn that raises whatever the state stops the loop. *)
Lemma for_each_teaser_raises (teasers : list node) : ∀ acc st,
  (∃ teaser, teaser ∈ teasers
             ∧ ∀ acc st, ∃ e st', process_teaser teaser acc st = (Raise e, st')) →
  ∃ e st', for_each_teaser teasers acc st = (Raise e, st').
Proof.
  induction teasers as [|t rest IH]; intros acc st (bad & Hin & Hbad).
  - by apply elem_of_nil in Hin.
  - cbn [for_each_teaser]. rewrite bind_run.
    destruct (process_teaser t acc st) as [[acc1|e] st1] eqn:Hturn;
      [| by eexists _, _].
    apply elem_of_cons in Hin as [->|Hin].
    + destruct (Hbad acc st) as (e & st' & Hraise). congruence.
    + apply IH. by exists bad.
Qed.

(** X3. A teaser block without a link element makes its turn raise
    [KeyError] for the key link, at the start of the enrichment: no page is
    fetched and no line is written for it; a page holding such a block makes
    [_extract_info_for_all_teaser] raise. *)
Theorem teaser_without_link_raises (soup teaser : node) (acc : list loc)
    (st : state) :
  find_class "teaser-right__link" teaser = None →
  (∃ st', process_teaser teaser acc st = (Raise (KeyError "link"), st')
          ∧ world st' = world st ∧ written st' = written st)
  ∧ (teaser ∈ find_all_class "teaser-right twelve" soup →
     ∃ e st', _extract_info_for_all_teaser soup st = (Raise e, st')).
Proof.
  intros Hnone.
  assert (∀ acc st, ∃ st',
            process_teaser teaser acc st = (Raise (KeyError "link"), st')
            ∧ world st' = world st ∧ written st' = written st) as Hturn.
  { intros acc0 st0. pose proof (process_teaser_outcome teaser acc0 st0) as Hout.
    rewrite Hnone in Hout. rewrite Hout. by eexists. }
  split; [apply Hturn |].
  intros Hin. apply for_each_teaser_raises. exists teaser. split; [done |].
  intros acc0 st0. destruct (Hturn acc0 st0) as (st' & Hrun & _). eauto.
Qed.

(** X4. A teaser block with a well-formed link but without a date element
    makes its turn raise [KeyError] for the key date, in the normalisation:
    the article has been fetched by then; a page holding such a block makes
    [_extract_info_for_all_teaser] raise. *)
Theorem teaser_without_date_raises (soup teaser tag : node) (href : string)
    (acc : list loc) (st : state) :
  find_class "teaser-right__link" teaser = Some tag →
  get tag "href" = Some (AttrStr href) →
  find_class "teaser-right__date" teaser = None →
  (∃ st', process_teaser teaser acc st = (Raise (KeyError "date"), st')
          ∧ world st'
            = snd (get_soup_from_url (absolute_link href) (world st)))
  ∧ (teaser ∈ find_all_class "teaser-right twelve" soup →
     ∃ e st', _extract_info_for_all_teaser soup st = (Raise e, st')).
Proof.
  intros Hlink Hhref Hdate.
  assert (∀ acc st, ∃ st',
            process_teaser teaser acc st = (Raise (KeyError "date"), st')
            ∧ world st'
              = snd (get_soup_from_url (absolute_link href) (world st)))
    as Hturn.
  { intros acc0 st0. pose proof (process_teaser_outcome teaser acc0 st0) as Hout.
    by rewrite Hlink, Hhref, Hdate in Hout. }
  split; [apply Hturn |].
  intros Hin. apply for_each_teaser_raises. exists teaser. split; [done |].
  intros acc0 st0. destruct (Hturn acc0 st0) as (st' & Hrun & _). eauto.
Qed.

(** *** Turns that return *)

Lemma process_teaser_returns_iff (teaser : node) (acc : list loc)
    (st : state) :
  (∃ acc' st', process_teaser teaser acc st = (Ok acc', st'))
  ↔ processable teaser.
Proof.
  pose proof (process_teaser_outcome teaser acc st) as Hout.
  unfold processable. split.
  - intros (acc' & st' & Hrun). rewrite Hrun in Hout.
    destruct (find_class "teaser-right__link" teaser) as [tag|]; [| done].
    destruct (get tag "href") as [[href|classes]|] eqn:Hhref; try done.
    cbv zeta in Hout.
    destruct (find_class "teaser-right__date" teaser) as [date_tag|];
      [| by destruct Hout as (? & [=] & _)].
    destruct (transform_datetime_str _) as [date'|e] eqn:Hdate;
      [| by destruct Hout as (? & [=] & _)].
    by exists tag, href, date_tag, date'.
  - intros (tag & href & date_tag & date' & Hlink & Hhref & Hdate & Hnorm).
    rewrite Hlink, Hhref, Hdate, Hnorm in Hout. cbv zeta in Hout.
    rewrite Hout. destruct (bool_decide _); by eexists _, _.
Qed.

(** X5. Whether a turn of the loop returns is decided by the block alone:
    it returns exactly for a block whose link element has a string [href],
    that has a date element, and whose date text the helper accepts;
    neither the store nor the outcome of the fetch matters. *)
Theorem process_teaser_returns_iff_processable (teaser : node)
    (acc : list loc) (st : state) :
  (∃ acc' st', process_teaser teaser acc st = (Ok acc', st'))
  ↔ processable teaser.
Proof. apply process_teaser_returns_iff. Qed.

Lemma for_each_teaser_returns_iff (teasers : list node) : ∀ acc st,
  (∃ out st', for_each_teaser teasers acc st = (Ok out, st'))
  ↔ Forall processable teasers.
Proof.
  induction teasers as [|t rest IH]; intros acc st.
  - split; [by constructor | by eexists _, _].
  - cbn [for_each_teaser]. rewrite bind_run, Forall_cons. split.
    + intros (out & st' & Hrun).
      destruct (process_teaser t acc st) as [[acc1|e] st1] eqn:Hturn;
        [| done].
      split.
      * apply (process_teaser_returns_iff t acc st). eauto.
      * apply (IH acc1 st1). eauto.
    + intros [Ht Hrest].
      apply (process_teaser_returns_iff t acc st) in Ht
        as (acc1 & st1 & ->).
      by apply IH.
Qed.

(** X6. [_extract_info_for_all_teaser] returns an output sequence exactly
    when every teaser block of the page has a link element with a string
    [href], a date element, and a date text that the helper accepts; one
    block failing that makes the whole call raise. *)
Theorem extract_info_for_all_teaser_returns_iff (soup : node) (st : state) :
  (∃ out st', _extract_info_for_all_teaser soup st = (Ok out, st'))
  ↔ Forall processable (find_all_class "teaser-right twelve" soup).
Proof. apply for_each_teaser_returns_iff. Qed.

Lemma process_teaser_appends_cases (teaser : node) (acc acc' : list loc)
    (st st' : state) :
  process_teaser teaser acc st = (Ok acc', st') →
  (is_Some (find_class "teaser-right__headline" teaser)
   ∧ is_Some (find_class "teaser-right__shorttext" teaser)
   ∧ acc' = acc ++ [length (heap st)])
  ∨ (¬ (is_Some (find_class "teaser-right__headline" teaser)
        ∧ is_Some (find_class "teaser-right__shorttext" teaser))
     ∧ acc' = acc).
Proof.
  intros Hrun. pose proof (process_teaser_outcome teaser acc st) as Hout.
  rewrite Hrun in Hout.
  destruct (find_class "teaser-right__link" teaser) as [tag|]; [| done].
  destruct (get tag "href") as [[href|classes]|]; try done.
  cbv zeta in Hout.
  destruct (find_class "teaser-right__date" teaser) as [date_tag|];
    [| by destruct Hout as (? & [=] & _)].
  destruct (transform_datetime_str _) as [date'|e];
    [| by destruct Hout as (? & [=] & _)].
  case_bool_decide as Hreq; rewrite turn_record_required in Hreq;
    inversion Hout; subst; [left | right]; tauto.
Qed.

(** X7. A turn that returns appends the record of its block exactly when
    the block has a headline element and a short text element, and then it
    appends the reference of the dictionary it created; otherwise the list
    is returned as it was. *)
Theorem process_teaser_appends_iff (teaser : node) (acc acc' : list loc)
    (st st' : state) :
  process_teaser teaser acc st = (Ok acc', st') →
  (is_Some (find_class "teaser-right__headline" teaser)
   ∧ is_Some (find_class "teaser-right__shorttext" teaser)
   ∧ acc' = acc ++ [length (heap st)])
  ∨ (¬ (is_Some (find_class "teaser-right__headline" teaser)
        ∧ is_Some (find_class "teaser-right__shorttext" teaser))
     ∧ acc' = acc).
Proof. apply process_teaser_appends_cases. Qed.

(** *** The records of a page *)

(** The dictionary a returning turn leaves on top of the store. *)
Lemma process_teaser_new_record (teaser : node) (acc acc' : list loc)
    (st st' : state) :
  process_teaser teaser acc st = (Ok acc', st') →
  ∃ href date_tag date',
    find_class "teaser-right__date" teaser = Some date_tag
    ∧ transform_datetime_str (get_text date_tag true " ") = Ok date'
    ∧ let fetched := get_soup_from_url (absolute_link href) (world st) in
      heap st' = heap st ++ [turn_record teaser href date' (fst fetched)]
      ∧ world st' = snd fetched
      ∧ written st'
        = (match fst fetched with
           | Ok _ => written st
           | Raise e =>
               written st ++ [Stdout (enrich_line (absolute_link href) e)]
           end
           ++ if decide (acc' = acc) then invalid_lines else []).
Proof.
  intros Hrun. pose proof (process_teaser_outcome teaser acc st) as Hout.
  rewrite Hrun in Hout.
  destruct (find_class "teaser-right__link" teaser) as [tag|]; [| done].
  destruct (get tag "href") as [[href|classes]|]; try done.
  cbv zeta in Hout.
  destruct (find_class "teaser-right__date" teaser) as [date_tag|];
    [| by destruct Hout as (? & [=] & _)].
  destruct (transform_datetime_str _) as [date'|e] eqn:Hnorm;
    [| by destruct Hout as (? & [=] & _)].
  exists href, date_tag, date'. cbv zeta. split_and!; try done.
  - by destruct (bool_decide _); inversion Hout.
  - by destruct (bool_decide _); inversion Hout.
  - destruct (bool_decide _); inversion Hout; subst; cbn [on_top written].
    + rewrite decide_False, app_nil_r; [done |].
      intros Heq. apply (f_equal length) in Heq.
      rewrite length_app in Heq. cbn in Heq. lia.
    + by rewrite decide_True.
Qed.

(** The block of a turn that returns, and the dictionary the turn leaves
    on top of the store. *)
Lemma process_teaser_block (teaser : node) (acc acc' : list loc)
    (st st' : state) :
  process_teaser teaser acc st = (Ok acc', st') →
  ∃ tag href date_tag date' fetched,
    find_class "teaser-right__link" teaser = Some tag
    ∧ get tag "href" = Some (AttrStr href)
    ∧ find_class "teaser-right__date" teaser = Some date_tag
    ∧ transform_datetime_str (get_text date_tag true " ") = Ok date'
    ∧ heap st' = heap st ++ [turn_record teaser href date' fetched].
Proof.
  intros Hrun. pose proof (process_teaser_outcome teaser acc st) as Hout.
  rewrite Hrun in Hout.
  destruct (find_class "teaser-right__link" teaser) as [tag|]; [| done].
  destruct (get tag "href") as [[href|classes]|] eqn:Hhref; try done.
  cbv zeta in Hout.
  destruct (find_class "teaser-right__date" teaser) as [date_tag|];
    [| by destruct Hout as (? & [=] & _)].
  destruct (transform_datetime_str _) as [date'|e] eqn:Hnorm;
    [| by destruct Hout as (? & [=] & _)].
  exists tag, href, date_tag, date',
    (fst (get_soup_from_url (absolute_link href) (world st))).
  split_and!; try done.
  by destruct (bool_decide _); inversion Hout.
Qed.

(** The loop over the blocks of a page, cut in two. *)
Lemma for_each_teaser_app (pre post : list node) : ∀ acc st,
  for_each_teaser (pre ++ post) acc st
  = match for_each_teaser pre acc st with
    | (Ok out1, st1) => for_each_teaser post out1 st1
    | (Raise e, st1) => (Raise e, st1)
    end.
Proof.
  induction pre as [|t pre IH]; intros acc st; [done |].
  cbn [app for_each_teaser]. rewrite !bind_run.
  destruct (process_teaser t acc st) as [[acc1|e] st1]; [apply IH | done].
Qed.

(** The store and the list only grow, at their ends. *)
Lemma for_each_teaser_grows (teasers : list node) : ∀ acc st out st',
  for_each_teaser teasers acc st = (Ok out, st') →
  heap st `prefix_of` heap st' ∧ acc `prefix_of` out
  ∧ length (heap st') = (length (heap st) + length teasers)%nat.
Proof.
  induction teasers as [|t rest IH]; intros acc st out st'.
  - intros [= <- <-]. split_and!; [done | done | cbn; lia].
  - cbn [for_each_teaser]. intros (acc1 & st1 & Hturn & Hrest)%bind_inv_ok.
    apply IH in Hrest as (Hheap & Hacc & Hlen).
    destruct (process_teaser_block _ _ _ _ _ Hturn)
      as (? & ? & ? & ? & ? & _ & _ & _ & _ & Hst1).
    rewrite Hst1 in Hheap, Hlen. rewrite length_app in Hlen.
    cbn [length] in Hlen |- *. split_and!.
    + etrans; [| exact Hheap]. by apply prefix_app_r.
    + etrans; [| exact Hacc].
      destruct (process_teaser_appends_cases _ _ _ _ _ Hturn)
        as [(_ & _ & ->) | [_ ->]]; [by apply prefix_app_r | done].
    + lia.
Qed.

(** The dictionary created for the block at position [i] of the page sits
    at position [i] behind the store the loop started with. *)
Lemma for_each_teaser_positions (teasers : list node) : ∀ acc st out st',
  for_each_teaser teasers acc st = (Ok out, st') →
  ∀ i teaser, teasers !! i = Some teaser →
    ∃ tag href date_tag date' fetched,
      find_class "teaser-right__link" teaser = Some tag
      ∧ get tag "href" = Some (AttrStr href)
      ∧ find_class "teaser-right__date" teaser = Some date_tag
      ∧ transform_datetime_str (get_text date_tag true " ") = Ok date'
      ∧ heap st' !! (length (heap st) + i)%nat
        = Some (turn_record teaser href date' fetched).
Proof.
  induction teasers as [|t rest IH]; intros acc st out st' Hrun i teaser Hi;
    [done |].
  cbn [for_each_teaser] in Hrun.
  apply bind_inv_ok in Hrun as (acc1 & st1 & Hturn & Hrest).
  destruct (process_teaser_block _ _ _ _ _ Hturn)
    as (tag & href & date_tag & date' & fetched & Hlink & Hhref & Hdate
        & Hnorm & Hst1).
  destruct i as [|i]; cbn in Hi.
  - injection Hi as <-. exists tag, href, date_tag, date', fetched.
    split_and!; try done.
    apply for_each_teaser_grows in Hrest as (Hprefix & _).
    rewrite Nat.add_0_r. eapply prefix_lookup_Some; [| exact Hprefix].
    rewrite Hst1. by apply list_lookup_middle.
  - destruct (IH _ _ _ _ Hrest i teaser Hi)
      as (tag' & href' & date_tag' & date'' & fetched' & ? & ? & ? & ?
          & Hlook).
    exists tag', href', date_tag', date'', fetched'. split_and!; try done.
    rewrite Hst1, length_app in Hlook. cbn [length] in Hlook.
    by replace (length (heap st) + S i)%nat
      with (length (heap st) + 1 + i)%nat by lia.
Qed.

(** The references of the output are those created for the blocks with a
    headline and a short text element. *)
Lemma for_each_teaser_members (teasers : list node) : ∀ acc st out st',
  for_each_teaser teasers acc st = (Ok out, st') →
  ∀ l, l ∈ out
       ↔ l ∈ acc
         ∨ ∃ i teaser,
             l = (length (heap st) + i)%nat
             ∧ teasers !! i = Some teaser
             ∧ is_Some (find_class "teaser-right__headline" teaser)
             ∧ is_Some (find_class "teaser-right__shorttext" teaser).
Proof.
  induction teasers as [|t rest IH]; intros acc st out st'.
  - intros [= <- <-] l. split; [by left |].
    by intros [Hl | (i & teaser & _ & [=] & _)].
  - cbn [for_each_teaser]. intros (acc1 & st1 & Hturn & Hrest)%bind_inv_ok l.
    rewrite (IH _ _ _ _ Hrest l).
    destruct (process_teaser_block _ _ _ _ _ Hturn)
      as (? & ? & ? & ? & ? & _ & _ & _ & _ & Hst1).
    assert (length (heap st1) = S (length (heap st))) as Hlen
      by (rewrite Hst1, length_app; cbn; lia).
    rewrite Hlen.
    destruct (process_teaser_appends_cases _ _ _ _ _ Hturn)
      as [(Hh & Hs & ->) | [Hnot ->]].
    + rewrite elem_of_app, list_elem_of_singleton. split.
      * intros [[Hl | ->] | (i & teaser & -> & Hi & Hh' & Hs')].
        -- by left.
        -- right. exists 0%nat, t. by rewrite Nat.add_0_r.
        -- right. exists (S i), teaser. split; [lia | done].
      * intros [Hl | (i & teaser & -> & Hi & Hh' & Hs')];
          [by left; left |].
        destruct i as [|i]; cbn in Hi.
        -- left. right. lia.
        -- right. exists i, teaser. split; [lia | done].
    + split.
      * intros [Hl | (i & teaser & -> & Hi & Hh' & Hs')]; [by left |].
        right. exists (S i), teaser. split; [lia | done].
      * intros [Hl | (i & teaser & -> & Hi & Hh' & Hs')]; [by left |].
        destruct i as [|i]; cbn in Hi.
        -- injection Hi as <-. by destruct Hnot.
        -- right. exists i, teaser. split; [lia | done].
Qed.

(** X8. Every record of the output of [_extract_info_for_all_teaser] is the
    dictionary created for one block of the page, the block at the position
    of its reference: its link is the link of that block made absolute and
    contains [www.], its identifier is the hash of that very link, and its
    date is what the helper returned for the date text of that block. Later
    teasers do not alter earlier records: wherever the page is cut in two,
    the store and the list left by the blocks before the cut are the
    beginning of the final store and of the final list. *)
Theorem output_records_identified (soup : node) (st : state)
    (out : list loc) (st' : state) :
  _extract_info_for_all_teaser soup st = (Ok out, st') →
  let blocks := find_all_class "teaser-right twelve" soup in
  (∀ l, l ∈ out →
     ∃ teaser tag href date_tag date',
       (length (heap st) ≤ l)%nat
       ∧ blocks !! (l - length (heap st))%nat = Some teaser
       ∧ find_class "teaser-right__link" teaser = Some tag
       ∧ get tag "href" = Some (AttrStr href)
       ∧ find_class "teaser-right__date" teaser = Some date_tag
       ∧ transform_datetime_str (get_text date_tag true " ") = Ok date'
       ∧ (heap st' !!! l) !! "link" = Some (absolute_link href)
       ∧ Py.contains "www." (absolute_link href) = true
       ∧ (heap st' !!! l) !! "id"
         = Some (get_hash_from_string (absolute_link href))
       ∧ (heap st' !!! l) !! "date" = Some date')
  ∧ (∀ pre post, blocks = pre ++ post →
       ∃ out1 st1,
         for_each_teaser pre [] st = (Ok out1, st1)
         ∧ for_each_teaser post out1 st1 = (Ok out, st')
         ∧ heap st1 `prefix_of` heap st'
         ∧ out1 `prefix_of` out).
Proof.
  intros Hrun blocks. unfold _extract_info_for_all_teaser in Hrun.
  fold blocks in Hrun. split.
  - intros l Hl.
    apply (for_each_teaser_members _ _ _ _ _ Hrun) in Hl
      as [Hl | (i & teaser & -> & Hi & _)]; [by apply elem_of_nil in Hl |].
    destruct (for_each_teaser_positions _ _ _ _ _ Hrun i teaser Hi)
      as (tag & href & date_tag & date' & fetched & Hlink & Hhref & Hdate
          & Hnorm & Hlook).
    exists teaser, tag, href, date_tag, date'.
    rewrite (list_lookup_total_correct _ _ _ Hlook).
    destruct (turn_record_lookup teaser href date' fetched)
      as (Hl & Hid & Hd & _).
    replace (length (heap st) + i - length (heap st))%nat with i by lia.
    split_and!; try done; [lia | apply contains_www_absolute_link].
  - intros pre post Hcut.
    rewrite Hcut, for_each_teaser_app in Hrun.
    destruct (for_each_teaser pre [] st) as [[out1|e] st1] eqn:Hpre;
      [| done].
    exists out1, st1.
    destruct (for_each_teaser_grows _ _ _ _ _ Hrun) as (Hheap & Hout & _).
    done.
Qed.

(** X9. A turn that returns has fetched one page, the one at the link it
    stored: the network is left as that fetch left it, and the record has
    the sorted, comma-joined tags of the fetched article when the fetch
    returned, no [tags] key and one more line written when it raised. *)
Theorem record_tags_follow_the_fetch (teaser : node) (acc acc' : list loc)
    (st st' : state) :
  process_teaser teaser acc st = (Ok acc', st') →
  ∃ link,
    let record := heap st' !!! length (heap st) in
    let fetched := get_soup_from_url link (world st) in
    record !! "link" = Some link
    ∧ world st' = snd fetched
    ∧ match fst fetched with
      | Ok article_soup =>
          record !! "tags"
          = Some (Py.join "," (Py.sorted (tag_texts article_soup)))
          ∧ ∃ lines, written st' = written st ++ lines
                     ∧ Forall (λ line, ∃ text, line = Stderr text) lines
      | Raise e =>
          record !! "tags" = None
          ∧ ∃ lines, written st'
                     = written st ++ Stdout (enrich_line link e) :: lines
      end.
Proof.
  intros Hturn.
  destruct (process_teaser_new_record _ _ _ _ _ Hturn)
    as (href & date_tag & date' & _ & _ & Hheap & Hworld & Hwritten).
  exists (absolute_link href). cbv zeta.
  rewrite Hheap, list_lookup_total_middle by done.
  destruct (turn_record_lookup teaser href date'
              (fst (get_soup_from_url (absolute_link href) (world st))))
    as (Hlink & _ & _ & Htags & _).
  split_and!; try done.
  destruct (fst (get_soup_from_url (absolute_link href) (world st)))
    as [article_soup|e].
  - split; [done |]. eexists. split; [exact Hwritten |].
    case_decide; [| constructor]. unfold invalid_lines.
    repeat constructor; by eexists.
  - split; [done |]. eexists. rewrite Hwritten, <- app_assoc. reflexivity.
Qed.

Lemma for_each_teaser_order (teasers : list node) : ∀ acc st out st',
  for_each_teaser teasers acc st = (Ok out, st') →
  length (heap st') = (length (heap st) + length teasers)%nat
  ∧ ∃ new, out = acc ++ new
           ∧ new `sublist_of` seq (length (heap st)) (length teasers).
Proof.
  induction teasers as [|t rest IH]; intros acc st out st'.
  - intros [= <- <-]. split; [cbn; lia |].
    exists []. by rewrite app_nil_r.
  - cbn [for_each_teaser].
    intros (acc1 & st1 & Hturn & Hrest)%bind_inv_ok.
    eapply (process_teaser_ok _ _ _ _ _
              (teaser_fields ∪ {[ "tags"; "id"; "date" ]}))
      in Hturn as (Hlen & _ & _ & Hacc1);
      [| set_solver | set_solver].
    apply IH in Hrest as (Hlen' & new & -> & Hsub).
    rewrite Hlen in Hlen', Hsub. split; [cbn [length]; lia |].
    cbn [length seq].
    destruct Hacc1 as [[-> _] | [-> _]].
    + exists new. split; [done |]. by apply sublist_cons.
    + exists (length (heap st) :: new). split.
      * by rewrite <- app_assoc.
      * by apply sublist_skip.
Qed.

(** X10. A page call that returns has created one dictionary per teaser
    block, in page order: the dictionary at position [i] behind the store
    the call started with is the one of the block at position [i] of the
    page, with the link and the texts of that block. The output holds
    exactly the references created for the blocks with a headline and a
    short text element, and it is a subsequence of the references in the
    order of their creation: it keeps page order, has no duplicates and is
    never longer than the list of blocks. *)
Theorem output_in_page_order (soup : node) (st : state) (out : list loc)
    (st' : state) :
  _extract_info_for_all_teaser soup st = (Ok out, st') →
  let blocks := find_all_class "teaser-right twelve" soup in
  let created i := (length (heap st) + i)%nat in
  length (heap st') = (length (heap st) + length blocks)%nat
  ∧ (∀ i teaser, blocks !! i = Some teaser →
       ∃ tag href,
         find_class "teaser-right__link" teaser = Some tag
         ∧ get tag "href" = Some (AttrStr href)
         ∧ (heap st' !!! created i) !! "link" = Some (absolute_link href)
         ∧ ∀ key, key ∈ ["topline"; "headline"; "shorttext"] →
                  (heap st' !!! created i) !! key
                  = (λ tag, get_text tag true " ")
                      <$> find_class ("teaser-right__" +:+ key) teaser)
  ∧ (∀ l, l ∈ out
          ↔ ∃ i teaser,
              l = created i
              ∧ blocks !! i = Some teaser
              ∧ is_Some (find_class "teaser-right__headline" teaser)
              ∧ is_Some (find_class "teaser-right__shorttext" teaser))
  ∧ out `sublist_of` seq (length (heap st)) (length blocks)
  ∧ (length out ≤ length blocks)%nat
  ∧ NoDup out.
Proof.
  intros Hrun blocks created. unfold _extract_info_for_all_teaser in Hrun.
  fold blocks in Hrun.
  destruct (for_each_teaser_order _ _ _ _ _ Hrun) as (Hlen & new & -> & Hsub).
  rewrite app_nil_l in *. split_and!; try done.
  - intros i teaser Hi.
    destruct (for_each_teaser_positions _ _ _ _ _ Hrun i teaser Hi)
      as (tag & href & date_tag & date' & fetched & Hlink & Hhref & _ & _
          & Hlook).
    exists tag, href. unfold created.
    rewrite (list_lookup_total_correct _ _ _ Hlook).
    destruct (turn_record_lookup teaser href date' fetched)
      as (Hl & _ & _ & _ & Htext).
    done.
  - intros l. rewrite (for_each_teaser_members _ _ _ _ _ Hrun l).
    split; [| by right].
    by intros [Hl%elem_of_nil | Hl].
  - apply sublist_length in Hsub. by rewrite length_seq in Hsub.
  - eapply sublist_NoDup; [apply NoDup_seq | exact Hsub].
Qed.

(** *** A fetch that fails, to the end of the page *)

(** C4. When the fetch of the article of a teaser fails with any
    exception, the enrichment catches it, writes one line that names the
    error (the link for a redirect loop, else the class and the message of
    the exception), and returns the reference it was given with the
    dictionary as the extraction left it, without tags and without
    raising. The turn of the loop goes on with the normalisation and the
    validation: for a block with a date element whose text the helper
    accepts it returns, with the record of the block without tags, appended
    exactly when the block has a headline and a short text element; and it
    returns exactly for such a block, as it does after a fetch that
    returned. The loop goes on with the teasers after it, from the store,
    the lines and the network that the turn has left, and the page call
    returns exactly when each of them has a link with a string [href] and a
    date that the helper accepts. *)
Theorem enrich_fetch_failure_continues (teaser : node) (rest : list node)
    (acc : list loc) (st : state) (tag : node) (href : string) (e : exn)
    (w' : World) :
  let self := teaser_object teaser st in
  let l := length (heap st) in
  let link := absolute_link href in
  let line :=
    match e with
    | TooManyRedirects _ => "Article not found for link: " +:+ link +:+ "."
    | gaierror msg => "gaierror: " +:+ msg
    | ConnectionError msg => "ConnectionError: " +:+ msg
    | _ => "Error: " +:+ exn_str e
    end in
  let extracted := <["link" := link]> (text_fields teaser ∅) in
  let st_extracted := on_top (heap st) extracted (written st) (world st) in
  find_class "teaser-right__link" teaser = Some tag →
  get tag "href" = Some (AttrStr href) →
  get_soup_from_url link (world st) = (Raise e, w') →
  extract_info_from_teaser self (allocated st) = (Ok l, st_extracted)
  ∧ extracted !! "tags" = None
  ∧ enrich_teaser_info_with_article_tags self l st_extracted
    = (Ok l, on_top (heap st) extracted (written st ++ [Stdout line]) w')
  ∧ (∀ date_tag date',
       find_class "teaser-right__date" teaser = Some date_tag →
       transform_datetime_str (get_text date_tag true " ") = Ok date' →
       let record := turn_record teaser href date' (Raise e) in
       let valid := bool_decide (required_fields ⊆ dom record) in
       let acc' := if valid then acc ++ [l] else acc in
       let st' :=
         on_top (heap st) record
           (written st ++ [Stdout line]
            ++ if valid then [] else invalid_lines) w' in
       record !! "tags" = None
       ∧ (valid = true
          ↔ is_Some (find_class "teaser-right__headline" teaser)
            ∧ is_Some (find_class "teaser-right__shorttext" teaser))
       ∧ process_teaser teaser acc st = (Ok acc', st')
       ∧ for_each_teaser (teaser :: rest) acc st
         = for_each_teaser rest acc' st'
       ∧ ((∃ out st'',
             for_each_teaser (teaser :: rest) acc st = (Ok out, st''))
          ↔ Forall processable rest))
  ∧ ((∃ acc' st', process_teaser teaser acc st = (Ok acc', st'))
     ↔ ∃ date_tag date',
         find_class "teaser-right__date" teaser = Some date_tag
         ∧ transform_datetime_str (get_text date_tag true " ") = Ok date').
Proof.
  intros self l link line extracted st_extracted Hlink Hhref Hfetch.
  assert (line = enrich_line link e) as Hline by (by destruct e).
  assert (extracted !! "tags" = None) as Hnotags.
  { unfold extracted. rewrite lookup_insert_ne by done.
    rewrite text_fields_lookup_other by (unfold field_names_text; set_solver).
    apply lookup_empty. }
  split_and!.
  - change (allocated st) with (on_top (heap st) ∅ (written st) (world st)).
    rewrite (extract_info_from_teaser_top self (heap st) eq_refl).
    change (teaser_soup self) with teaser. unfold link_field.
    by rewrite Hlink, Hhref.
  - exact Hnotags.
  - unfold st_extracted.
    rewrite (enrich_top self (heap st) eq_refl). unfold extracted at 1.
    rewrite lookup_insert_eq. fold link. by rewrite Hfetch, Hline.
  - intros date_tag date' Hdate Hnorm record valid acc' st'.
    pose proof (process_teaser_outcome teaser acc st) as Hout.
    rewrite Hlink, Hhref, Hdate, Hnorm in Hout. cbv zeta in Hout.
    fold link in Hout. rewrite Hfetch in Hout. cbn [fst snd] in Hout.
    fold record in Hout. fold valid in Hout. rewrite <- Hline in Hout.
    assert (process_teaser teaser acc st = (Ok acc', st')) as Hturn.
    { rewrite Hout. unfold acc', st'.
      destruct valid; [by rewrite app_nil_r | by rewrite <- app_assoc]. }
    split_and!.
    + by destruct (turn_record_lookup teaser href date' (Raise e))
        as (_ & _ & _ & Htags & _).
    + unfold valid. rewrite bool_decide_eq_true.
      apply turn_record_required.
    + exact Hturn.
    + cbn [for_each_teaser]. by rewrite bind_run, Hturn.
    + cbn [for_each_teaser]. rewrite bind_run, Hturn.
      apply for_each_teaser_returns_iff.
  - rewrite process_teaser_returns_iff. unfold processable. split.
    + intros (tag' & href' & date_tag & date' & _ & _ & Hdate & Hnorm).
      by exists date_tag, date'.
    + intros (date_tag & date' & Hdate & Hnorm).
      by exists tag, href, date_tag, date'.
Qed.

End TeaserRuns.

(** *** The further properties on the sample pages *)

(** The complete block: its link is stored behind the site's origin. *)
Lemma extract_info_from_teaser_record_witness :
  Py.contains "www." "https://www.tagesschau.de/b.html" = true.
Proof.
  destruct (extract_info_from_teaser_record
              (collaborators := Samples.sample_collaborators)
              Samples.good_block Samples.empty_state
              (snd (Scraper.extract_info_from_teaser
                      (Scraper.teaser_object Samples.good_block
                         Samples.empty_state)
                      (Scraper.allocated Samples.empty_state)))
              0%nat)
    as (_ & _ & Hwww & _); [vm_compute; reflexivity |].
  apply Hwww. vm_compute. reflexivity.
Defined.

(** The block without a link element, before a complete block. *)
Lemma teaser_without_link_raises_witness :
  ∃ e st',
    Scraper._extract_info_for_all_teaser
      (Samples.archive_page [Samples.no_link_block; Samples.good_block])
      Samples.empty_state
    = (Raise e, st').
Proof.
  apply (teaser_without_link_raises
           (collaborators := Samples.sample_collaborators)
           (Samples.archive_page [Samples.no_link_block; Samples.good_block])
           Samples.no_link_block [] Samples.empty_state).
  - vm_compute. reflexivity.
  - vm_compute. apply list_elem_of_here.
Defined.

(** The block without a date element, after a complete block. *)
Lemma teaser_without_date_raises_witness :
  ∃ e st',
    Scraper._extract_info_for_all_teaser
      (Samples.archive_page [Samples.good_block; Samples.no_date_block])
      Samples.empty_state
    = (Raise e, st').
Proof.
  apply (teaser_without_date_raises
           (collaborators := Samples.sample_collaborators)
           (Samples.archive_page [Samples.good_block; Samples.no_date_block])
           Samples.no_date_block
           (Soup.Elem "a" [("class", Soup.AttrList ["teaser-right__link"]);
                           ("href", Soup.AttrStr "/d.html")]
              [Soup.Text "mehr"])
           "/d.html" [] Samples.empty_state).
  - vm_compute. reflexivity.
  - vm_compute. reflexivity.
  - vm_compute. reflexivity.
  - vm_compute. apply list_elem_of_further, list_elem_of_here.
Defined.

(** The complete block is appended, the block without short text is not. *)
Lemma process_teaser_appends_iff_witness :
  (is_Some (Soup.find_class "teaser-right__headline" Samples.good_block)
   ∧ is_Some (Soup.find_class "teaser-right__shorttext" Samples.good_block)
   ∧ [0%nat] = [] ++ [length (Scraper.heap Samples.empty_state)])
  ∨ (¬ (is_Some (Soup.find_class "teaser-right__headline" Samples.good_block)
        ∧ is_Some
            (Soup.find_class "teaser-right__shorttext" Samples.good_block))
     ∧ [0%nat] = []).
Proof.
  apply (process_teaser_appends_iff
           (collaborators := Samples.sample_collaborators)
           Samples.good_block [] [0%nat] Samples.empty_state
           (snd (Scraper.process_teaser Samples.good_block []
                   Samples.empty_state))).
  vm_compute. reflexivity.
Defined.

(** The page of the complete block and the block whose article is
    offline: the second record of the output, and the page cut between the
    two blocks. *)
Lemma output_records_identified_witness :
  Samples.records
    (Scraper._extract_info_for_all_teaser
       (Samples.archive_page [Samples.good_block; Samples.offline_block])
       Samples.empty_state)
  = Ok [Samples.good_record; Samples.offline_record]
  ∧ Samples.records
      (Scraper.for_each_teaser [Samples.good_block] [] Samples.empty_state)
    = Ok [Samples.good_record]
  ∧ (∃ teaser tag href date_tag date',
       (length (Scraper.heap Samples.empty_state) ≤ 1)%nat
       ∧ Soup.find_all_class "teaser-right twelve"
           (Samples.archive_page [Samples.good_block; Samples.offline_block])
         !! (1 - length (Scraper.heap Samples.empty_state))%nat
         = Some teaser
       ∧ Soup.find_class "teaser-right__link" teaser = Some tag
       ∧ Soup.get tag "href" = Some (Soup.AttrStr href)
       ∧ Soup.find_class "teaser-right__date" teaser = Some date_tag
       ∧ @Scraper.transform_datetime_str Samples.sample_collaborators
           (Soup.get_text date_tag true " ")
         = Ok date'
       ∧ (Scraper.heap
            (snd (Scraper._extract_info_for_all_teaser
                    (Samples.archive_page
                       [Samples.good_block; Samples.offline_block])
                    Samples.empty_state)) !!! 1%nat) !! "link"
         = Some (Scraper.absolute_link href)
       ∧ Py.contains "www." (Scraper.absolute_link href) = true
       ∧ (Scraper.heap
            (snd (Scraper._extract_info_for_all_teaser
                    (Samples.archive_page
                       [Samples.good_block; Samples.offline_block])
                    Samples.empty_state)) !!! 1%nat) !! "id"
         = Some (@Scraper.get_hash_from_string Samples.sample_collaborators
                   (Scraper.absolute_link href))
       ∧ (Scraper.heap
            (snd (Scraper._extract_info_for_all_teaser
                    (Samples.archive_page
                       [Samples.good_block; Samples.offline_block])
                    Samples.empty_state)) !!! 1%nat) !! "date"
         = Some date')
  ∧ Scraper.heap
      (snd (Scraper.for_each_teaser [Samples.good_block] []
              Samples.empty_state))
      `prefix_of`
      Scraper.heap
        (snd (Scraper._extract_info_for_all_teaser
                (Samples.archive_page
                   [Samples.good_block; Samples.offline_block])
                Samples.empty_state)).
Proof.
  destruct (output_records_identified
              (collaborators := Samples.sample_collaborators)
              (Samples.archive_page
                 [Samples.good_block; Samples.offline_block])
              Samples.empty_state [0%nat; 1%nat]
              (snd (Scraper._extract_info_for_all_teaser
                      (Samples.archive_page
                         [Samples.good_block; Samples.offline_block])
                      Samples.empty_state)))
    as [Hrecord Hcut]; [vm_compute; reflexivity |].
  split; [vm_compute; reflexivity |].
  split; [vm_compute; reflexivity |].
  split.
  - apply (Hrecord 1%nat). apply list_elem_of_further, list_elem_of_here.
  - destruct (Hcut [Samples.good_block] [Samples.offline_block])
      as (out1 & st1 & Hpre & _ & Hheap & _); [vm_compute; reflexivity |].
    apply (f_equal snd) in Hpre. cbn [snd] in Hpre. by rewrite Hpre.
Defined.

(** The turn of the block whose article is offline. *)
Lemma record_tags_follow_the_fetch_witness :
  ∃ link,
    (Scraper.heap
       (snd (Scraper.process_teaser Samples.offline_block []
               Samples.empty_state)) !!! 0%nat) !! "link" = Some link.
Proof.
  destruct (record_tags_follow_the_fetch
              (collaborators := Samples.sample_collaborators)
              Samples.offline_block [] [0%nat] Samples.empty_state
              (snd (Scraper.process_teaser Samples.offline_block []
                      Samples.empty_state)))
    as (link & Hlink & _); [vm_compute; reflexivity |].
  exists link. exact Hlink.
Defined.

(** Three blocks, the middle one without short text: its dictionary is
    created, between the two others, and its reference is not output. *)
Lemma output_in_page_order_witness :
  Samples.records
    (Scraper._extract_info_for_all_teaser
       (Samples.archive_page
          [Samples.good_block; Samples.teaser_block (Some "/c.html") None;
           Samples.offline_block])
       Samples.empty_state)
  = Ok [Samples.good_record; Samples.offline_record]
  ∧ (∃ tag href,
       Soup.find_class "teaser-right__link" Samples.offline_block = Some tag
       ∧ Soup.get tag "href" = Some (Soup.AttrStr href)
       ∧ (Scraper.heap
            (snd (Scraper._extract_info_for_all_teaser
                    (Samples.archive_page
                       [Samples.good_block;
                        Samples.teaser_block (Some "/c.html") None;
                        Samples.offline_block])
                    Samples.empty_state))
          !!! (length (Scraper.heap Samples.empty_state) + 2)%nat) !! "link"
         = Some (Scraper.absolute_link href))
  ∧ ¬ (∃ i teaser,
         1%nat = (length (Scraper.heap Samples.empty_state) + i)%nat
         ∧ Soup.find_all_class "teaser-right twelve"
             (Samples.archive_page
                [Samples.good_block;
                 Samples.teaser_block (Some "/c.html") None;
                 Samples.offline_block]) !! i
           = Some teaser
         ∧ is_Some (Soup.find_class "teaser-right__headline" teaser)
         ∧ is_Some (Soup.find_class "teaser-right__shorttext" teaser))
  ∧ [0%nat; 2%nat] `sublist_of` seq 0 3
  ∧ NoDup [0%nat; 2%nat].
Proof.
  destruct (output_in_page_order
              (collaborators := Samples.sample_collaborators)
              (Samples.archive_page
                 [Samples.good_block;
                  Samples.teaser_block (Some "/c.html") None;
                  Samples.offline_block])
              Samples.empty_state [0%nat; 2%nat]
              (snd (Scraper._extract_info_for_all_teaser
                      (Samples.archive_page
                         [Samples.good_block;
                          Samples.teaser_block (Some "/c.html") None;
                          Samples.offline_block])
                      Samples.empty_state)))
    as (_ & Hpos & Hmem & Hsub & _ & Hnodup); [vm_compute; reflexivity |].
  split; [vm_compute; reflexivity |]. split_and!.
  - destruct (Hpos 2%nat Samples.offline_block)
      as (tag & href & Hlink & Hhref & Hstored & _);
      [vm_compute; reflexivity |].
    exists tag, href. split; [exact Hlink |]. split; [exact Hhref |].
    exact Hstored.
  - intros Hin%Hmem.
    apply elem_of_cons in Hin as [[=] | Hin].
    apply elem_of_cons in Hin as [[=] | Hin].
    by apply elem_of_nil in Hin.
  - exact Hsub.
  - exact Hnodup.
Defined.

(** The block whose article is offline, before a complete block: the line
    written, the record without tags, and the record of the block after
    it. *)
Lemma enrich_fetch_failure_continues_witness :
  Scraper.process_teaser Samples.offline_block [] Samples.empty_state
  = (Ok [0%nat],
     Scraper.State (collaborators := Samples.sample_collaborators)
       [Samples.offline_record]
       [Scraper.Stdout "ConnectionError: unreachable"] 1%nat)
  ∧ Scraper.for_each_teaser [Samples.offline_block; Samples.good_block] []
      Samples.empty_state
    = Scraper.for_each_teaser [Samples.good_block] [0%nat]
        (Scraper.State (collaborators := Samples.sample_collaborators)
           [Samples.offline_record]
           [Scraper.Stdout "ConnectionError: unreachable"] 1%nat)
  ∧ Samples.records
      (Scraper.for_each_teaser [Samples.offline_block; Samples.good_block]
         [] Samples.empty_state)
    = Ok [Samples.offline_record; Samples.good_record]
  ∧ Samples.offline_record !! "tags" = None.
Proof.
  destruct (enrich_fetch_failure_continues
              (collaborators := Samples.sample_collaborators)
              Samples.offline_block [Samples.good_block] []
              Samples.empty_state
              (Soup.Elem "a"
                 [("class", Soup.AttrList ["teaser-right__link"]);
                  ("href", Soup.AttrStr "https://www.offline.de/c")]
                 [Soup.Text "mehr"])
              "https://www.offline.de/c"
              (ConnectionError "unreachable") 1%nat)
    as (_ & _ & _ & Hturn & _); [vm_compute; reflexivity.. |].
  destruct (Hturn (Samples.classed "span" "teaser-right__date"
                     [Soup.Text "05.03.2023"]) "05.03.2023")
    as (_ & _ & Hrun & Hloop & Hpage); [vm_compute; reflexivity.. |].
  split_and!.
  - rewrite Hrun. vm_compute. reflexivity.
  - rewrite Hloop. vm_compute. reflexivity.
  - vm_compute. reflexivity.
  - vm_compute. reflexivity.
Defined.

(** ** The document tree *)

Section TreeFacts.

Import Soup Markdown.

(** Induction on a node with the children as a list. *)
Lemma node_children_ind (P : node → Prop) :
  (∀ s, P (Text s)) →
  (∀ name attrs children,
     Forall P children → P (Elem name attrs children)) →
  ∀ n, P n.
Proof.
  intros Htext Helem.
  fix IH 1. intros [s | name attrs children]; [apply Htext |].
  apply Helem. induction children as [|c cs IHcs]; constructor.
  - apply IH.
  - apply IHcs.
Qed.

Lemma descendants_Elem name attrs children :
  descendants (Elem name attrs children)
  = children ≫= λ c, c :: descendants c.
Proof.
  cbn [descendants]. induction children as [|c cs IH]; [done |].
  cbn [mbind list_bind]. by rewrite IH.
Qed.

Lemma remove_name_Elem x name attrs children :
  remove_name x (Elem name attrs children)
  = Elem name attrs
      (remove_name x <$> filter (λ c, has_name x c = false) children).
Proof.
  cbn [remove_name]. f_equal.
  induction children as [|c cs IH]; [done |].
  rewrite filter_cons. destruct (has_name x c) eqn:Hc.
  - by rewrite decide_False by done.
  - rewrite decide_True by done. by rewrite fmap_cons, IH.
Qed.

Lemma has_name_remove_name x y n :
  has_name y (remove_name x n) = has_name y n.
Proof. by destruct n. Qed.

(** What remains after a removal was there before, under another name
    than the removed one. *)
Lemma descendants_remove_name x : ∀ soup n,
  n ∈ descendants (remove_name x soup) →
  ∃ n0, n0 ∈ descendants soup ∧ n = remove_name x n0 ∧ has_name x n0 = false.
Proof.
  induction soup as [s | name attrs children IH] using node_children_ind;
    intros n.
  - cbn. by intros ?%elem_of_nil.
  - rewrite remove_name_Elem, !descendants_Elem.
    intros (c' & Hn & Hc')%list_elem_of_bind.
    apply list_elem_of_fmap in Hc' as (c & -> & [Hc Hin]%list_elem_of_filter).
    rewrite Forall_forall in IH.
    apply elem_of_cons in Hn as [-> | Hn].
    + exists c. split_and!; [| done | done].
      apply list_elem_of_bind. exists c. split; [apply list_elem_of_here | done].
    + destruct (IH c Hin n Hn) as (n0 & Hn0 & -> & Hname).
      exists n0. split_and!; [| done | done].
      apply list_elem_of_bind. exists c.
      split; [by apply list_elem_of_further | done].
Qed.

Lemma remove_name_absent x : ∀ soup,
  (∀ n, n ∈ descendants soup → has_name x n = false) →
  remove_name x soup = soup.
Proof.
  induction soup as [s | name attrs children IH] using node_children_ind;
    [done |].
  intros Habsent. rewrite remove_name_Elem. f_equal.
  rewrite descendants_Elem in Habsent. rewrite Forall_forall in IH.
  assert (∀ c, c ∈ children → has_name x c = false ∧ remove_name x c = c)
    as Hc.
  { intros c Hin. split.
    - apply Habsent, list_elem_of_bind. exists c.
      split; [apply list_elem_of_here | done].
    - apply IH; [done |]. intros n Hn.
      apply Habsent, list_elem_of_bind. exists c.
      split; [by apply list_elem_of_further | done]. }
  clear IH Habsent. induction children as [|c cs IHcs]; [done |].
  destruct (Hc c) as [Hname Hrm]; [apply list_elem_of_here |].
  rewrite filter_cons, decide_True, fmap_cons, Hrm by done. f_equal.
  apply IHcs. intros c' Hin. apply Hc. by apply list_elem_of_further.
Qed.

Lemma remove_elements_cons tag tags soup :
  remove_elements (tag :: tags) soup
  = remove_elements tags (remove_name tag soup).
Proof. reflexivity. Qed.

Lemma remove_elements_keeps_absent y tags : ∀ soup,
  (∀ n, n ∈ descendants soup → has_name y n = false) →
  ∀ n, n ∈ descendants (remove_elements tags soup) → has_name y n = false.
Proof.
  induction tags as [|tag tags IH]; intros soup Habsent; [done |].
  rewrite remove_elements_cons. apply IH.
  intros n (n0 & Hn0 & -> & _)%descendants_remove_name.
  rewrite has_name_remove_name. by apply Habsent.
Qed.

Lemma descendants_remove_elements (tags_to_remove : list string)
    (tag : string) :
  tag ∈ tags_to_remove →
  ∀ soup n, n ∈ descendants (remove_elements tags_to_remove soup) →
            has_name tag n = false.
Proof.
  intros Htag.
  induction tags_to_remove as [|t tags IH]; intros soup;
    [by apply elem_of_nil in Htag |].
  rewrite remove_elements_cons.
  destruct (decide (tag = t)) as [<-|Hne].
  - apply remove_elements_keeps_absent.
    intros n (n0 & _ & -> & Hname)%descendants_remove_name.
    by rewrite has_name_remove_name.
  - apply IH. set_solver.
Qed.

(** X11. After [remove_elements] no element named in [tags_to_remove] is
    left anywhere in the document, so none is visited by the converter. *)
Theorem remove_elements_removes_all (tags_to_remove : list string)
    (soup : node) (tag : string) (n : node) :
  tag ∈ tags_to_remove →
  (n ∈ descendants (remove_elements tags_to_remove soup) →
   has_name tag n = false)
  ∧ (n ∈ find_all (remove_elements tags_to_remove soup) →
     name_of n ≠ Some tag).
Proof.
  intros Htag.
  pose proof (descendants_remove_elements tags_to_remove tag Htag soup)
    as Hall.
  split; [apply Hall |].
  intros [_ Hin]%list_elem_of_filter. specialize (Hall n Hin).
  destruct n as [s | name attrs children]; [done |].
  cbn in *. intros [= ->]. by rewrite String.eqb_refl in Hall.
Qed.

(** X12. [remove_elements] leaves a document without such elements as it
    is, so removing twice is removing once. *)
Theorem remove_elements_idempotent (tags_to_remove : list string)
    (soup : node) :
  ((∀ tag n, tag ∈ tags_to_remove → n ∈ descendants soup →
             has_name tag n = false) →
   remove_elements tags_to_remove soup = soup)
  ∧ remove_elements tags_to_remove (remove_elements tags_to_remove soup)
    = remove_elements tags_to_remove soup.
Proof.
  assert (∀ tags soup,
            (∀ tag n, tag ∈ tags → n ∈ descendants soup →
                      has_name tag n = false) →
            remove_elements tags soup = soup) as Hid.
  { clear. induction tags as [|t tags IH]; intros soup Habsent; [done |].
    rewrite remove_elements_cons, remove_name_absent.
    - apply IH. intros tag n Htag. apply Habsent. by apply list_elem_of_further.
    - intros n. apply Habsent, list_elem_of_here. }
  split; [apply Hid |].
  apply Hid. intros tag n Htag Hn.
  by apply (descendants_remove_elements tags_to_remove tag Htag soup).
Qed.

End TreeFacts.

(** ** When the converter raises *)

Section ConverterFacts.

Import Soup Markdown.

Lemma convert_to_markdown_outcome (element : node) :
  if one_span_heading element
  then convert_to_markdown element = Raise IndexError
  else ∃ markdown, convert_to_markdown element = Ok markdown.
Proof.
  unfold one_span_heading.
  destruct element as [s | name attrs children]; [by eexists |].
  destruct (class_contains "textabsatz" (Elem name attrs children)) eqn:Hcls.
  - cbn [negb andb]. unfold convert_to_markdown. rewrite Hcls.
    destruct (find_name "strong" _); by eexists.
  - cbn [negb andb has_name].
    destruct (String.eqb_spec name "h1") as [-> | Hname].
    + pose proof (convert_h1_spans attrs children Hcls) as Hspans.
      cbv zeta in Hspans.
      destruct (find_all_name "span" (Elem "h1" attrs children))
        as [|span0 [|span1 spans]];
        cbn [length Nat.eqb andb]; [by eexists | done | by eexists].
    + cbn [andb]. unfold convert_to_markdown. rewrite Hcls.
      apply String.eqb_neq in Hname. rewrite Hname.
      destruct (String.eqb name "h2"); by eexists.
Qed.

Lemma convert_each_outcome (elements : list node) : ∀ markdown_content,
  if forallb (λ e, negb (one_span_heading e)) elements
  then ∃ markdown, convert_each elements markdown_content = Ok markdown
  else convert_each elements markdown_content = Raise IndexError.
Proof.
  induction elements as [|e rest IH]; intros acc; [by eexists |].
  cbn [forallb convert_each].
  pose proof (convert_to_markdown_outcome e) as He.
  destruct (one_span_heading e); cbn [negb andb].
  - by rewrite He.
  - destruct He as [md ->]. rewrite result_bind_ok. apply IH.
Qed.

(** X13. The converter raises on exactly one shape of element, an [h1]
    outside the body paragraphs with exactly one span below it, and then
    with [IndexError]; [get_markdown_content] returns a document exactly
    when no visited element has that shape, and raises [IndexError]
    otherwise. *)
Theorem get_markdown_content_raises_iff (tags_to_remove : list string)
    (soup : node) :
  (∀ element,
     (one_span_heading element = true
      ∧ convert_to_markdown element = Raise IndexError)
     ∨ (one_span_heading element = false
        ∧ ∃ markdown, convert_to_markdown element = Ok markdown))
  ∧ let visited := find_all (remove_elements tags_to_remove soup) in
    ((∃ markdown, get_markdown_content tags_to_remove soup = Ok markdown)
     ↔ Forall (λ e, one_span_heading e = false) visited)
    ∧ (get_markdown_content tags_to_remove soup = Raise IndexError
       ↔ Exists (λ e, one_span_heading e = true) visited).
Proof.
  split.
  - intros element. pose proof (convert_to_markdown_outcome element) as H.
    destruct (one_span_heading element); [by left | by right].
  - cbv zeta. unfold get_markdown_content.
    set (visited := find_all (remove_elements tags_to_remove soup)).
    pose proof (convert_each_outcome visited "") as Hout.
    destruct (forallb _ visited) eqn:Hall.
    + rewrite forallb_forall in Hall.
      assert (Forall (λ e, one_span_heading e = false) visited) as HF.
      { apply Forall_forall. intros e He.
        apply list_elem_of_In, Hall, negb_true_iff in He. exact He. }
      split; [by split |]. split.
      * intros Hraise. destruct Hout as [md Hmd]. congruence.
      * intros (e & He & Hone)%Exists_exists.
        rewrite Forall_forall in HF. rewrite (HF e He) in Hone. done.
    + assert (Exists (λ e, one_span_heading e = true) visited) as HE.
      { apply not_true_iff_false in Hall.
        destruct (decide (Exists (λ e, one_span_heading e = true) visited))
          as [|Hnot]; [done |].
        destruct Hall. apply forallb_forall. intros e He.
        apply negb_true_iff, not_true_iff_false. intros Hone.
        apply Hnot, Exists_exists. exists e. split; [| done].
        by apply list_elem_of_In. }
      split; [| by split].
      split.
      * intros [md Hmd]. congruence.
      * intros HF. apply Exists_exists in HE as (e & He & Hone).
        rewrite Forall_forall in HF. rewrite (HF e He) in Hone. done.
Qed.

(** The replacement leaves no newline and keeps the length. *)
Lemma replace_newline (s : string) :
  Py.all_chars (λ c, negb (Ascii.eqb c newline)) (Py.replace newline space s)
  = true
  ∧ String.length (Py.replace newline space s) = String.length s.
Proof.
  induction s as [|c s [IH1 IH2]]; [done |].
  cbn [Py.replace Py.all_chars String.length]. rewrite IH1, IH2.
  split; [| done]. rewrite andb_true_r.
  destruct (Ascii.eqb c newline) eqn:Hc; [done |]. by rewrite Hc.
Qed.

(** The replacement, character by character. *)
Lemma replace_get (a b : ascii) (s : string) : ∀ i,
  String.get i (Py.replace a b s)
  = (λ c, if Ascii.eqb c a then b else c) <$> String.get i s.
Proof.
  induction s as [|c s IH]; intros [|i]; cbn [Py.replace String.get]; done.
Qed.

Lemma replace_absent (a b : ascii) (s : string) :
  Py.all_chars (λ c, negb (Ascii.eqb c a)) s = true → Py.replace a b s = s.
Proof.
  induction s as [|c s IH]; cbn [Py.all_chars Py.replace]; [done |].
  intros [Hc Hs]%andb_true_iff. apply negb_true_iff in Hc.
  by rewrite Hc, IH.
Qed.

(** X14. An [h2] outside the body paragraphs is rendered as one line,
    between two blank lines: two newlines, the marker, the heading, two
    newlines. The heading is the text of the element, character by
    character, with a space wherever the text has a newline: it has the
    length of the text and no newline, and it is the text itself when the
    text has no newline. *)
Theorem convert_h2_one_line (attrs : list (string * attr_value))
    (children : list node) :
  let h2 := Elem "h2" attrs children in
  class_contains "textabsatz" h2 = false →
  let text := get_text h2 false "" in
  let heading := Py.replace newline space text in
  convert_to_markdown h2
  = Ok (String newline (String newline "## ") +:+ heading
        +:+ String newline (String newline ""))
  ∧ (∀ i, String.get i heading
          = (λ c, if Ascii.eqb c newline then space else c)
              <$> String.get i text)
  ∧ Py.all_chars (λ c, negb (Ascii.eqb c newline)) heading = true
  ∧ String.length heading = String.length text
  ∧ (Py.all_chars (λ c, negb (Ascii.eqb c newline)) text = true →
     heading = text).
Proof.
  intros h2 Hcls text heading. split_and!.
  - unfold convert_to_markdown. fold h2. by rewrite Hcls.
  - apply replace_get.
  - apply replace_newline.
  - apply replace_newline.
  - apply replace_absent.
Qed.

End ConverterFacts.

(** The default removal on a page with a header around a heading. *)
Lemma remove_elements_removes_all_witness :
  Soup.name_of (Soup.Elem "p" [] [Soup.Text "y"]) ≠ Some "header"
  ∧ Soup.find_all
      (Markdown.remove_elements Markdown.default_tags_to_remove
         (Soup.Elem "[document]" []
            [Soup.Elem "header" [] [Soup.Elem "h1" [] [Soup.Text "x"]];
             Soup.Elem "p" [] [Soup.Text "y"]]))
    = [Soup.Elem "p" [] [Soup.Text "y"]].
Proof.
  split; [| reflexivity].
  apply (remove_elements_removes_all Markdown.default_tags_to_remove
           (Soup.Elem "[document]" []
              [Soup.Elem "header" [] [Soup.Elem "h1" [] [Soup.Text "x"]];
               Soup.Elem "p" [] [Soup.Text "y"]])
           "header" (Soup.Elem "p" [] [Soup.Text "y"])).
  - apply list_elem_of_here.
  - vm_compute. apply list_elem_of_here.
Defined.

(** A page without header, footer or aside. *)
Lemma remove_elements_idempotent_witness :
  Markdown.remove_elements Markdown.default_tags_to_remove
    (Soup.Elem "[document]" [] [Soup.Elem "p" [] [Soup.Text "y"]])
  = Soup.Elem "[document]" [] [Soup.Elem "p" [] [Soup.Text "y"]].
Proof.
  apply (proj1 (remove_elements_idempotent Markdown.default_tags_to_remove
                  (Soup.Elem "[document]" []
                     [Soup.Elem "p" [] [Soup.Text "y"]]))).
  intros tag n Htag Hn.
  apply elem_of_cons in Hn as [-> | Hn].
  - repeat (apply elem_of_cons in Htag as [-> | Htag]; [reflexivity |]).
    by apply elem_of_nil in Htag.
  - apply elem_of_cons in Hn as [-> | Hn]; [reflexivity |].
    by apply elem_of_nil in Hn.
Defined.

(** A secondary heading over two lines. *)
Lemma convert_h2_one_line_witness :
  Markdown.convert_to_markdown
    (Soup.Elem "h2" []
       [Soup.Text ("Zwei" +:+ String Markdown.newline "Zeilen")])
  = Ok (String Markdown.newline
          (String Markdown.newline
             ("## Zwei Zeilen"
              +:+ String Markdown.newline (String Markdown.newline "")))).
Proof.
  destruct (convert_h2_one_line []
              [Soup.Text ("Zwei" +:+ String Markdown.newline "Zeilen")])
    as (Hconv & _); [reflexivity |].
  rewrite Hconv. reflexivity.
Defined.

(** ** More on the date in the archive headline *)

Section HeadlineFacts.

Import Py DateCodec.

Variable german_month_names : list string.

(** The words of [split] are not empty and hold no whitespace. *)
Lemma split_from_words (s : string) : ∀ word,
  all_chars not_space word = true →
  Forall (λ w, is_empty w = false ∧ all_chars not_space w = true)
         (split_from s word).
Proof.
  induction s as [|c s IH]; intros word Hword; cbn [split_from].
  - destruct (is_empty word) eqn:Hempty; [constructor |].
    apply Forall_cons. split; [by split | constructor].
  - destruct (isspace c) eqn:Hc.
    + destruct (is_empty word) eqn:Hempty; [by apply IH |].
      constructor; [done | by apply IH].
    + apply IH. rewrite all_chars_app, Hword. cbn [all_chars].
      unfold not_space. by rewrite Hc.
Qed.

Lemma index_from_lookup (l : list string) (x : string) : ∀ start i,
  index_from l x start = Ok i →
  start ≤ i ∧ l !! Z.to_nat (i - start) = Some x.
Proof.
  induction l as [|y l IH]; intros start i; cbn [index_from]; [done |].
  destruct (String.eqb_spec y x) as [-> | Hne].
  - intros [= <-]. split; [lia |]. by rewrite Z.sub_diag.
  - intros [Hle Hl]%IH. split; [lia |].
    replace (Z.to_nat (i - start)) with (S (Z.to_nat (i - (start + 1))))
      by lia.
    done.
Qed.

Lemma index_lookup (l : list string) (x : string) (i : Z) :
  index l x = Ok i → 0 ≤ i ∧ l !! Z.to_nat i = Some x.
Proof.
  intros [Hle Hl]%index_from_lookup. rewrite Z.sub_0_r in Hl. done.
Qed.

(** What a headline text that parses is made of. *)
Lemma transform_date_in_headline_to_date_inv (text : string) (d : date) :
  transform_date_in_headline_to_date german_month_names text = Ok d →
  ∃ day_raw month_raw year_raw,
    split text = [day_raw; month_raw; year_raw]
    ∧ int (drop_last day_raw) = Ok (day d)
    ∧ index german_month_names month_raw = Ok (month d)
    ∧ int year_raw = Ok (year d)
    ∧ valid_date d = true.
Proof.
  unfold transform_date_in_headline_to_date.
  destruct (split text) as [|day_raw [|month_raw [|year_raw [|? ?]]]];
    try done.
  destruct (int (drop_last day_raw)) as [dd|?] eqn:Hday; [| done].
  rewrite result_bind_ok.
  destruct (index german_month_names month_raw) as [m|?] eqn:Hmonth; [| done].
  rewrite result_bind_ok.
  destruct (int year_raw) as [y|?] eqn:Hyear; [| done].
  rewrite result_bind_ok. unfold date_of.
  destruct (negb _); [done |].
  destruct (valid_date (Date y m dd)) eqn:Hvalid; [| done].
  intros [= <-]. by exists day_raw, month_raw, year_raw.
Qed.

(** X15. Reading a headline text gives a valid date or raises; for every
    text that reads as a date [d], whatever the month table, writing [d]
    gives a text that reads as [d] again. *)
Theorem headline_date_headline_stable (text : string) (d : date) :
  transform_date_in_headline_to_date german_month_names text = Ok d →
  valid_date d = true
  ∧ ∃ headline,
      transform_date_to_date_in_headline german_month_names d = Ok headline
      ∧ transform_date_in_headline_to_date german_month_names headline = Ok d.
Proof.
  intros Hread.
  destruct (transform_date_in_headline_to_date_inv _ _ Hread)
    as (day_raw & month_raw & year_raw & Hsplit & _ & Hidx & _ & Hvalid).
  split; [done |].
  destruct (valid_date_bounds d Hvalid) as (Hy & Hm & Hd).
  destruct (index_lookup _ _ _ Hidx) as [Hm0 Hname].
  pose proof (split_from_words text "" eq_refl) as Hwords.
  fold (split text) in Hwords. rewrite Hsplit in Hwords.
  apply Forall_cons in Hwords as [_ Hwords].
  apply Forall_cons in Hwords as [[Hne Hns] _].
  unfold transform_date_to_date_in_headline.
  rewrite (getitem_lookup _ _ _ Hm0 Hname), result_bind_ok.
  eexists. split; [reflexivity |].
  unfold transform_date_in_headline_to_date.
  rewrite split_headline;
    [| by apply str_word; lia | done | done | by apply str_word; lia
     | apply str_not_empty].
  destruct (valid_date_ranges d Hvalid) as (_ & _ & Hd31).
  rewrite drop_last_snoc, Hidx, !int_str_field by lia.
  rewrite !result_bind_ok.
  destruct d as [y m dd]. by apply date_of_valid.
Qed.

Lemma int_raises (s : string) (e : exn) :
  int s = Raise e → e = ValueError "".
Proof.
  unfold int. cbv zeta.
  match goal with
  | |- context [match ?body with Some _ => _ | None => _ end] =>
      destruct body
  end; [destruct (_ <? _)%nat |]; by intros [=].
Qed.

Lemma index_from_raises (l : list string) (x : string) : ∀ start e,
  index_from l x start = Raise e → e = ValueError "".
Proof.
  induction l as [|y l IH]; intros start e; cbn [index_from].
  - by intros [=].
  - destruct (String.eqb y x); [done | apply IH].
Qed.

(** X16. Reading a headline text raises [ValueError] or [OverflowError]
    and nothing else. [OverflowError] comes from the constructor of the
    date, which takes its arguments as C integers before it checks the
    calendar: it is raised exactly when the text has three words, the day
    and the year are numbers, the month name is in the table, and the year,
    the month number or the day does not fit a C integer. Every other
    failure is a [ValueError]: a text that is not three words, a day or a
    year that is no number or has too many digits, a month name that is not
    in the table, a date that fits but does not exist. *)
Theorem headline_to_date_raises_ValueError_or_OverflowError
    (text : string) (e : exn) :
  transform_date_in_headline_to_date german_month_names text = Raise e →
  (e = ValueError "" ∨ e = OverflowError "")
  ∧ (e = OverflowError ""
     ↔ ∃ day_raw month_raw year_raw d m y,
         split text = [day_raw; month_raw; year_raw]
         ∧ int (drop_last day_raw) = Ok d
         ∧ index german_month_names month_raw = Ok m
         ∧ int year_raw = Ok y
         ∧ c_int y && c_int m && c_int d = false).
Proof.
  unfold transform_date_in_headline_to_date.
  assert (∀ e', e' = ValueError "" → Raise (A := date) e' = Raise e →
            (e = ValueError "" ∨ e = OverflowError "")
            ∧ (e = OverflowError "" ↔ False)) as Hvalue.
  { intros e' -> [= <-]. split; [by left | done]. }
  destruct (split text) as [|day_raw [|month_raw [|year_raw [|? ?]]]];
    try (intros [Hor Hiff]%(Hvalue _ eq_refl); split; [done |];
         rewrite Hiff; split; [done |]; by intros (? & ? & ? & ? & ? & ? & [=] & _)).
  destruct (int (drop_last day_raw)) as [dd|n] eqn:Hday.
  2:{ pose proof (int_raises _ _ Hday) as ->.
      intros [Hor Hiff]%(Hvalue _ eq_refl). split; [done |].
      rewrite Hiff. split; [done |].
      intros (? & ? & ? & ? & ? & ? & [= <- <- <-] & Hd & _). congruence. }
  rewrite result_bind_ok.
  destruct (index german_month_names month_raw) as [m|n] eqn:Hmonth.
  2:{ pose proof (index_from_raises _ _ _ _ Hmonth) as ->.
      intros [Hor Hiff]%(Hvalue _ eq_refl). split; [done |].
      rewrite Hiff. split; [done |].
      intros (? & ? & ? & ? & ? & ? & [= <- <- <-] & _ & Hm & _).
      congruence. }
  rewrite result_bind_ok.
  destruct (int year_raw) as [y|n] eqn:Hyear.
  2:{ pose proof (int_raises _ _ Hyear) as ->.
      intros [Hor Hiff]%(Hvalue _ eq_refl). split; [done |].
      rewrite Hiff. split; [done |].
      intros (? & ? & ? & ? & ? & ? & [= <- <- <-] & _ & _ & Hy & _).
      congruence. }
  rewrite result_bind_ok. unfold date_of.
  destruct (c_int y && c_int m && c_int dd) eqn:Hfit; cbn [negb].
  - destruct (valid_date _); [done |].
    intros [Hor Hiff]%(Hvalue _ eq_refl). split; [done |].
    rewrite Hiff. split; [done |].
    intros (? & ? & ? & d' & m' & y' & [= <- <- <-] & Hd & Hm & Hy & Hno).
    rewrite Hday in Hd. rewrite Hmonth in Hm. rewrite Hyear in Hy.
    congruence.
  - intros [= <-]. split; [by right |]. split; [| done].
    intros _. by exists day_raw, month_raw, year_raw, dd, m, y.
Qed.

(** X17. Writing the headline of a valid date needs a table entry at the
    position of its month: it returns when the table is longer than the
    month number and raises [IndexError] otherwise, so a table of the
    twelve names alone, without an entry at position 0, fails for
    December. *)
Theorem date_to_headline_needs_month_entry (d : date) :
  valid_date d = true →
  (month d < Z.of_nat (length german_month_names) →
   ∃ name,
     german_month_names !! Z.to_nat (month d) = Some name
     ∧ transform_date_to_date_in_headline german_month_names d
       = Ok (str (day d) +:+ ". " +:+ name +:+ " " +:+ str (year d)))
  ∧ (Z.of_nat (length german_month_names) ≤ month d →
     transform_date_to_date_in_headline german_month_names d
     = Raise IndexError).
Proof.
  intros Hvalid. destruct (valid_date_bounds d Hvalid) as (_ & Hm & _).
  unfold transform_date_to_date_in_headline. split.
  - intros Hlt.
    destruct (german_month_names !! Z.to_nat (month d)) as [name|] eqn:Hname.
    + exists name. split; [done |].
      assert (0 ≤ month d) as Hm0 by lia.
      by rewrite (getitem_lookup _ _ _ Hm0 Hname).
    + apply lookup_ge_None in Hname. lia.
  - intros Hge. unfold getitem. cbv zeta.
    assert ((month d <? 0) = false) as -> by (apply Z.ltb_ge; lia).
    assert ((month d <? 0) = false) as -> by (apply Z.ltb_ge; lia).
    rewrite lookup_ge_None_2 by lia. reflexivity.
Qed.

End HeadlineFacts.

(** A headline with a zero before the day and blanks around. *)
Lemma headline_date_headline_stable_witness :
  ∃ headline,
    DateCodec.transform_date_to_date_in_headline
      DateCodec.german_month_names_table (DateCodec.Date 2023 5 5)
    = Ok headline
    ∧ DateCodec.transform_date_in_headline_to_date
        DateCodec.german_month_names_table headline
      = Ok (DateCodec.Date 2023 5 5).
Proof.
  apply (headline_date_headline_stable DateCodec.german_month_names_table
           "  05. Mai   2023 " (DateCodec.Date 2023 5 5)).
  reflexivity.
Defined.

(** A year one beyond the largest C integer, and the largest one. *)
Lemma headline_to_date_raises_ValueError_or_OverflowError_witness :
  DateCodec.transform_date_in_headline_to_date
    DateCodec.german_month_names_table "1. Mai 2147483648"
  = Raise (OverflowError "")
  ∧ (∃ day_raw month_raw year_raw d m y,
       Py.split "1. Mai 2147483648" = [day_raw; month_raw; year_raw]
       ∧ Py.int (Py.drop_last day_raw) = Ok d
       ∧ Py.index DateCodec.german_month_names_table month_raw = Ok m
       ∧ Py.int year_raw = Ok y
       ∧ DateCodec.c_int y && DateCodec.c_int m && DateCodec.c_int d = false)
  ∧ DateCodec.transform_date_in_headline_to_date
      DateCodec.german_month_names_table "1. Mai 2147483647"
    = Raise (ValueError "")
  ∧ ¬ (∃ day_raw month_raw year_raw d m y,
         Py.split "1. Mai 2147483647" = [day_raw; month_raw; year_raw]
         ∧ Py.int (Py.drop_last day_raw) = Ok d
         ∧ Py.index DateCodec.german_month_names_table month_raw = Ok m
         ∧ Py.int year_raw = Ok y
         ∧ DateCodec.c_int y && DateCodec.c_int m && DateCodec.c_int d
           = false).
Proof.
  destruct (headline_to_date_raises_ValueError_or_OverflowError
              DateCodec.german_month_names_table "1. Mai 2147483648"
              (OverflowError "")) as [_ Hover]; [vm_compute; reflexivity |].
  destruct (headline_to_date_raises_ValueError_or_OverflowError
              DateCodec.german_month_names_table "1. Mai 2147483647"
              (ValueError "")) as [_ Hvalue]; [vm_compute; reflexivity |].
  split; [vm_compute; reflexivity |]. split; [by apply Hover |].
  split; [vm_compute; reflexivity |].
  intros Hfit. by apply Hvalue in Hfit.
Defined.

(** December with the twelve names alone. *)
Lemma date_to_headline_needs_month_entry_witness :
  DateCodec.transform_date_to_date_in_headline
    (tail DateCodec.german_month_names_table) (DateCodec.Date 2023 12 31)
  = Raise IndexError.
Proof.
  apply (date_to_headline_needs_month_entry
           (tail DateCodec.german_month_names_table)
           (DateCodec.Date 2023 12 31)).
  - reflexivity.
  - vm_compute. discriminate.
Defined.

(** ** More on the archive URL *)

Section UrlInjective.

Import Py DateCodec.

Lemma app_inj_length (s1 s2 t1 t2 : string) :
  String.length s1 = String.length s2 →
  s1 +:+ t1 = s2 +:+ t2 → s1 = s2 ∧ t1 = t2.
Proof.
  revert s2. induction s1 as [|c s1 IH]; intros [|c' s2]; try done.
  cbn [String.length String.append]. intros [= Hlen] [= <- Happ].
  destruct (IH s2 Hlen Happ) as [-> ->]. done.
Qed.

Lemma zeros_length (k : nat) : String.length (zeros k) = k.
Proof. induction k as [|k IH]; cbn; [done | by rewrite IH]. Qed.

Lemma zfill_length (w : nat) (s : string) :
  (String.length s ≤ w)%nat → String.length (zfill w s) = w.
Proof.
  intros Hs. unfold zfill. rewrite length_app_s, zeros_length. lia.
Qed.

Lemma int_digits_zeros (k : nat) : ∀ s b,
  int_digits (zeros k +:+ s) 0 b
  = int_digits s 0 (b || negb (Nat.eqb k 0)).
Proof.
  induction k as [|k IH]; intros s b.
  - cbn [zeros String.append Nat.eqb negb]. by rewrite orb_false_r.
  - cbn [zeros String.append int_digits]. change (digit_of "0") with (Some 0).
    cbv iota. rewrite IH. cbn. by rewrite orb_true_r.
Qed.

(** Reading a zero-filled number gives the number. *)
Lemma int_digits_zfill (w : nat) (n : Z) :
  0 ≤ n → int_digits (zfill w (str n)) 0 false = Some n.
Proof.
  intros Hn. unfold zfill, str. destruct (Z.ltb_spec n 0); [lia |].
  rewrite int_digits_zeros. unfold str_nonneg.
  by rewrite (int_digits_digits_from _ n "" _ (log2_fuel n Hn)).
Qed.

Lemma zfill_str_inj (w : nat) (n1 n2 : Z) :
  0 ≤ n1 → 0 ≤ n2 → zfill w (str n1) = zfill w (str n2) → n1 = n2.
Proof.
  intros H1 H2 Heq.
  pose proof (int_digits_zfill w n1 H1) as Hr1.
  rewrite Heq, (int_digits_zfill w n2 H2) in Hr1. congruence.
Qed.

Lemma str_digits (n : Z) : 0 ≤ n → all_chars is_digit (str n) = true.
Proof.
  intros Hn. unfold str. destruct (Z.ltb_spec n 0); [lia |].
  apply str_nonneg_digits.
Qed.

Lemma strftime_fields_length (d : date) :
  valid_date d = true →
  (1 ≤ String.length (str (year d)) ≤ 4)%nat
  ∧ String.length (zfill 2 (str (month d))) = 2%nat
  ∧ String.length (zfill 2 (str (day d))) = 2%nat.
Proof.
  intros (Hy & Hm & Hd)%valid_date_ranges.
  split_and!; try apply zfill_length.
  - pose proof (str_not_empty (year d)) as Hne.
    destruct (str (year d)); [done | cbn [String.length]; lia].
  - apply (str_length _ 3). change (10 ^ Z.of_nat 4) with 10000. lia.
  - apply (str_length _ 1). change (10 ^ Z.of_nat 2) with 100. lia.
  - apply (str_length _ 1). change (10 ^ Z.of_nat 2) with 100. lia.
Qed.

Lemma strftime_length (d : date) :
  valid_date d = true →
  String.length (strftime_Ymd d)
  = (String.length (str (year d)) + 6)%nat.
Proof.
  intros (Hy & Hm & Hd)%strftime_fields_length. unfold strftime_Ymd.
  rewrite !length_app_s, Hm, Hd. cbn [String.length]. lia.
Qed.

(** The year ends at the first minus sign. *)
Lemma digits_minus_inj (s1 s2 t1 t2 : string) :
  all_chars is_digit s1 = true → all_chars is_digit s2 = true →
  s1 +:+ String "-" t1 = s2 +:+ String "-" t2 → s1 = s2 ∧ t1 = t2.
Proof.
  revert s2. induction s1 as [|c s1 IH]; intros [|c' s2];
    cbn [all_chars String.append].
  - by intros _ _ [= ->].
  - intros _ [Hc _]%andb_true_iff [= <- _]. discriminate Hc.
  - intros [Hc _]%andb_true_iff _ [= -> _]. discriminate Hc.
  - intros [_ H1]%andb_true_iff [_ H2]%andb_true_iff [= <- Happ].
    destruct (IH s2 H1 H2 Happ) as [-> ->]. done.
Qed.

(** The date at the front of a text is read off the text. *)
Lemma strftime_inj (d1 d2 : date) (t1 t2 : string) :
  valid_date d1 = true → valid_date d2 = true →
  strftime_Ymd d1 +:+ t1 = strftime_Ymd d2 +:+ t2 → d1 = d2 ∧ t1 = t2.
Proof.
  intros Hv1 Hv2. unfold strftime_Ymd.
  destruct (strftime_fields_length d1 Hv1) as (_ & Hm1 & Hd1).
  destruct (strftime_fields_length d2 Hv2) as (_ & Hm2 & Hd2).
  destruct (valid_date_ranges d1 Hv1) as (? & ? & ?).
  destruct (valid_date_ranges d2 Hv2) as (? & ? & ?).
  rewrite !app_assoc_s. cbn [String.append].
  intros [Hy Hrest]%digits_minus_inj; [| apply str_digits; lia..].
  apply app_inj_length in Hrest as [Hm Hrest]; [| congruence].
  injection Hrest as Hrest.
  apply app_inj_length in Hrest as [Hd Ht]; [| congruence].
  apply (zfill_str_inj 0) in Hy; [| lia..].
  apply zfill_str_inj in Hm, Hd; try lia.
  split; [| done].
  destruct d1, d2; cbn [year month day] in *; congruence.
Qed.

Lemma create_url_ok_inv (d : date) (category url : string) :
  create_url_for_news_archive d category = Ok url →
  ∃ suffix,
    url = "https://www.tagesschau.de/archiv/?datum="
          +:+ strftime_Ymd d +:+ suffix
    ∧ (suffix = "&ressort=" +:+ category ∨ category = "all" ∧ suffix = "").
Proof.
  unfold create_url_for_news_archive. case_bool_decide.
  - intros [= <-]. eexists. split; [reflexivity | by left].
  - destruct (String.eqb_spec category "all") as [-> | ?]; [| done].
    intros [= <-]. exists "". rewrite app_empty_r. split; [done | by right].
Qed.

(** X18. For valid dates the date in the URL is the year, as many digits
    as it has, and six more characters, seven to ten in all; and the URL
    tells the date and the category: two calls that return the same URL
    were given the same date and the same category. *)
Theorem archive_url_injective (d1 d2 : date) (category1 category2 url : string) :
  valid_date d1 = true → valid_date d2 = true →
  create_url_for_news_archive d1 category1 = Ok url →
  create_url_for_news_archive d2 category2 = Ok url →
  String.length (strftime_Ymd d1)
  = (String.length (str (year d1)) + 6)%nat
  ∧ (7 ≤ String.length (strftime_Ymd d1) ≤ 10)%nat
  ∧ d1 = d2 ∧ category1 = category2.
Proof.
  intros Hv1 Hv2 Hurl1 Hurl2.
  pose proof (strftime_length d1 Hv1) as Hl1.
  destruct (strftime_fields_length d1 Hv1) as (Hy1 & _).
  split; [done |]. split; [lia |].
  apply create_url_ok_inv in Hurl1 as (suffix1 & -> & Hs1).
  apply create_url_ok_inv in Hurl2 as (suffix2 & Heq & Hs2).
  apply (inj (String.append _)) in Heq.
  apply strftime_inj in Heq as [Hd <-]; [| done..].
  split; [done |].
  destruct Hs1 as [-> | [-> ->]], Hs2 as [Heq | [-> Heq]]; try done.
  by apply (inj (String.append _)) in Heq.
Qed.

End UrlInjective.

(** New Year's Day of the year 5, in every category: seven characters. *)
Lemma archive_url_injective_witness :
  DateCodec.create_url_for_news_archive (DateCodec.Date 5 1 1) "all"
  = Ok "https://www.tagesschau.de/archiv/?datum=5-01-01"
  ∧ String.length (DateCodec.strftime_Ymd (DateCodec.Date 5 1 1)) = 7%nat
  ∧ (7 ≤ String.length (DateCodec.strftime_Ymd (DateCodec.Date 5 1 1))
     ≤ 10)%nat
  ∧ DateCodec.Date 5 1 1 = DateCodec.Date 5 1 1
  ∧ "all" = "all".
Proof.
  split; [reflexivity |].
  apply (archive_url_injective (DateCodec.Date 5 1 1)
           (DateCodec.Date 5 1 1) "all" "all"
           "https://www.tagesschau.de/archiv/?datum=5-01-01");
    reflexivity.
Defined.

(** ** The table of stored teasers *)

Section DBFacts.

Import DB.

Lemma first_missing_None (content : gmap string string) :
  first_missing content = None
  ↔ ∀ key, key ∈ bindings → is_Some (content !! key).
Proof.
  unfold first_missing. split.
  - intros Hnone key Hkey%list_elem_of_In.
    pose proof (find_none _ _ Hnone key Hkey) as Hdec. cbn beta in Hdec.
    apply bool_decide_eq_false in Hdec.
    by destruct (content !! key); [eexists |].
  - intros Hall.
    destruct (List.find _ bindings) as [key|] eqn:Hfind; [| done].
    apply find_some in Hfind as [Hkey%list_elem_of_In Hdec].
    apply bool_decide_eq_true in Hdec. destruct (Hall key Hkey) as [v Hv].
    congruence.
Qed.


Lemma insert_outcome (content : gmap string string) (rows : list row) :
  ((∀ key, key ∈ bindings → is_Some (content !! key))
   ∧ ∃ rows', insert content (Some rows) = (inr tt, Some rows'))
  ∨ ((∃ key, key ∈ bindings ∧ content !! key = None)
     ∧ ∃ msg, insert content (Some rows)
              = (inl (ProgrammingError msg), Some rows)).
Proof.
  unfold insert, bind.
  destruct (first_missing content) as [key|] eqn:Hmissing.
  - right. split; [| by eexists].
    unfold first_missing in Hmissing.
    apply find_some in Hmissing as [Hkey%list_elem_of_In Hdec].
    apply bool_decide_eq_true in Hdec. by exists key.
  - left. split; [by apply first_missing_None |].
    destruct (has_id _ rows); by eexists.
Qed.

(** X19. On an existing table, [insert] returns exactly for a dictionary
    that has every one of the seven bound names as a key; when one is
    missing it raises [ProgrammingError] and the table is left as it was. *)
Theorem insert_needs_every_binding (content : gmap string string)
    (rows : list row) :
  ((∀ key, key ∈ bindings → is_Some (content !! key))
   ∧ ∃ rows', insert content (Some rows) = (inr tt, Some rows'))
  ∨ ((∃ key, key ∈ bindings ∧ content !! key = None)
     ∧ ∃ msg, insert content (Some rows)
              = (inl (ProgrammingError msg), Some rows)).
Proof. apply insert_outcome. Qed.


End DBFacts.

(** ** From the pipeline to the table *)

Section StoreRecords.

Import Soup Scraper DB.

Context {collaborators : Collaborators}.

(** X21. The record that a turn of the loop appends can be inserted into
    an existing table exactly when the fetch of its article returned and
    the block has a topline element: a record left without tags by a failed
    fetch, or without topline, makes [insert] raise. *)
Theorem appended_record_insertable_iff (teaser : node) (acc : list loc)
    (st st' : state) (rows : list row) :
  process_teaser teaser acc st = (Ok (acc ++ [length (heap st)]), st') →
  ∃ link,
    let record := heap st' !!! length (heap st) in
    record !! "link" = Some link
    ∧ ((∃ rows', insert record (Some rows) = (inr tt, Some rows'))
       ↔ (∃ article_soup,
            fst (get_soup_from_url link (world st)) = Ok article_soup)
         ∧ is_Some (find_class "teaser-right__topline" teaser)).
Proof.
  intros Hturn.
  destruct (process_teaser_appends_cases _ _ _ _ _ Hturn)
    as [(Hhead & Hshort & _) | [_ Heq]].
  2:{ apply (f_equal length) in Heq. rewrite length_app in Heq.
      cbn in Heq. lia. }
  destruct (process_teaser_new_record _ _ _ _ _ Hturn)
    as (href & date_tag & date' & _ & _ & Hheap & _).
  exists (absolute_link href). cbv zeta.
  rewrite Hheap, list_lookup_total_middle by done.
  set (fetched := fst (get_soup_from_url (absolute_link href) (world st))).
  destruct (turn_record_lookup teaser href date' fetched)
    as (Hlink & Hid & Hdate & Htags & Htext).
  split; [done |].
  pose proof (Htext "topline") as Htop.
  pose proof (Htext "headline") as Hh.
  pose proof (Htext "shorttext") as Hs.
  change ("teaser-right__" +:+ "topline") with "teaser-right__topline" in Htop.
  change ("teaser-right__" +:+ "headline") with "teaser-right__headline" in Hh.
  change ("teaser-right__" +:+ "shorttext")
    with "teaser-right__shorttext" in Hs.
  rewrite <- fmap_is_Some with (f := λ tag, get_text tag true " ").
  rewrite <- Htop by set_solver.
  rewrite <- fmap_is_Some with (f := λ tag, get_text tag true " ")
    in Hhead, Hshort.
  rewrite <- Hh in Hhead by set_solver.
  rewrite <- Hs in Hshort by set_solver.
  destruct (insert_outcome
              (turn_record teaser href date' fetched) rows)
    as [[Hall Hok] | [(key & Hkey & Hnone) (msg & Hraise)]].
  - split; [| done]. intros _. split.
    + assert (is_Some (turn_record teaser href date' fetched !! "tags"))
        as [tags Hsome] by (apply Hall; unfold bindings; set_solver).
      rewrite Htags in Hsome. destruct fetched; [by eexists | done].
    + apply Hall. unfold bindings. set_solver.
  - split; [intros [rows' Hok]; congruence |].
    intros [[article_soup Hfetched] Htopline]. exfalso.
    rewrite Hfetched in Htags.
    destruct Htopline as [? ?], Hhead as [? ?], Hshort as [? ?].
    unfold bindings in Hkey.
    assert (key = "id" ∨ key = "date" ∨ key = "topline" ∨ key = "headline"
            ∨ key = "shorttext" ∨ key = "link" ∨ key = "tags")
      as [->|[->|[->|[->|[->|[->| ->]]]]]] by set_solver;
      congruence.
Qed.

End StoreRecords.


(** The record of the complete sample block has no topline. *)
Lemma appended_record_insertable_iff_witness :
  ∃ link,
    (Scraper.heap
       (snd (Scraper.process_teaser Samples.good_block []
               Samples.empty_state)) !!! 0%nat) !! "link" = Some link.
Proof.
  destruct (appended_record_insertable_iff
              (collaborators := Samples.sample_collaborators)
              Samples.good_block [] Samples.empty_state
              (snd (Scraper.process_teaser Samples.good_block []
                      Samples.empty_state)) [])
    as (link & Hlink & _); [vm_compute; reflexivity |].
  by exists link.
Defined.
